(** * Chronos: the time-entry store, its HTTP front and the client hooks

    A shallow embedding of the parts of the repository that carry the
    timer and time-entry consistency rules:

    - [Store]: the [time_entries] table of the SQL migrations, with its
      CHECK constraint, its partial unique index and the
      [calculate_duration] trigger;
    - [JsDate]: the ECMAScript date arithmetic used by the client;
    - [Wire], [Js]: the JSON objects exchanged and asynchronous
      JavaScript as state-passing programs;
    - [Client]: the API client ([getTimeStats]) and the React hooks
      [useTimer] and [useTimeEntries];
    - [Http]: the Next.js route handlers that sit between the client and
      the backend service;
    - [Backend]: the create, update and list operations of the backend
      service, which is not among the sources;
    - [System]: the layers put together;
    - [TimeUtils]: the formatting and date helpers of [lib/time-utils];
    - [TimeEntriesAPI]: the remaining methods of the API client, and
      what reaches the hooks through the routes;
    - [Components]: the paging of the table, the date presets of the
      filter panel, the edit dialog and the form schemas. *)

From Stdlib Require Import ZArith List String Bool Lia.
From Stdlib Require DecimalString DecimalZ DecimalPos.
Import ListNotations.
Local Open Scope Z_scope.

(** ** Small helpers shared by every layer *)

Definition is_none {A : Type} (o : option A) : bool :=
  match o with None => true | Some _ => false end.

Definition is_some {A : Type} (o : option A) : bool := negb (is_none o).

(** SQL equality of two nullable keys inside a unique index: NULL never
    equals anything, not even NULL. *)
Definition key_eqb (a b : option Z) : bool :=
  match a, b with
  | Some x, Some y => x =? y
  | _, _ => false
  end.

Lemma key_eqb_true (a b : option Z) :
  key_eqb a b = true -> exists x, a = Some x /\ b = Some x.
Proof.
  destruct a as [x|], b as [y|]; simpl; try discriminate.
  intros H. apply Z.eqb_eq in H. subst. eauto.
Qed.

Lemma key_eqb_refl (x : Z) : key_eqb (Some x) (Some x) = true.
Proof. simpl. apply Z.eqb_refl. Qed.

(** * The entry store (SQL migrations) *)

Module Store.

(** [UUID] values; [TIMESTAMP WITH TIME ZONE] is an instant with
    microsecond resolution, counted from the epoch. *)
Abbreviation uuid := Z.
Abbreviation timestamptz := Z.

(** One tuple of [time_entries].  Nullable columns are options; the
    NOT NULL columns [user_id] and [start_time] are options too, because
    a proposed tuple can carry NULL there until the constraint rejects
    it.  The key [id] is always supplied (its DEFAULT draws
    [gen_random_uuid()]). *)
Record row := mkRow {
  id : uuid;
  user_id : option uuid;
  description : option string;
  project_id : option uuid;
  task_id : option uuid;
  start_time : option timestamptz;
  end_time : option timestamptz;
  duration : option Z;
  created_at : option timestamptz;
  updated_at : option timestamptz
}.

Definition table := list row.

Definition set_duration (d : option Z) (r : row) : row :=
  mkRow (id r) (user_id r) (description r) (project_id r) (task_id r)
        (start_time r) (end_time r) d (created_at r) (updated_at r).

Definition set_updated_at (t : option timestamptz) (r : row) : row :=
  mkRow (id r) (user_id r) (description r) (project_id r) (task_id r)
        (start_time r) (end_time r) (duration r) (created_at r) t.

(** What a statement sees of the rest of the database: the transaction
    clock and which rows the referenced tables hold at that moment. *)
Record env := mkEnv {
  CURRENT_TIMESTAMP : timestamptz;
  users_has : uuid -> bool;
  projects_has : uuid -> bool;
  tasks_has : uuid -> bool
}.

Inductive column := col_user_id | col_start_time.

Inductive constraint :=
  | time_entries_pkey
  | idx_time_entries_user_running
  | chk_end_after_start_name
  | fk_user_id
  | fk_project_id
  | fk_task_id.

Inductive sql_error :=
  | not_null_violation (c : column)
  | check_violation (c : constraint)
  | unique_violation (c : constraint)
  | foreign_key_violation (c : constraint)
  | numeric_value_out_of_range.

(** *** The trigger [calculate_duration] *)

Definition int4_min : Z := -2147483648.
Definition int4_max : Z := 2147483647.

(** A [numeric] cast to [INTEGER] rounds to the nearest integer, ties
    away from zero; [n / d] is the exact quotient being rounded. *)
Definition round_half_away (n d : Z) : Z :=
  Z.sgn n * ((2 * Z.abs n + d) / (2 * d)).

(** [EXTRACT(EPOCH FROM iv)::INTEGER] for an interval of [iv]
    microseconds; [None] is the error "integer out of range". *)
Definition extract_epoch_integer (iv : Z) : option Z :=
  let secs := round_half_away iv 1000000 in
  if (int4_min <=? secs) && (secs <=? int4_max) then Some secs else None.

Definition calculate_duration (e : env) (NEW : row) : sql_error + row :=
  match end_time NEW, start_time NEW with
  | Some et, Some st =>
      match extract_epoch_integer (et - st) with
      | Some d =>
          inr (set_updated_at (Some (CURRENT_TIMESTAMP e))
                 (set_duration (Some d) NEW))
      | None => inl numeric_value_out_of_range
      end
  | _, _ =>
      inr (set_updated_at (Some (CURRENT_TIMESTAMP e))
             (set_duration None NEW))
  end.

(** Modelled from the spec: the trigger function
    [update_updated_at_column] is declared in a migration that is not
    part of the sources; [updated_at] is server-managed, so it stamps
    the row with the transaction clock. *)
Definition update_updated_at_column (e : env) (NEW : row) : sql_error + row :=
  inr (set_updated_at (Some (CURRENT_TIMESTAMP e)) NEW).

(** BEFORE INSERT fires [trigger_calculate_duration]; BEFORE UPDATE fires
    [trigger_calculate_duration] and then
    [trigger_time_entries_updated_at] (triggers run in name order). *)
Definition before_insert (e : env) (NEW : row) : sql_error + row :=
  calculate_duration e NEW.

Definition before_update (e : env) (NEW : row) : sql_error + row :=
  match calculate_duration e NEW with
  | inl err => inl err
  | inr NEW' => update_updated_at_column e NEW'
  end.

(** *** Constraints *)

(** SQL's three-valued logic: [None] is NULL (unknown). *)
Definition sql_bool := option bool.

Definition sql_is_null {A : Type} (a : option A) : sql_bool := Some (is_none a).

Definition sql_gt (a b : option Z) : sql_bool :=
  match a, b with
  | Some x, Some y => Some (y <? x)
  | _, _ => None
  end.

Definition sql_or (a b : sql_bool) : sql_bool :=
  match a, b with
  | Some true, _ | _, Some true => Some true
  | Some false, Some false => Some false
  | _, _ => None
  end.

(** [CONSTRAINT chk_end_after_start
      CHECK (end_time IS NULL OR end_time > start_time)] *)
Definition chk_end_after_start (r : row) : sql_bool :=
  sql_or (sql_is_null (end_time r)) (sql_gt (end_time r) (start_time r)).

(** A CHECK constraint fails only when its expression is false. *)
Definition check_passes (b : sql_bool) : bool :=
  match b with Some false => false | _ => true end.

(** [CREATE UNIQUE INDEX idx_time_entries_user_running
      ON time_entries(user_id) WHERE end_time IS NULL]:
    a tuple is in the index when its [end_time] is NULL, under the key
    [user_id]. *)
Definition in_running_index (r : row) : bool := is_none (end_time r).

Definition running_conflict (others : table) (r : row) : bool :=
  in_running_index r &&
  existsb (fun o => in_running_index o && key_eqb (user_id o) (user_id r))
          others.

Definition pkey_conflict (others : table) (r : row) : bool :=
  existsb (fun o => id o =? id r) others.

(** A reference is looked up when the tuple is new or the referencing
    column changed; NULL references nothing. *)
Definition fk_holds (has : uuid -> bool) (old new : option uuid)
                    (fresh : bool) : bool :=
  match new with
  | None => true
  | Some k =>
      if fresh then has k
      else match old with
           | Some k0 => if k0 =? k then true else has k
           | None => has k
           end
  end.

Definition fk_lookup (e : env) (OLD : option row) (r : row)
  : option sql_error :=
  let fresh := is_none OLD in
  let old (f : row -> option uuid) :=
      match OLD with Some o => f o | None => None end in
  if negb (fk_holds (users_has e) (old user_id) (user_id r) fresh)
  then Some (foreign_key_violation fk_user_id)
  else if negb (fk_holds (projects_has e) (old project_id) (project_id r) fresh)
  then Some (foreign_key_violation fk_project_id)
  else if negb (fk_holds (tasks_has e) (old task_id) (task_id r) fresh)
  then Some (foreign_key_violation fk_task_id)
  else None.

(** The checks a tuple version [r] goes through before it is stored next
    to the [others]: NOT NULL, CHECK, the unique indexes, then the
    references.  [None] means the tuple is accepted. *)
Definition check_row (e : env) (OLD : option row) (others : table) (r : row)
  : option sql_error :=
  if is_none (user_id r) then Some (not_null_violation col_user_id)
  else if is_none (start_time r) then Some (not_null_violation col_start_time)
  else if negb (check_passes (chk_end_after_start r))
  then Some (check_violation chk_end_after_start_name)
  else if pkey_conflict others r then Some (unique_violation time_entries_pkey)
  else if running_conflict others r
  then Some (unique_violation idx_time_entries_user_running)
  else fk_lookup e OLD r.

(** *** Statements *)

Inductive stmt :=
  | INSERT (NEW : row)
  | UPDATE (set : row -> row) (where_ : row -> bool)
  | DELETE (where_ : row -> bool).

Definition insert (e : env) (NEW : row) (tbl : table) : sql_error + table :=
  match before_insert e NEW with
  | inl err => inl err
  | inr r =>
      match check_row e None tbl r with
      | Some err => inl err
      | None => inr (tbl ++ [r])
      end
  end.

(** UPDATE visits the tuples in table order.  A new version is checked
    against the versions already written ([done]) and the tuples still to
    visit ([rest]); the first error aborts the whole statement. *)
Fixpoint update_rows (e : env) (set : row -> row) (where_ : row -> bool)
                     (done todo : table) : sql_error + table :=
  match todo with
  | [] => inr done
  | OLD :: rest =>
      if where_ OLD then
        match before_update e (set OLD) with
        | inl err => inl err
        | inr r =>
            match check_row e (Some OLD) (done ++ rest) r with
            | Some err => inl err
            | None => update_rows e set where_ (done ++ [r]) rest
            end
        end
      else update_rows e set where_ (done ++ [OLD]) rest
  end.

Definition update (e : env) (set : row -> row) (where_ : row -> bool)
                  (tbl : table) : sql_error + table :=
  update_rows e set where_ [] tbl.

Definition delete (where_ : row -> bool) (tbl : table) : table :=
  filter (fun r => negb (where_ r)) tbl.

(** A failed statement is rolled back: the table only moves on success. *)
Definition exec (e : env) (s : stmt) (tbl : table) : sql_error + table :=
  match s with
  | INSERT NEW => insert e NEW tbl
  | UPDATE set where_ => update e set where_ tbl
  | DELETE where_ => inr (delete where_ tbl)
  end.

Inductive reachable : table -> Prop :=
  | reachable_empty : reachable []
  | reachable_step (e : env) (s : stmt) (tbl tbl' : table) :
      reachable tbl -> exec e s tbl = inr tbl' -> reachable tbl'.

(** Running a list of statements one after the other, each with its own
    environment, keeping every outcome. *)
Fixpoint run (ss : list (env * stmt)) (tbl : table)
  : list (option sql_error) * table :=
  match ss with
  | [] => ([], tbl)
  | (e, s) :: rest =>
      match exec e s tbl with
      | inl err => let (out, t') := run rest tbl in (Some err :: out, t')
      | inr tbl' => let (out, t') := run rest tbl' in (None :: out, t')
      end
  end.

(** *** The invariants of the data model *)

(** The running entries of owner [u]. *)
Definition running_of (u : uuid) (tbl : table) : table :=
  filter (fun r => in_running_index r && key_eqb (user_id r) (Some u)) tbl.

(** I1: at most one entry of an owner has a NULL [end_time]. *)
Definition I1 (tbl : table) : Prop :=
  forall u, (List.length (running_of u tbl) <= 1)%nat.

(** I2: a stored [end_time] is strictly after the [start_time]. *)
Definition causal (r : row) : Prop :=
  forall et, end_time r = Some et ->
  exists st, start_time r = Some st /\ st < et.

(** I3: [duration] is what the trigger derives from the two bounds. *)
Definition derived_duration (r : row) : option Z :=
  match end_time r, start_time r with
  | Some et, Some st => extract_epoch_integer (et - st)
  | _, _ => None
  end.

Definition duration_derived (r : row) : Prop :=
  duration r = derived_duration r.

(** A start is the insert of a running entry for owner [u]. *)
Definition starts (u : uuid) (r : row) : Prop :=
  user_id r = Some u /\ end_time r = None /\ is_some (start_time r) = true.

Definition start_stmts (ss : list (env * row)) : list (env * stmt) :=
  map (fun p => (fst p, INSERT (snd p))) ss.

(** The outcome every start but the winner gets. *)
Definition conflict : option sql_error :=
  Some (unique_violation idx_time_entries_user_running).

(** Whether [r] is a running entry of owner [u]. *)
Definition runs_for (u : uuid) (r : row) : bool :=
  in_running_index r && key_eqb (user_id r) (Some u).

(** A tuple is [accepted] when it carries what the triggers and the row
    constraints leave behind. *)
Definition accepted (r : row) : Prop :=
  is_some (user_id r) = true /\ is_some (start_time r) = true /\
  causal r /\ duration_derived r /\
  (is_some (end_time r) = true -> is_some (duration r) = true).

(** *** Sample data *)

(** 2025-11-02 00:00:00 UTC, in microseconds. *)
Definition t0 : timestamptz := 1762041600000000.

Definition env0 : env :=
  mkEnv (t0 + 7200000000) (fun _ => true) (fun _ => true) (fun _ => true).

(** The tuple of [INSERT INTO time_entries (id, user_id, start_time)]. *)
Definition start_draft (k u : uuid) (st : timestamptz) : row :=
  mkRow k (Some u) None None None (Some st) None None None None.

(** A finished entry; the statement also tries to set [duration]. *)
Definition finished_draft (k u : uuid) (st et : timestamptz) (d : Z) : row :=
  mkRow k (Some u) None None None (Some st) (Some et) (Some d) None None.

(** *** Rounding to whole seconds *)

Lemma round_half_away_exact (k : Z) :
  round_half_away (k * 1000000) 1000000 = k.
Proof.
  unfold round_half_away.
  destruct (Z.abs_spec (k * 1000000)) as [[Hk Ha] | [Hk Ha]]; rewrite Ha.
  - replace (2 * (k * 1000000) + 1000000) with (k * (2 * 1000000) + 1000000)
      by lia.
    rewrite Z.div_add_l by lia.
    change (1000000 / (2 * 1000000)) with 0.
    destruct (Z.eq_dec k 0) as [->|Hn]; [reflexivity|].
    rewrite Z.sgn_pos by lia. lia.
  - replace (2 * - (k * 1000000) + 1000000)
      with ((- k) * (2 * 1000000) + 1000000) by lia.
    rewrite Z.div_add_l by lia.
    change (1000000 / (2 * 1000000)) with 0.
    rewrite Z.sgn_neg by lia. lia.
Qed.

Lemma round_half_away_near (n : Z) :
  Z.abs (1000000 * round_half_away n 1000000 - n) <= 500000.
Proof.
  unfold round_half_away.
  pose proof (Z.div_mod (2 * Z.abs n + 1000000) (2 * 1000000)) as Hdm.
  pose proof (Z.mod_pos_bound (2 * Z.abs n + 1000000) (2 * 1000000)) as Hb.
  set (q := (2 * Z.abs n + 1000000) / (2 * 1000000)) in *.
  set (m := (2 * Z.abs n + 1000000) mod (2 * 1000000)) in *.
  destruct (Z.abs_spec n) as [[Hn Ha] | [Hn Ha]]; rewrite Ha in *.
  - destruct (Z.eq_dec n 0) as [->|Hz].
    + subst q. simpl. lia.
    + rewrite Z.sgn_pos by lia. lia.
  - rewrite Z.sgn_neg by lia. lia.
Qed.

Lemma extract_epoch_integer_near (iv d : Z) :
  extract_epoch_integer iv = Some d ->
  Z.abs (1000000 * d - iv) <= 500000 /\
  (forall k, iv = k * 1000000 -> d = k).
Proof.
  unfold extract_epoch_integer.
  destruct (_ && _); [|discriminate].
  intros [= <-]. split.
  - apply round_half_away_near.
  - intros k ->. apply round_half_away_exact.
Qed.

(** *** What the triggers and the checks guarantee for one tuple *)

Lemma calculate_duration_inr (e : env) (NEW r : row) :
  calculate_duration e NEW = inr r ->
  r = set_updated_at (Some (CURRENT_TIMESTAMP e))
        (set_duration (derived_duration NEW) NEW) /\
  (is_some (end_time NEW) = true -> is_some (start_time NEW) = true ->
   is_some (derived_duration NEW) = true).
Proof.
  unfold calculate_duration, derived_duration.
  destruct (end_time NEW) as [et|], (start_time NEW) as [st|];
    try (intros [= <-]; split; [reflexivity|discriminate]).
  destruct (extract_epoch_integer (et - st)); [|discriminate].
  intros [= <-]; split; reflexivity.
Qed.

Lemma before_update_inr (e : env) (NEW r : row) :
  before_update e NEW = inr r ->
  r = set_updated_at (Some (CURRENT_TIMESTAMP e))
        (set_duration (derived_duration NEW) NEW) /\
  (is_some (end_time NEW) = true -> is_some (start_time NEW) = true ->
   is_some (derived_duration NEW) = true).
Proof.
  unfold before_update, update_updated_at_column.
  destruct (calculate_duration e NEW) as [err|r0] eqn:Hc; [discriminate|].
  apply calculate_duration_inr in Hc. destruct Hc as [-> Hd].
  intros [= <-]. split; [reflexivity|assumption].
Qed.

Lemma triggered_duration_derived (t : option timestamptz) (NEW : row) :
  duration_derived (set_updated_at t (set_duration (derived_duration NEW) NEW)).
Proof. reflexivity. Qed.

Lemma triggered_accepted (t : option timestamptz) (NEW r : row) :
  r = set_updated_at t (set_duration (derived_duration NEW) NEW) ->
  (is_some (end_time NEW) = true -> is_some (start_time NEW) = true ->
   is_some (derived_duration NEW) = true) ->
  is_some (user_id r) = true /\ is_some (start_time r) = true /\ causal r ->
  accepted r.
Proof.
  intros -> Hd (Hu & Hs & Hc). repeat split; try assumption.
  simpl in *. intros He. now apply Hd.
Qed.

Lemma check_row_causal (e : env) (OLD : option row) (others : table) (r : row) :
  check_row e OLD others r = None ->
  is_some (user_id r) = true /\ is_some (start_time r) = true /\ causal r.
Proof.
  unfold check_row, is_some.
  destruct (is_none (user_id r)); [discriminate|].
  destruct (is_none (start_time r)) eqn:Hs; [discriminate|].
  destruct (check_passes (chk_end_after_start r)) eqn:Hc; [|discriminate].
  intros _. repeat split. intros et Het.
  unfold chk_end_after_start in Hc. rewrite Het in Hc.
  destruct (start_time r) as [st|]; [|discriminate].
  exists st. split; [reflexivity|].
  simpl in Hc. destruct (st <? et) eqn:Hlt; [|discriminate].
  now apply Z.ltb_lt.
Qed.

Lemma check_row_no_running_conflict (e : env) (OLD : option row)
      (others : table) (r : row) :
  check_row e OLD others r = None -> running_conflict others r = false.
Proof.
  unfold check_row.
  destruct (is_none (user_id r)); [discriminate|].
  destruct (is_none (start_time r)); [discriminate|].
  destruct (negb _); [discriminate|].
  destruct (pkey_conflict others r); [discriminate|].
  destruct (running_conflict others r); [discriminate|reflexivity].
Qed.

Lemma insert_accepted (e : env) (NEW r : row) (tbl : table) :
  before_insert e NEW = inr r -> check_row e None tbl r = None -> accepted r.
Proof.
  intros Ht Hc. apply calculate_duration_inr in Ht. destruct Ht as [Hr Hd].
  apply check_row_causal in Hc.
  eapply triggered_accepted; eassumption.
Qed.

Lemma update_accepted (e : env) (OLD NEW r : row) (others : table) :
  before_update e NEW = inr r -> check_row e (Some OLD) others r = None ->
  accepted r.
Proof.
  intros Ht Hc. apply before_update_inr in Ht. destruct Ht as [Hr Hd].
  apply check_row_causal in Hc.
  eapply triggered_accepted; eassumption.
Qed.

(** *** Tables: the unique index *)

Lemma running_of_app (u : uuid) (a b : table) :
  running_of u (a ++ b) = running_of u a ++ running_of u b.
Proof. apply filter_app. Qed.

Lemma running_of_cons (u : uuid) (r : row) (l : table) :
  running_of u (r :: l) = if runs_for u r then r :: running_of u l
                          else running_of u l.
Proof. reflexivity. Qed.

Lemma running_conflict_false_nil (others : table) (r : row) (u : uuid) :
  running_conflict others r = false -> runs_for u r = true ->
  running_of u others = [].
Proof.
  unfold running_conflict, runs_for. intros Hc Hr.
  apply andb_true_iff in Hr. destruct Hr as [Hi Hk].
  rewrite Hi in Hc. simpl in Hc.
  apply key_eqb_true in Hk. destruct Hk as (x & Hx & [= <-]).
  rewrite Hx in Hc.
  induction others as [|o others IH]; [reflexivity|].
  simpl in Hc. apply orb_false_iff in Hc. destruct Hc as [Ho Hrest].
  rewrite running_of_cons. unfold runs_for at 1. rewrite Ho. now apply IH.
Qed.

Lemma running_conflict_true (others : table) (r : row) (u : uuid) :
  runs_for u r = true -> running_of u others <> [] ->
  running_conflict others r = true.
Proof.
  intros Hr Hne.
  destruct (running_conflict others r) eqn:Hc; [reflexivity|].
  exfalso. apply Hne. eapply running_conflict_false_nil; eassumption.
Qed.

Lemma I1_insert (tbl : table) (r : row) :
  I1 tbl -> running_conflict tbl r = false -> I1 (tbl ++ [r]).
Proof.
  intros H Hc u. rewrite running_of_app, length_app, running_of_cons.
  destruct (runs_for u r) eqn:Hr; simpl.
  - rewrite (running_conflict_false_nil tbl r u Hc Hr). simpl. lia.
  - specialize (H u). lia.
Qed.

Lemma I1_replace (done rest : table) (OLD r : row) :
  I1 (done ++ OLD :: rest) -> running_conflict (done ++ rest) r = false ->
  I1 (done ++ r :: rest).
Proof.
  intros H Hc u. specialize (H u).
  rewrite running_of_app, length_app, running_of_cons in *.
  destruct (runs_for u r) eqn:Hr.
  - pose proof (running_conflict_false_nil _ _ u Hc Hr) as Hnil.
    rewrite running_of_app in Hnil. apply app_eq_nil in Hnil.
    destruct Hnil as [-> ->]. simpl. lia.
  - destruct (runs_for u OLD); simpl in *; lia.
Qed.

Lemma running_of_delete (u : uuid) (where_ : row -> bool) (tbl : table) :
  (List.length (running_of u (delete where_ tbl))
   <= List.length (running_of u tbl))%nat.
Proof.
  unfold delete. induction tbl as [|r tbl IH]; [simpl; lia|].
  cbn [filter]. rewrite (running_of_cons u r tbl).
  destruct (where_ r); cbn [negb].
  - destruct (runs_for u r); simpl; lia.
  - rewrite running_of_cons. destruct (runs_for u r); simpl; lia.
Qed.

Lemma I1_delete (where_ : row -> bool) (tbl : table) :
  I1 tbl -> I1 (delete where_ tbl).
Proof.
  intros H u. specialize (H u).
  pose proof (running_of_delete u where_ tbl). lia.
Qed.

(** *** Tables: an UPDATE keeps what each of its steps keeps *)

Lemma update_rows_invariant (Inv : table -> Prop) (e : env)
      (set : row -> row) (where_ : row -> bool) :
  (forall done OLD rest r,
      Inv (done ++ OLD :: rest) ->
      before_update e (set OLD) = inr r ->
      check_row e (Some OLD) (done ++ rest) r = None ->
      Inv (done ++ r :: rest)) ->
  forall todo done tbl',
    Inv (done ++ todo) ->
    update_rows e set where_ done todo = inr tbl' -> Inv tbl'.
Proof.
  intros Hstep todo.
  induction todo as [|OLD rest IH]; intros done tbl' Hinv Hrun; simpl in Hrun.
  - injection Hrun as <-. now rewrite app_nil_r in Hinv.
  - destruct (where_ OLD).
    + destruct (before_update e (set OLD)) as [err|r] eqn:Ht; [discriminate|].
      destruct (check_row e (Some OLD) (done ++ rest) r) eqn:Hc;
        [discriminate|].
      apply (IH (done ++ [r])); [|assumption].
      rewrite <- app_assoc. simpl. eapply Hstep; eassumption.
    + apply (IH (done ++ [OLD])); [|assumption].
      now rewrite <- app_assoc.
Qed.

Lemma exec_I1 (e : env) (s : stmt) (tbl tbl' : table) :
  I1 tbl -> exec e s tbl = inr tbl' -> I1 tbl'.
Proof.
  intros H. destruct s as [NEW|set where_|where_]; simpl.
  - unfold insert.
    destruct (before_insert e NEW) as [err|r]; [discriminate|].
    destruct (check_row e None tbl r) eqn:Hc; [discriminate|].
    intros [= <-]. apply I1_insert; [assumption|].
    eapply check_row_no_running_conflict; eassumption.
  - unfold update. apply update_rows_invariant; [|assumption].
    intros done OLD rest r Hinv _ Hc.
    eapply I1_replace; [eassumption|].
    eapply check_row_no_running_conflict; eassumption.
  - intros [= <-]. now apply I1_delete.
Qed.

Lemma exec_accepted (e : env) (s : stmt) (tbl tbl' : table) :
  Forall accepted tbl -> exec e s tbl = inr tbl' -> Forall accepted tbl'.
Proof.
  intros H. destruct s as [NEW|set where_|where_]; simpl.
  - unfold insert.
    destruct (before_insert e NEW) as [err|r] eqn:Ht; [discriminate|].
    destruct (check_row e None tbl r) eqn:Hc; [discriminate|].
    intros [= <-]. apply Forall_app. split; [assumption|].
    constructor; [|constructor]. eapply insert_accepted; eassumption.
  - unfold update. apply update_rows_invariant; [|assumption].
    intros done OLD rest r Hinv Ht Hc.
    apply Forall_app in Hinv. destruct Hinv as [Hd Hr].
    inversion Hr; subst.
    apply Forall_app. split; [assumption|].
    constructor; [|assumption]. eapply update_accepted; eassumption.
  - intros [= <-]. unfold delete.
    rewrite Forall_forall in *. intros r Hr.
    apply filter_In in Hr. now apply H.
Qed.

Lemma reachable_I1 (tbl : table) : reachable tbl -> I1 tbl.
Proof.
  induction 1 as [|e s tbl tbl' _ IH Hex].
  - intros u. simpl. lia.
  - eapply exec_I1; eassumption.
Qed.

Lemma reachable_accepted (tbl : table) : reachable tbl -> Forall accepted tbl.
Proof.
  induction 1 as [|e s tbl tbl' _ IH Hex].
  - constructor.
  - eapply exec_accepted; eassumption.
Qed.

(** *** Racing starts *)

Lemma pkey_conflict_fresh (tbl : table) (r : row) :
  ~ In (id r) (map id tbl) -> pkey_conflict tbl r = false.
Proof.
  unfold pkey_conflict. induction tbl as [|o tbl IH]; [reflexivity|].
  simpl. intros Hn. apply orb_false_iff. split.
  - apply Z.eqb_neq. intros Heq. apply Hn. now left.
  - apply IH. intros Hin. apply Hn. now right.
Qed.

Lemma starts_triggered (e : env) (u : uuid) (r : row) :
  starts u r ->
  before_insert e r
  = inr (set_updated_at (Some (CURRENT_TIMESTAMP e)) (set_duration None r)).
Proof.
  intros (_ & He & _). unfold before_insert, calculate_duration.
  now rewrite He.
Qed.

Lemma insert_start_conflict (e : env) (u : uuid) (r : row) (tbl : table) :
  starts u r -> ~ In (id r) (map id tbl) -> running_of u tbl <> [] ->
  insert e r tbl = inl (unique_violation idx_time_entries_user_running).
Proof.
  intros Hs Hfresh Hrun. unfold insert.
  rewrite (starts_triggered e u r Hs).
  destruct Hs as (Hu & He & Hst).
  set (r' := set_updated_at _ _).
  assert (Hpk : pkey_conflict tbl r' = false) by now apply pkey_conflict_fresh.
  assert (Hrc : running_conflict tbl r' = true).
  { apply (running_conflict_true tbl r' u); [|assumption].
    unfold runs_for, in_running_index. simpl. rewrite He, Hu. simpl.
    apply Z.eqb_refl. }
  unfold check_row. simpl user_id. simpl start_time. rewrite Hu.
  unfold is_some in Hst. apply negb_true_iff in Hst. rewrite Hst.
  unfold chk_end_after_start. simpl end_time. rewrite He. simpl.
  now rewrite Hpk, Hrc.
Qed.

Lemma insert_start_ok (e : env) (u : uuid) (r : row) (tbl : table) :
  starts u r -> ~ In (id r) (map id tbl) -> running_of u tbl = [] ->
  fk_lookup e None r = None ->
  exists r', insert e r tbl = inr (tbl ++ [r']) /\ id r' = id r /\
             runs_for u r' = true.
Proof.
  intros Hs Hfresh Hrun Hfk. unfold insert.
  rewrite (starts_triggered e u r Hs).
  destruct Hs as (Hu & He & Hst).
  set (r' := set_updated_at _ _).
  exists r'.
  assert (Hpk : pkey_conflict tbl r' = false) by now apply pkey_conflict_fresh.
  assert (Hr' : runs_for u r' = true).
  { unfold runs_for, in_running_index. simpl. rewrite He, Hu. simpl.
    apply Z.eqb_refl. }
  assert (Hrc : running_conflict tbl r' = false).
  { unfold running_conflict. apply andb_false_iff. right.
    simpl user_id. rewrite Hu.
    change (existsb (fun o => runs_for u o) tbl = false).
    destruct (existsb _ tbl) eqn:Hex; [|reflexivity].
    apply existsb_exists in Hex. destruct Hex as (o & Ho & Hro).
    assert (In o (running_of u tbl)) by (apply filter_In; now split).
    rewrite Hrun in H. destruct H. }
  repeat split; try assumption.
  unfold check_row. simpl user_id. simpl start_time. rewrite Hu.
  unfold is_some in Hst. apply negb_true_iff in Hst. rewrite Hst.
  unfold chk_end_after_start. simpl end_time. rewrite He. simpl.
  rewrite Hpk, Hrc. change (fk_lookup e None r') with (fk_lookup e None r).
  now rewrite Hfk.
Qed.

Lemma run_starts_conflict (u : uuid) (tbl : table) (ss : list (env * row)) :
  running_of u tbl <> [] ->
  (forall p, In p ss -> starts u (snd p) /\ ~ In (id (snd p)) (map id tbl)) ->
  run (start_stmts ss) tbl = (map (fun _ => conflict) ss, tbl).
Proof.
  intros Hrun. induction ss as [|[e r] ss IH]; intros Hss; [reflexivity|].
  simpl. destruct (Hss (e, r) (or_introl eq_refl)) as [Hs Hf].
  rewrite (insert_start_conflict e u r tbl Hs Hf Hrun).
  rewrite IH by (intros p Hp; apply Hss; now right).
  reflexivity.
Qed.

Lemma run_starts_from_idle (u : uuid) (tbl : table)
      (first : env * row) (others : list (env * row)) :
  running_of u tbl = [] ->
  (forall p, In p (first :: others) ->
     starts u (snd p) /\ fk_lookup (fst p) None (snd p) = None /\
     ~ In (id (snd p)) (map id tbl)) ->
  NoDup (map (fun p => id (snd p)) (first :: others)) ->
  exists r',
    run (start_stmts (first :: others)) tbl
    = (None :: map (fun _ => conflict) others, tbl ++ [r']) /\
    exec (fst first) (INSERT (snd first)) tbl = inr (tbl ++ [r']) /\
    running_of u (tbl ++ [r']) = [r'].
Proof.
  intros Hidle Hss Hnd. destruct first as [e1 r1].
  destruct (Hss (e1, r1) (or_introl eq_refl)) as (Hs & Hfk & Hfresh).
  destruct (insert_start_ok e1 u r1 tbl Hs Hfresh Hidle Hfk)
    as (r' & Hins & Hid & Hruns).
  exists r'.
  assert (Hrun' : running_of u (tbl ++ [r']) = [r']).
  { rewrite running_of_app, Hidle, running_of_cons, Hruns. reflexivity. }
  repeat split; try assumption.
  cbn [start_stmts map run fst snd exec]. rewrite Hins.
  change (map (fun p : env * row => (fst p, INSERT (snd p))) others)
    with (start_stmts others).
  rewrite (run_starts_conflict u (tbl ++ [r']) others).
  - reflexivity.
  - rewrite Hrun'. discriminate.
  - intros p Hp. destruct (Hss p (or_intror Hp)) as (Hsp & _ & Hfp).
    split; [assumption|].
    rewrite map_app, in_app_iff. simpl. rewrite Hid.
    intros [Hin | [Heq | []]]; [now apply Hfp|].
    simpl in Hnd. inversion Hnd as [|x l Hnotin _]; subst.
    apply Hnotin. rewrite Heq.
    apply (in_map (fun q => id (snd q))) in Hp. exact Hp.
Qed.

(** *** The attempted [duration] of a write is ignored *)

Lemma calculate_duration_ignores (e : env) (d : option Z) (NEW : row) :
  calculate_duration e (set_duration d NEW) = calculate_duration e NEW.
Proof.
  unfold calculate_duration. simpl.
  destruct (end_time NEW), (start_time NEW); reflexivity.
Qed.

Lemma update_rows_ext (e : env) (set1 set2 : row -> row)
      (where_ : row -> bool) (todo done : table) :
  (forall o, before_update e (set1 o) = before_update e (set2 o)) ->
  update_rows e set1 where_ done todo = update_rows e set2 where_ done todo.
Proof.
  intros Hext. revert done.
  induction todo as [|OLD rest IH]; intros done; [reflexivity|].
  simpl. rewrite Hext.
  destruct (where_ OLD); [|apply IH].
  destruct (before_update e (set2 OLD)); [reflexivity|].
  destruct (check_row _ _ _ _); [reflexivity|apply IH].
Qed.

(** *** Writes that break causality *)

Lemma check_row_rejects (e : env) (OLD : option row) (others : table)
      (r : row) (st et : Z) :
  start_time r = Some st -> end_time r = Some et -> et <= st ->
  exists err, check_row e OLD others r = Some err.
Proof.
  intros Hs He Hle.
  destruct (check_row e OLD others r) as [err|] eqn:Hc; [eauto|].
  apply check_row_causal in Hc. destruct Hc as (_ & _ & Hc).
  destruct (Hc et He) as (st' & Hs' & Hlt).
  rewrite Hs in Hs'. injection Hs' as <-. lia.
Qed.

Lemma insert_rejects (e : env) (NEW : row) (tbl : table) (st et : Z) :
  start_time NEW = Some st -> end_time NEW = Some et -> et <= st ->
  exists err, insert e NEW tbl = inl err.
Proof.
  intros Hs He Hle. unfold insert.
  destruct (before_insert e NEW) as [err|r] eqn:Ht; [eauto|].
  apply calculate_duration_inr in Ht. destruct Ht as [-> _].
  destruct (check_row_rejects e None tbl
              (set_updated_at (Some (CURRENT_TIMESTAMP e))
                 (set_duration (derived_duration NEW) NEW)) st et Hs He Hle)
    as (err & ->).
  eauto.
Qed.

Lemma update_rows_rejects (e : env) (set : row -> row) (where_ : row -> bool)
      (OLD : row) (st et : Z) (todo done : table) :
  In OLD todo -> where_ OLD = true ->
  start_time (set OLD) = Some st -> end_time (set OLD) = Some et ->
  et <= st ->
  exists err, update_rows e set where_ done todo = inl err.
Proof.
  intros Hin Hw Hs He Hle. revert done.
  induction todo as [|o rest IH]; intros done; [destruct Hin|].
  simpl. destruct Hin as [-> | Hin].
  - rewrite Hw.
    destruct (before_update e (set OLD)) as [err|r] eqn:Ht; [eauto|].
    apply before_update_inr in Ht. destruct Ht as [-> _].
    destruct (check_row_rejects e (Some OLD) (done ++ rest)
                (set_updated_at (Some (CURRENT_TIMESTAMP e))
                   (set_duration (derived_duration (set OLD)) (set OLD)))
                st et Hs He Hle) as (err & ->).
    eauto.
  - destruct (where_ o); [|now apply IH].
    destruct (before_update e (set o)) as [err|r]; [eauto|].
    destruct (check_row _ _ _ _); [eauto|now apply IH].
Qed.

Lemma run_reachable (ss : list (env * stmt)) (tbl : table) :
  reachable tbl -> reachable (snd (run ss tbl)).
Proof.
  revert tbl. induction ss as [|[e s] ss IH]; intros tbl Hr; [exact Hr|].
  simpl. destruct (exec e s tbl) as [err|tbl'] eqn:Hex.
  - specialize (IH tbl Hr). destruct (run ss tbl). exact IH.
  - assert (Hr' : reachable tbl') by (eapply reachable_step; eassumption).
    specialize (IH tbl' Hr'). destruct (run ss tbl'). exact IH.
Qed.

(** *** Worked examples *)

Example two_starts_one_winner :
  fst (run (start_stmts [(env0, start_draft 1 7 t0);
                         (env0, start_draft 2 7 (t0 + 5000000))]) [])
  = [None; conflict].
Proof. reflexivity. Qed.

Example duration_3661 :
  insert env0 (finished_draft 1 7 t0 (t0 + 3661000000) 5) []
  = inr [mkRow 1 (Some 7) None None None (Some t0) (Some (t0 + 3661000000))
               (Some 3661) None (Some (CURRENT_TIMESTAMP env0))].
Proof. reflexivity. Qed.

Example rounding_to_whole_seconds :
  map extract_epoch_integer
      [1499999; 1500000; 2500000; 3661000000; 2147483647500000]
  = [Some 1; Some 2; Some 3; Some 3661; None].
Proof. reflexivity. Qed.

Example equal_bounds_rejected :
  insert env0 (finished_draft 1 7 t0 t0 0) []
  = inl (check_violation chk_end_after_start_name).
Proof. reflexivity. Qed.

(** *** Main results about the store *)

(** C1. For every owner, in every reachable state of the entry store, at
    most one time entry has a NULL [end_time].  When several starts for
    the same owner race from the idle state (in whatever order the store
    serialises them, each with a fresh key and resolvable references),
    the first insert succeeds and every other one gets the unique
    violation of [idx_time_entries_user_running]; the check is part of
    the insert itself. *)
Theorem running_entry_unique_per_owner (tbl : table) :
  reachable tbl ->
  I1 tbl /\
  (forall (u : uuid) (first : env * row) (others : list (env * row)),
     running_of u tbl = [] ->
     (forall p, In p (first :: others) ->
        starts u (snd p) /\ fk_lookup (fst p) None (snd p) = None /\
        ~ In (id (snd p)) (map id tbl)) ->
     NoDup (map (fun p => id (snd p)) (first :: others)) ->
     exists tbl',
       run (start_stmts (first :: others)) tbl
       = (None :: map (fun _ => conflict) others, tbl') /\
       reachable tbl' /\
       List.length (running_of u tbl') = 1%nat).
Proof.
  intros Hreach. split; [now apply reachable_I1|].
  intros u first others Hidle Hss Hnd.
  destruct (run_starts_from_idle u tbl first others Hidle Hss Hnd)
    as (r' & Hrun & Hexec & Hone).
  exists (tbl ++ [r']). repeat split.
  - exact Hrun.
  - eapply reachable_step; eassumption.
  - now rewrite Hone.
Qed.

Lemma running_entry_unique_witness :
  I1 [] /\
  exists tbl',
    run (start_stmts [(env0, start_draft 1 7 t0);
                      (env0, start_draft 2 7 (t0 + 5000000))]) []
    = ([None; conflict], tbl') /\
    reachable tbl' /\ List.length (running_of 7 tbl') = 1%nat.
Proof.
  destruct (running_entry_unique_per_owner [] reachable_empty) as [H1 H2].
  split; [exact H1|].
  apply (H2 7 (env0, start_draft 1 7 t0)
            [(env0, start_draft 2 7 (t0 + 5000000))]).
  - reflexivity.
  - intros p [<- | [<- | []]]; (repeat split; [intros []]).
  - repeat constructor; simpl; intuition discriminate.
Defined.

(** C3. After every write the stored [duration] is the whole number of
    seconds between the two bounds when [end_time] is set (the nearest
    integer to the microsecond difference, hence exactly [k] when the
    bounds are [k] seconds apart, e.g. 3661), and NULL when [end_time] is
    NULL.  The value a statement tries to give [duration] never matters:
    the trigger recomputes it on every insert and update. *)
Theorem duration_is_derived (tbl : table) (r : row) :
  reachable tbl -> In r tbl ->
  (end_time r = None -> duration r = None) /\
  (forall et, end_time r = Some et ->
     exists st d, start_time r = Some st /\ duration r = Some d /\
       Z.abs (1000000 * d - (et - st)) <= 500000 /\
       (forall k, et = st + k * 1000000 -> d = k)) /\
  (forall e NEW d, insert e (set_duration d NEW) tbl = insert e NEW tbl) /\
  (forall e set where_ d,
     update e (fun o => set_duration d (set o)) where_ tbl
     = update e set where_ tbl).
Proof.
  intros Hreach Hin.
  pose proof (reachable_accepted tbl Hreach) as Hacc.
  rewrite Forall_forall in Hacc.
  destruct (Hacc r Hin) as (_ & Hs & Hc & Hd & Hset).
  unfold duration_derived, derived_duration in Hd.
  split; [|split; [|split]].
  - intros He. now rewrite Hd, He.
  - intros et He. destruct (Hc et He) as (st & Hst & _).
    rewrite He, Hst in Hd.
    rewrite He in Hset. specialize (Hset eq_refl).
    destruct (duration r) as [d|]; [|discriminate].
    exists st, d. symmetry in Hd.
    destruct (extract_epoch_integer_near _ _ Hd) as [Hnear Hexact].
    repeat split; try assumption.
    intros k Hk. apply Hexact. lia.
  - intros e NEW d. unfold insert, before_insert.
    now rewrite calculate_duration_ignores.
  - intros e set where_ d. unfold update. apply update_rows_ext.
    intros o. unfold before_update. now rewrite calculate_duration_ignores.
Qed.

Lemma duration_is_derived_witness :
  duration (mkRow 1 (Some 7) None None None (Some t0) (Some (t0 + 3661000000))
                  (Some 3661) None (Some (CURRENT_TIMESTAMP env0)))
  = Some 3661.
Proof.
  set (r := mkRow _ _ _ _ _ _ _ _ _ _).
  assert (Hreach : reachable [r]).
  { apply (reachable_step env0
             (INSERT (finished_draft 1 7 t0 (t0 + 3661000000) 5)) [] [r]).
    - apply reachable_empty.
    - reflexivity. }
  destruct (duration_is_derived [r] r Hreach (or_introl eq_refl))
    as (_ & H & _).
  destruct (H (t0 + 3661000000) eq_refl) as (st & d & Hst & Hd & _ & Hk).
  rewrite Hd. f_equal. apply Hk.
  injection Hst as <-. reflexivity.
Defined.

(** ** More about the store: the key, the width of [duration], stopping *)

(** [UPDATE time_entries SET end_time = t WHERE id = k] *)
Definition set_end_time (t : option timestamptz) (r : row) : row :=
  mkRow (id r) (user_id r) (description r) (project_id r) (task_id r)
        (start_time r) t (duration r) (created_at r) (updated_at r).

Definition has_id (k : uuid) (r : row) : bool := id r =? k.

(** The first interval, in microseconds, whose whole seconds no longer
    fit an [INTEGER]: 2147483647.5 seconds. *)
Definition interval_limit : Z := 2147483647500000.

(** *** The primary key *)

Lemma pkey_conflict_false (tbl : table) (r : row) :
  pkey_conflict tbl r = false -> ~ In (id r) (map id tbl).
Proof.
  unfold pkey_conflict. induction tbl as [|o tbl IH]; simpl; [tauto|].
  intros H. apply orb_false_iff in H. destruct H as [Ho Ht].
  apply Z.eqb_neq in Ho. intros [Heq | Hin]; [congruence|].
  now apply IH.
Qed.

Lemma check_row_no_pkey_conflict (e : env) (OLD : option row)
      (others : table) (r : row) :
  check_row e OLD others r = None -> pkey_conflict others r = false.
Proof.
  unfold check_row.
  destruct (is_none (user_id r)); [discriminate|].
  destruct (is_none (start_time r)); [discriminate|].
  destruct (negb _); [discriminate|].
  destruct (pkey_conflict others r); [discriminate|reflexivity].
Qed.

Lemma NoDup_ids_delete (where_ : row -> bool) (tbl : table) :
  NoDup (map id tbl) -> NoDup (map id (delete where_ tbl)).
Proof.
  unfold delete. induction tbl as [|r tbl IH]; intros Hnd; [exact Hnd|].
  cbn [filter map] in *. apply NoDup_cons_iff in Hnd as [Hfresh Hrest].
  destruct (negb (where_ r)); [|exact (IH Hrest)].
  cbn [map]. apply NoDup_cons; [|exact (IH Hrest)].
  intros Hin. apply Hfresh.
  apply in_map_iff in Hin as (x & Hx & Hin).
  apply filter_In in Hin as [Hin _].
  apply in_map_iff. exists x. split; assumption.
Qed.

Lemma NoDup_ids_replace (done rest : table) (OLD r : row) :
  NoDup (map id (done ++ OLD :: rest)) ->
  ~ In (id r) (map id (done ++ rest)) ->
  NoDup (map id (done ++ r :: rest)).
Proof.
  rewrite !map_app. cbn [map]. intros Hnd Hfresh.
  apply NoDup_remove_1 in Hnd.
  apply (NoDup_Add (Add_app (id r) (map id done) (map id rest))).
  split; assumption.
Qed.

Lemma exec_NoDup_ids (e : env) (s : stmt) (tbl tbl' : table) :
  NoDup (map id tbl) -> exec e s tbl = inr tbl' -> NoDup (map id tbl').
Proof.
  intros H. destruct s as [NEW|set where_|where_]; simpl.
  - unfold insert.
    destruct (before_insert e NEW) as [err|r]; [discriminate|].
    destruct (check_row e None tbl r) eqn:Hc; [discriminate|].
    intros [= <-]. rewrite map_app. cbn [map].
    assert (HA : Add (id r) (map id tbl) (map id tbl ++ [id r])).
    { pose proof (Add_app (id r) (map id tbl) []) as HA.
      now rewrite app_nil_r in HA. }
    apply (NoDup_Add HA). split; [assumption|].
    apply pkey_conflict_false.
    eapply check_row_no_pkey_conflict; eassumption.
  - unfold update.
    apply (update_rows_invariant (fun t => NoDup (map id t))); [|assumption].
    intros done OLD rest r Hinv _ Hc.
    apply (NoDup_ids_replace done rest OLD r Hinv).
    apply pkey_conflict_false.
    eapply check_row_no_pkey_conflict; eassumption.
  - intros [= <-]. now apply NoDup_ids_delete.
Qed.

Lemma reachable_NoDup_ids (tbl : table) : reachable tbl -> NoDup (map id tbl).
Proof.
  induction 1 as [|e s tbl tbl' _ IH Hex].
  - constructor.
  - eapply exec_NoDup_ids; eassumption.
Qed.

(** *** The width of [duration] *)

Lemma extract_epoch_integer_limit (iv : Z) :
  0 < iv ->
  (interval_limit <= iv -> extract_epoch_integer iv = None) /\
  (iv < interval_limit ->
   exists d, extract_epoch_integer iv = Some d /\ 0 <= d <= int4_max).
Proof.
  intros Hpos. unfold extract_epoch_integer, round_half_away, interval_limit,
    int4_min, int4_max.
  rewrite Z.sgn_pos by assumption. rewrite Z.abs_eq by lia.
  rewrite Z.mul_1_l.
  set (q := (2 * iv + 1000000) / (2 * 1000000)).
  assert (Hq : 2 * 1000000 * q <= 2 * iv + 1000000 < 2 * 1000000 * (q + 1)).
  { subst q. pose proof (Z.mul_div_le (2 * iv + 1000000) (2 * 1000000)).
    pose proof (Z.mul_succ_div_gt (2 * iv + 1000000) (2 * 1000000)).
    lia. }
  split; intros Hiv.
  - replace (q <=? 2147483647) with false by (symmetry; apply Z.leb_gt; lia).
    now rewrite andb_false_r.
  - exists q.
    replace (-2147483648 <=? q) with true by (symmetry; apply Z.leb_le; lia).
    replace (q <=? 2147483647) with true by (symmetry; apply Z.leb_le; lia).
    split; [reflexivity|lia].
Qed.

Lemma update_rows_trigger_fails (e : env) (set : row -> row)
      (where_ : row -> bool) (OLD : row) (err0 : sql_error)
      (todo done : table) :
  In OLD todo -> where_ OLD = true -> before_update e (set OLD) = inl err0 ->
  exists err, update_rows e set where_ done todo = inl err.
Proof.
  intros Hin Hw Ht. revert done.
  induction todo as [|o rest IH]; intros done; [destruct Hin|].
  simpl. destruct Hin as [-> | Hin].
  - rewrite Hw, Ht. eauto.
  - destruct (where_ o); [|now apply IH].
    destruct (before_update e (set o)) as [err|r]; [eauto|].
    destruct (check_row _ _ _ _); [eauto|now apply IH].
Qed.

(** *** Updating one tuple by its key *)

Lemma update_rows_skip (e : env) (set : row -> row) (where_ : row -> bool)
      (todo done : table) :
  (forall o, In o todo -> where_ o = false) ->
  update_rows e set where_ done todo = inr (done ++ todo).
Proof.
  revert done. induction todo as [|o rest IH]; intros done Hw; simpl.
  - now rewrite app_nil_r.
  - rewrite (Hw o) by now left.
    rewrite IH by (intros o' Ho'; apply Hw; now right).
    now rewrite <- app_assoc.
Qed.

Lemma update_rows_skip_prefix (e : env) (set : row -> row)
      (where_ : row -> bool) (before todo done : table) :
  (forall o, In o before -> where_ o = false) ->
  update_rows e set where_ done (before ++ todo)
  = update_rows e set where_ (done ++ before) todo.
Proof.
  revert done. induction before as [|o rest IH]; intros done Hw; simpl.
  - now rewrite app_nil_r.
  - rewrite (Hw o) by now left.
    rewrite IH by (intros o' Ho'; apply Hw; now right).
    now rewrite <- app_assoc.
Qed.

Lemma has_id_others (k : uuid) (l : table) :
  ~ In k (map id l) -> forall o, In o l -> has_id k o = false.
Proof.
  intros Hn o Ho. unfold has_id. apply Z.eqb_neq. intros Heq.
  apply Hn. rewrite <- Heq. now apply in_map.
Qed.

Lemma update_by_id (e : env) (set : row -> row) (before after : table)
      (OLD r : row) :
  NoDup (map id (before ++ OLD :: after)) ->
  before_update e (set OLD) = inr r ->
  check_row e (Some OLD) (before ++ after) r = None ->
  update e set (has_id (id OLD)) (before ++ OLD :: after)
  = inr (before ++ r :: after).
Proof.
  intros Hnd Ht Hc.
  assert (Hn : ~ In (id OLD) (map id (before ++ after))).
  { rewrite map_app in *. cbn [map] in Hnd. now apply NoDup_remove_2 in Hnd. }
  assert (Hb : forall o, In o before -> has_id (id OLD) o = false).
  { intros o Ho. apply (has_id_others (id OLD) (before ++ after) Hn).
    apply in_or_app. now left. }
  assert (Ha : forall o, In o after -> has_id (id OLD) o = false).
  { intros o Ho. apply (has_id_others (id OLD) (before ++ after) Hn).
    apply in_or_app. now right. }
  unfold update. rewrite update_rows_skip_prefix by exact Hb.
  cbn [app update_rows]. unfold has_id at 1. rewrite Z.eqb_refl.
  rewrite Ht, Hc. rewrite update_rows_skip by exact Ha.
  now rewrite <- app_assoc.
Qed.

Lemma runs_for_true (u : uuid) (r : row) :
  runs_for u r = true -> end_time r = None /\ user_id r = Some u.
Proof.
  unfold runs_for, in_running_index. intros H.
  apply andb_true_iff in H. destruct H as [He Hu]. split.
  - now destruct (end_time r).
  - apply key_eqb_true in Hu. destruct Hu as (x & Hx & [= ->]). exact Hx.
Qed.

Lemma only_running (u : uuid) (before after : table) (r0 : row) :
  I1 (before ++ r0 :: after) -> runs_for u r0 = true ->
  running_of u before = [] /\ running_of u after = [].
Proof.
  intros HI Hr. specialize (HI u).
  rewrite running_of_app, running_of_cons, Hr in HI.
  rewrite length_app in HI. cbn [List.length] in HI.
  destruct (running_of u before), (running_of u after);
    cbn [List.length] in HI; try lia.
  split; reflexivity.
Qed.

Lemma stop_triggered (e : env) (r0 : row) (st t : Z) :
  start_time r0 = Some st -> st < t -> t - st < interval_limit ->
  exists d,
    extract_epoch_integer (t - st) = Some d /\
    before_update e (set_end_time (Some t) r0)
    = inr (set_updated_at (Some (CURRENT_TIMESTAMP e))
             (set_updated_at (Some (CURRENT_TIMESTAMP e))
                (set_duration (Some d) (set_end_time (Some t) r0)))).
Proof.
  intros Hs Hlt Hlim.
  destruct (extract_epoch_integer_limit (t - st) ltac:(lia)) as [_ H].
  destruct (H Hlim) as (d & Hd & _). exists d. split; [exact Hd|].
  unfold before_update, calculate_duration, update_updated_at_column.
  cbn [end_time start_time set_end_time]. now rewrite Hs, Hd.
Qed.

Lemma fk_holds_same (has : uuid -> bool) (k : option uuid) :
  fk_holds has k k false = true.
Proof. destruct k as [k|]; simpl; [now rewrite Z.eqb_refl|reflexivity]. Qed.

Lemma stop_checked (e : env) (others : table) (r0 r : row) (u : uuid)
      (st t : Z) :
  user_id r0 = Some u -> start_time r0 = Some st -> st < t ->
  ~ In (id r0) (map id others) ->
  id r = id r0 -> user_id r = user_id r0 -> project_id r = project_id r0 ->
  task_id r = task_id r0 -> start_time r = start_time r0 ->
  end_time r = Some t ->
  check_row e (Some r0) others r = None.
Proof.
  intros Hu Hs Hlt Hfresh Hid Hru Hrp Hrt Hrs Hre.
  unfold check_row. rewrite Hru, Hu, Hrs, Hs. cbn [is_none].
  unfold chk_end_after_start. rewrite Hre, Hrs, Hs. cbn.
  replace (st <? t) with true by (symmetry; apply Z.ltb_lt; lia). cbn.
  rewrite pkey_conflict_fresh by now rewrite Hid.
  unfold running_conflict, in_running_index. rewrite Hre. cbn.
  unfold fk_lookup. cbn [is_none]. rewrite Hru, Hrp, Hrt.
  now rewrite !fk_holds_same.
Qed.

(** X1.
    An entry whose bounds are 2147483647.5 seconds (about 68 years) or
    more apart cannot be stored: the [::INTEGER] cast of the trigger
    fails with "integer out of range" on INSERT, and an UPDATE that
    writes such bounds fails as a whole.  Below that width the trigger
    gives every entry with [end_time > start_time] a duration between 0
    and the largest [INTEGER]. *)
Theorem long_entries_are_refused (e : env) (NEW : row) (tbl : table)
        (st et : Z) :
  start_time NEW = Some st -> end_time NEW = Some et -> st < et ->
  (interval_limit <= et - st ->
     insert e NEW tbl = inl numeric_value_out_of_range /\
     (forall set where_ OLD,
        In OLD tbl -> where_ OLD = true -> set OLD = NEW ->
        exists err, update e set where_ tbl = inl err)) /\
  (et - st < interval_limit ->
     exists d r,
       before_insert e NEW = inr r /\ duration r = Some d /\
       0 <= d <= int4_max).
Proof.
  intros Hs He Hlt.
  destruct (extract_epoch_integer_limit (et - st) ltac:(lia)) as [Hhi Hlo].
  split; intros Hw.
  - assert (Ht : calculate_duration e NEW = inl numeric_value_out_of_range).
    { unfold calculate_duration. now rewrite He, Hs, (Hhi Hw). }
    split.
    + unfold insert, before_insert. now rewrite Ht.
    + intros set where_ OLD Hin Hwh Hset. unfold update.
      apply (update_rows_trigger_fails e set where_ OLD
               numeric_value_out_of_range); try assumption.
      unfold before_update. now rewrite Hset, Ht.
  - destruct (Hlo Hw) as (d & Hd & Hrange).
    exists d. eexists. unfold before_insert, calculate_duration.
    rewrite He, Hs, Hd. split; [reflexivity|]. split; [reflexivity|].
    exact Hrange.
Qed.

Lemma long_entries_witness :
  insert env0 (finished_draft 1 7 0 interval_limit 0) []
  = inl numeric_value_out_of_range.
Proof.
  destruct (long_entries_are_refused env0
              (finished_draft 1 7 0 interval_limit 0) [] 0 interval_limit
              eq_refl eq_refl ltac:(reflexivity)) as [H _].
  destruct (H ltac:(vm_compute; discriminate)) as [Hi _]. exact Hi.
Defined.

(** X2.
    Stopping frees the owner: in any reachable table, the UPDATE that
    gives the owner's running entry an [end_time] after its
    [start_time], and less than 2147483647.5 seconds after it (the
    widest interval whose seconds fit the [duration] column), succeeds
    and touches that tuple only, which then carries the derived
    duration; the owner has no running entry left, and a following
    start of that owner, with an [id] not yet in the table and
    references that exist, is accepted and is the one running entry. *)
Theorem stop_then_start (tbl : table) (u : uuid) (r0 r : row) (e e' : env)
        (st t : Z) :
  reachable tbl -> In r0 tbl -> runs_for u r0 = true ->
  start_time r0 = Some st -> st < t -> t - st < interval_limit ->
  starts u r -> ~ In (id r) (map id tbl) -> fk_lookup e' None r = None ->
  exists before after r0' r',
    tbl = before ++ r0 :: after /\
    update e (set_end_time (Some t)) (has_id (id r0)) tbl
    = inr (before ++ r0' :: after) /\
    id r0' = id r0 /\ end_time r0' = Some t /\
    duration r0' = extract_epoch_integer (t - st) /\
    running_of u (before ++ r0' :: after) = [] /\
    insert e' r (before ++ r0' :: after)
    = inr ((before ++ r0' :: after) ++ [r']) /\
    running_of u ((before ++ r0' :: after) ++ [r']) = [r'].
Proof.
  intros Hreach Hin Hrun Hs Hlt Hlim Hst Hfresh Hfk.
  pose proof (reachable_NoDup_ids tbl Hreach) as Hnd.
  pose proof (reachable_I1 tbl Hreach) as HI.
  destruct (in_split r0 tbl Hin) as (before & after & ->).
  destruct (runs_for_true u r0 Hrun) as [He0 Hu0].
  destruct (stop_triggered e r0 st t Hs Hlt Hlim) as (d & Hd & Ht).
  set (r0' := set_updated_at (Some (CURRENT_TIMESTAMP e))
                (set_updated_at (Some (CURRENT_TIMESTAMP e))
                   (set_duration (Some d) (set_end_time (Some t) r0)))) in *.
  assert (Hn : ~ In (id r0) (map id (before ++ after))).
  { rewrite map_app in *. cbn [map] in Hnd. now apply NoDup_remove_2 in Hnd. }
  assert (Hc : check_row e (Some r0) (before ++ after) r0' = None)
    by (apply (stop_checked e (before ++ after) r0 r0' u st t);
        try assumption; reflexivity).
  destruct (only_running u before after r0 HI Hrun) as [Hb Ha].
  assert (Hidle : running_of u (before ++ r0' :: after) = []).
  { rewrite running_of_app, running_of_cons, Hb, Ha. reflexivity. }
  assert (Hfresh' : ~ In (id r) (map id (before ++ r0' :: after))).
  { intros H. apply Hfresh. rewrite map_app in *. exact H. }
  destruct (insert_start_ok e' u r (before ++ r0' :: after)
              Hst Hfresh' Hidle Hfk) as (r' & Hins & _ & Hr').
  exists before, after, r0', r'.
  split; [reflexivity|].
  split; [now apply update_by_id|].
  split; [reflexivity|]. split; [reflexivity|].
  split; [exact (eq_sym Hd)|]. split; [exact Hidle|].
  split; [exact Hins|].
  rewrite running_of_app, Hidle. cbn [app].
  rewrite running_of_cons, Hr'. reflexivity.
Qed.

(** Owner 7 starts at [t0], stops an hour later and starts again. *)
Lemma stop_then_start_witness :
  exists tbl',
    update env0 (set_end_time (Some (t0 + 3600000000))) (has_id 1)
           [set_updated_at (Some (CURRENT_TIMESTAMP env0)) (start_draft 1 7 t0)]
    = inr tbl' /\
    running_of 7 tbl' = [] /\
    exists r', insert env0 (start_draft 2 7 (t0 + 3600000000)) tbl'
               = inr (tbl' ++ [r']).
Proof.
  set (r0 := set_updated_at (Some (CURRENT_TIMESTAMP env0))
               (start_draft 1 7 t0)).
  assert (Hreach : reachable [r0]).
  { apply (reachable_step env0 (INSERT (start_draft 1 7 t0)) [] [r0]).
    - apply reachable_empty.
    - reflexivity. }
  destruct (stop_then_start [r0] 7 r0 (start_draft 2 7 (t0 + 3600000000))
              env0 env0 t0 (t0 + 3600000000) Hreach (or_introl eq_refl)
              eq_refl eq_refl ltac:(vm_compute; reflexivity)
              ltac:(vm_compute; reflexivity)
              (conj eq_refl (conj eq_refl eq_refl))
              ltac:(vm_compute; intuition discriminate) eq_refl)
    as (before & after & r0' & r' & Htbl & Hup & _ & _ & _ & Hidle & Hins & _).
  exists (before ++ r0' :: after).
  split; [exact Hup|]. split; [exact Hidle|]. exists r'. exact Hins.
Defined.

End Store.

(** * ECMAScript date arithmetic (the [Date] operations the client uses) *)

Module JsDate.

Definition msPerDay : Z := 86400000.
Definition msPerHour : Z := 3600000.
Definition msPerMinute : Z := 60000.
Definition msPerSecond : Z := 1000.

Definition Day (t : Z) : Z := t / msPerDay.
Definition TimeWithinDay (t : Z) : Z := t mod msPerDay.

Definition DaysInYear (y : Z) : Z :=
  if negb (y mod 4 =? 0) then 365
  else if negb (y mod 100 =? 0) then 366
  else if negb (y mod 400 =? 0) then 365
  else 366.

Definition DayFromYear (y : Z) : Z :=
  365 * (y - 1970) + (y - 1969) / 4 - (y - 1901) / 100 + (y - 1601) / 400.

Definition TimeFromYear (y : Z) : Z := msPerDay * DayFromYear y.

(** The largest [y] with [TimeFromYear y <= t]: an estimate from the mean
    year length, corrected by at most one year. *)
Definition YearFromTime (t : Z) : Z :=
  let d := Day t in
  let y := 1970 + (400 * d) / 146097 in
  if d <? DayFromYear y then y - 1
  else if DayFromYear (y + 1) <=? d then y + 1
  else y.

Definition InLeapYear (t : Z) : Z :=
  if DaysInYear (YearFromTime t) =? 366 then 1 else 0.

Definition DayWithinYear (t : Z) : Z := Day t - DayFromYear (YearFromTime t).

Definition MonthFromTime (t : Z) : Z :=
  let d := DayWithinYear t in
  let leap := InLeapYear t in
  if d <? 31 then 0
  else if d <? 59 + leap then 1
  else if d <? 90 + leap then 2
  else if d <? 120 + leap then 3
  else if d <? 151 + leap then 4
  else if d <? 181 + leap then 5
  else if d <? 212 + leap then 6
  else if d <? 243 + leap then 7
  else if d <? 273 + leap then 8
  else if d <? 304 + leap then 9
  else if d <? 334 + leap then 10
  else 11.

(** The day within the year on which month [m] begins. *)
Definition DaysBeforeMonth (m leap : Z) : Z :=
  if m =? 0 then 0
  else if m =? 1 then 31
  else if m =? 2 then 59 + leap
  else if m =? 3 then 90 + leap
  else if m =? 4 then 120 + leap
  else if m =? 5 then 151 + leap
  else if m =? 6 then 181 + leap
  else if m =? 7 then 212 + leap
  else if m =? 8 then 243 + leap
  else if m =? 9 then 273 + leap
  else if m =? 10 then 304 + leap
  else 334 + leap.

Definition DateFromTime (t : Z) : Z :=
  DayWithinYear t - DaysBeforeMonth (MonthFromTime t) (InLeapYear t) + 1.

Definition WeekDay (t : Z) : Z := (Day t + 4) mod 7.

Definition MakeTime (hour min sec ms : Z) : Z :=
  hour * msPerHour + min * msPerMinute + sec * msPerSecond + ms.

(** [MakeDay]: the day number of the first of month [month mod 12] in year
    [year + month / 12], moved by [date - 1] days. *)
Definition MakeDay (year month date : Z) : Z :=
  let ym := year + month / 12 in
  let mn := month mod 12 in
  let leap := if DaysInYear ym =? 366 then 1 else 0 in
  DayFromYear ym + DaysBeforeMonth mn leap + date - 1.

Definition MakeDate (day time : Z) : Z := day * msPerDay + time.

(** A time value outside +-8.64e15 ms is NaN. *)
Definition maxTime : Z := 8640000000000000.

Definition TimeClip (t : Z) : option Z :=
  if Z.abs t <=? maxTime then Some t else None.

(** A [Date] object holds a time value or NaN ([None], an invalid
    date); a [Number] here is an integer or NaN. *)
Definition Date := option Z.
Definition Number := option Z.

Definition num_add (a b : Number) : Number :=
  match a, b with Some x, Some y => Some (x + y) | _, _ => None end.

Definition num_sub (a b : Number) : Number :=
  match a, b with Some x, Some y => Some (x - y) | _, _ => None end.

(** [a === k] for an integer literal [k]; NaN equals nothing. *)
Definition num_is (a : Number) (k : Z) : bool :=
  match a with Some x => x =? k | None => false end.

(** The local time zone adjustment of ECMA-262, in milliseconds:
    [LocalTZA t true] is the offset of local time from UTC in force at
    the instant [t]; [LocalTZA t false] is the offset to use for the
    local time [t] (for a local time that a change of offset repeats or
    skips, the offset before the change).  Which offsets a zone has is
    left to the implementation. *)
Definition TimeZone : Type := Z -> bool -> Z.

Section LocalTimeZone.

Variable LocalTZA : TimeZone.

Definition LocalTime (t : Z) : Z := t + LocalTZA t true.
Definition UTC (t : Z) : Z := t - LocalTZA t false.

Definition getDay (d : Date) : Number :=
  option_map (fun tv => WeekDay (LocalTime tv)) d.

Definition getDate (d : Date) : Number :=
  option_map (fun tv => DateFromTime (LocalTime tv)) d.

Definition getMonth (d : Date) : Number :=
  option_map (fun tv => MonthFromTime (LocalTime tv)) d.

Definition getFullYear (d : Date) : Number :=
  option_map (fun tv => YearFromTime (LocalTime tv)) d.

(** [d.setHours(hour, min, sec, ms)] *)
Definition setHours (d : Date) (hour min sec ms : Z) : Date :=
  match d with
  | None => None
  | Some tv =>
      let t := LocalTime tv in
      TimeClip (UTC (MakeDate (Day t) (MakeTime hour min sec ms)))
  end.

(** [d.setDate(date)] *)
Definition setDate (d : Date) (date : Number) : Date :=
  match d, date with
  | Some tv, Some dt =>
      let t := LocalTime tv in
      TimeClip (UTC (MakeDate
                       (MakeDay (YearFromTime t) (MonthFromTime t) dt)
                       (TimeWithinDay t)))
  | _, _ => None
  end.

(** [new Date(year, month, date)]: years 0 to 99 mean 1900 to 1999. *)
Definition newDate (year month date : Number) : Date :=
  match year, month, date with
  | Some y, Some m, Some dt =>
      let yr := if (0 <=? y) && (y <=? 99) then 1900 + y else y in
      TimeClip (UTC (MakeDate (MakeDay yr m dt) (MakeTime 0 0 0 0)))
  | _, _, _ => None
  end.

End LocalTimeZone.

(** *** Calendar facts *)

Lemma step_div (y c k : Z) :
  0 < k ->
  (y + 1 - c) / k
  = (y - c) / k + (if (y + 1 - c) mod k =? 0 then 1 else 0).
Proof.
  intros Hk.
  destruct ((y + 1 - c) mod k =? 0) eqn:H;
    rewrite ?Z.eqb_eq, ?Z.eqb_neq in *; Z.div_mod_to_equations; nia.
Qed.

Lemma DayFromYear_succ (y : Z) :
  DayFromYear (y + 1) = DayFromYear y + DaysInYear y.
Proof.
  unfold DayFromYear, DaysInYear.
  rewrite (step_div y 1969 4), (step_div y 1901 100), (step_div y 1601 400)
    by lia.
  replace ((y + 1 - 1969) mod 4) with (y mod 4)
    by (Z.div_mod_to_equations; lia).
  replace ((y + 1 - 1901) mod 100) with (y mod 100)
    by (Z.div_mod_to_equations; lia).
  replace ((y + 1 - 1601) mod 400) with (y mod 400)
    by (Z.div_mod_to_equations; lia).
  destruct (y mod 4 =? 0) eqn:H4; destruct (y mod 100 =? 0) eqn:H100;
    destruct (y mod 400 =? 0) eqn:H400; cbn [negb];
    rewrite ?Z.eqb_eq, ?Z.eqb_neq in *; try lia;
    exfalso; Z.div_mod_to_equations; lia.
Qed.

Lemma DaysInYear_cases (y : Z) : DaysInYear y = 365 \/ DaysInYear y = 366.
Proof.
  unfold DaysInYear.
  destruct (negb _); [now left|].
  destruct (negb _); [now right|].
  destruct (negb _); [now left|now right].
Qed.

(** [YearFromTime t] is the year whose days contain [Day t] ... *)
Lemma YearFromTime_spec (t : Z) :
  DayFromYear (YearFromTime t) <= Day t < DayFromYear (YearFromTime t + 1).
Proof.
  unfold YearFromTime. set (d := Day t). clearbody d. cbv zeta.
  destruct (d <? DayFromYear (1970 + 400 * d / 146097)) eqn:H1;
    [|destruct (DayFromYear (1970 + 400 * d / 146097 + 1) <=? d) eqn:H2];
    rewrite ?Z.ltb_lt, ?Z.ltb_ge, ?Z.leb_le, ?Z.leb_gt in *;
    unfold DayFromYear in *; Z.div_mod_to_equations; lia.
Qed.

(** ... and the only such year. *)
Lemma YearFromTime_unique (t y : Z) :
  DayFromYear y <= Day t < DayFromYear (y + 1) -> YearFromTime t = y.
Proof.
  pose proof (YearFromTime_spec t) as H.
  set (Y := YearFromTime t) in *. clearbody Y.
  set (d := Day t) in *. clearbody d. intros H'.
  unfold DayFromYear in *. Z.div_mod_to_equations. lia.
Qed.

Lemma Day_decomp (t : Z) :
  t = Day t * msPerDay + TimeWithinDay t /\ 0 <= TimeWithinDay t < msPerDay.
Proof.
  unfold Day, TimeWithinDay, msPerDay. Z.div_mod_to_equations. lia.
Qed.

Lemma MakeDate_Day (d tm : Z) :
  0 <= tm < msPerDay ->
  Day (MakeDate d tm) = d /\ TimeWithinDay (MakeDate d tm) = tm.
Proof.
  unfold Day, TimeWithinDay, MakeDate, msPerDay. intros H.
  Z.div_mod_to_equations. lia.
Qed.

Lemma InLeapYear_days (t : Z) :
  DaysInYear (YearFromTime t) = 365 + InLeapYear t /\
  (InLeapYear t = 0 \/ InLeapYear t = 1).
Proof.
  unfold InLeapYear.
  destruct (DaysInYear_cases (YearFromTime t)) as [-> | ->]; cbn; lia.
Qed.

Lemma DayWithinYear_range (t : Z) :
  0 <= DayWithinYear t < 365 + InLeapYear t.
Proof.
  unfold DayWithinYear.
  pose proof (YearFromTime_spec t) as H.
  rewrite DayFromYear_succ in H.
  destruct (InLeapYear_days t) as [Hd _]. lia.
Qed.

Ltac norm_lits :=
  repeat match goal with
         | |- context [Z.pos ?p + 1] =>
             let v := eval vm_compute in (Z.pos p + 1) in
             change (Z.pos p + 1) with v
         | |- context [0 + 1] => change (0 + 1) with 1
         end.

Ltac month_cases :=
  repeat match goal with
         | |- context [?a <? ?b] => destruct (Z.ltb_spec a b)
         end.

Lemma MonthFromTime_bounds (t : Z) :
  0 <= MonthFromTime t <= 11 /\
  DaysBeforeMonth (MonthFromTime t) (InLeapYear t) <= DayWithinYear t /\
  (MonthFromTime t < 11 ->
   DayWithinYear t < DaysBeforeMonth (MonthFromTime t + 1) (InLeapYear t)).
Proof.
  pose proof (DayWithinYear_range t) as Hr.
  destruct (InLeapYear_days t) as [_ Hl].
  unfold MonthFromTime. cbv zeta.
  set (d := DayWithinYear t) in *. set (l := InLeapYear t) in *.
  clearbody d l.
  month_cases; norm_lits; cbn [DaysBeforeMonth Z.eqb Pos.eqb]; lia.
Qed.

Lemma MakeDay_same_month (t k : Z) :
  MakeDay (YearFromTime t) (MonthFromTime t) (DateFromTime t + k) = Day t + k.
Proof.
  destruct (MonthFromTime_bounds t) as (Hm & _ & _).
  unfold MakeDay, DateFromTime. cbv zeta.
  replace (MonthFromTime t / 12) with 0 by (Z.div_mod_to_equations; lia).
  replace (MonthFromTime t mod 12) with (MonthFromTime t)
    by (Z.div_mod_to_equations; lia).
  rewrite Z.add_0_r. fold (InLeapYear t).
  unfold DayWithinYear. lia.
Qed.

Lemma first_of_month (t y m : Z) :
  0 <= m <= 11 ->
  Day t = DayFromYear y
          + DaysBeforeMonth m (if DaysInYear y =? 366 then 1 else 0) ->
  YearFromTime t = y /\ MonthFromTime t = m /\ DateFromTime t = 1.
Proof.
  intros Hm Hd.
  assert (Hy : YearFromTime t = y).
  { apply YearFromTime_unique. rewrite DayFromYear_succ, Hd.
    destruct (DaysInYear_cases y) as [-> | ->]; cbn [Z.eqb Pos.eqb];
      assert (m = 0 \/ m = 1 \/ m = 2 \/ m = 3 \/ m = 4 \/ m = 5 \/ m = 6 \/
              m = 7 \/ m = 8 \/ m = 9 \/ m = 10 \/ m = 11) as Hc by lia;
      repeat (destruct Hc as [-> | Hc]); try subst m;
      cbn [DaysBeforeMonth Z.eqb Pos.eqb]; lia. }
  assert (Hdw : DayWithinYear t = DaysBeforeMonth m (InLeapYear t)).
  { unfold DayWithinYear, InLeapYear. rewrite Hy. lia. }
  assert (Hmm : MonthFromTime t = m).
  { destruct (InLeapYear_days t) as [_ Hl].
    unfold MonthFromTime. cbv zeta. rewrite Hdw.
    set (l := InLeapYear t) in *. clearbody l.
    assert (m = 0 \/ m = 1 \/ m = 2 \/ m = 3 \/ m = 4 \/ m = 5 \/ m = 6 \/
            m = 7 \/ m = 8 \/ m = 9 \/ m = 10 \/ m = 11) as Hc by lia.
    repeat (destruct Hc as [-> | Hc]); try subst m;
      cbn [DaysBeforeMonth Z.eqb Pos.eqb]; month_cases; lia. }
  repeat split; try assumption.
  unfold DateFromTime. rewrite Hmm, Hdw. lia.
Qed.

Lemma TimeClip_some (x : Z) : Z.abs x <= maxTime -> TimeClip x = Some x.
Proof.
  intros H. unfold TimeClip. apply Z.leb_le in H. now rewrite H.
Qed.

Lemma MakeDay_first (y m : Z) :
  0 <= m <= 11 ->
  MakeDay y m 1
  = DayFromYear y + DaysBeforeMonth m (if DaysInYear y =? 366 then 1 else 0).
Proof.
  intros Hm. unfold MakeDay. cbv zeta.
  replace (m / 12) with 0 by (Z.div_mod_to_equations; lia).
  replace (m mod 12) with m by (Z.div_mod_to_equations; lia).
  rewrite Z.add_0_r. lia.
Qed.

Lemma MakeDay_shift (y m d k : Z) : MakeDay y m (d + k) = MakeDay y m d + k.
Proof. unfold MakeDay. lia. Qed.

Lemma MakeDay_next_month (y m : Z) :
  0 <= m <= 11 ->
  exists y' m',
    0 <= m' <= 11 /\
    (m < 11 -> y' = y /\ m' = m + 1) /\
    (m = 11 -> y' = y + 1 /\ m' = 0) /\
    MakeDay y (m + 1) 1 = MakeDay y' m' 1.
Proof.
  intros Hm.
  destruct (Z.eq_dec m 11) as [-> | Hne].
  - exists (y + 1), 0. repeat split; try lia.
    unfold MakeDay. cbv zeta.
    change ((11 + 1) / 12) with 1. change ((11 + 1) mod 12) with 0.
    change (0 / 12) with 0. change (0 mod 12) with 0.
    rewrite !Z.add_0_r. reflexivity.
  - exists y, (m + 1). repeat split; try lia.
Qed.

Lemma month_span (t : Z) :
  let y := YearFromTime t in
  let m := MonthFromTime t in
  MakeDay y m 1 <= Day t < MakeDay y (m + 1) 1 /\
  MakeDay y (m + 1) 1 <= MakeDay y m 1 + 31.
Proof.
  cbv zeta.
  destruct (MonthFromTime_bounds t) as (Hm & Hlo & Hhi).
  pose proof (DayWithinYear_range t) as Hr.
  destruct (InLeapYear_days t) as [Hdy Hl].
  rewrite (MakeDay_first _ _ Hm). fold (InLeapYear t).
  unfold DayWithinYear in *.
  destruct (Z.eq_dec (MonthFromTime t) 11) as [H11 | Hne].
  - rewrite H11 in *. unfold MakeDay. cbv zeta.
    change ((11 + 1) / 12) with 1. change ((11 + 1) mod 12) with 0.
    rewrite DayFromYear_succ, Hdy.
    cbn [DaysBeforeMonth Z.eqb Pos.eqb] in *. lia.
  - rewrite (MakeDay_first _ (MonthFromTime t + 1)) by lia.
    fold (InLeapYear t). specialize (Hhi ltac:(lia)).
    split; [lia|].
    set (l := InLeapYear t) in *. set (m := MonthFromTime t) in *.
    clearbody l m.
    assert (m = 0 \/ m = 1 \/ m = 2 \/ m = 3 \/ m = 4 \/ m = 5 \/ m = 6 \/
            m = 7 \/ m = 8 \/ m = 9 \/ m = 10) as Hc by lia.
    repeat (destruct Hc as [-> | Hc]); try subst m; norm_lits;
      cbn [DaysBeforeMonth Z.eqb Pos.eqb]; lia.
Qed.

Lemma YearFromTime_epoch (t : Z) : 0 <= t -> 1970 <= YearFromTime t.
Proof.
  intros Ht. pose proof (YearFromTime_spec t) as H.
  assert (0 <= Day t) by (unfold Day, msPerDay; Z.div_mod_to_equations; lia).
  set (Y := YearFromTime t) in *. clearbody Y.
  unfold DayFromYear in H. Z.div_mod_to_equations. lia.
Qed.

(** 2025-11-02T12:00:00Z is a Sunday; 2024-02-29 exists; the last
    millisecond of 1969. *)
Example calendar_samples :
  (YearFromTime 1762084800000, MonthFromTime 1762084800000,
   DateFromTime 1762084800000, WeekDay 1762084800000) = (2025, 10, 2, 0) /\
  (YearFromTime 1709164800000, MonthFromTime 1709164800000,
   DateFromTime 1709164800000, WeekDay 1709164800000) = (2024, 1, 29, 4) /\
  (YearFromTime (-1), MonthFromTime (-1), DateFromTime (-1), WeekDay (-1))
  = (1969, 11, 31, 3).
Proof. vm_compute. repeat split. Qed.

Lemma Day_shift (x k : Z) : Day (x + k * msPerDay) = Day x + k.
Proof. unfold Day, msPerDay. Z.div_mod_to_equations. lia. Qed.

(** *** Time zones *)

(** A zone with one offset all year. *)
Definition fixed_offset (offset : Z) : TimeZone := fun _ _ => offset.

(** Europe/Berlin as it is in 2025: one hour ahead of UTC, two hours
    from 30 March 01:00 UTC to 26 October 01:00 UTC.  The local times
    from 02:00 to 03:00 of 30 March are skipped, those of 26 October
    come twice; both are read with the offset before the change. *)
Definition berlin_2025 : TimeZone :=
  fun t isUTC =>
    if isUTC then
      if (1743296400000 <=? t) && (t <? 1761440400000)
      then 2 * msPerHour else msPerHour
    else
      if (1743296400000 + 2 * msPerHour <=? t)
         && (t <? 1761440400000 + 2 * msPerHour)
      then 2 * msPerHour else msPerHour.

(** America/Santiago as it is in 2025: three hours behind UTC, four
    hours from 6 April 03:00 UTC to 7 September 04:00 UTC.  In April the
    clocks go back at local midnight, from 24:00 to 23:00 of Saturday
    the 5th, so the local times from 23:00 to 24:00 of that day come
    twice; those from 00:00 to 01:00 of 7 September are skipped. *)
Definition santiago_2025 : TimeZone :=
  fun t isUTC =>
    if isUTC then
      if (1743908400000 <=? t) && (t <? 1757217600000)
      then -4 * msPerHour else -3 * msPerHour
    else
      if (1743908400000 - 3 * msPerHour <=? t)
         && (t <? 1757217600000 - 3 * msPerHour)
      then -4 * msPerHour else -3 * msPerHour.

(** The time value of 00:00:00.000, and of 23:59:59.999, local time, on
    the day with number [d]: what [setHours(0, 0, 0, 0)] and
    [setHours(23, 59, 59, 999)] give on that day. *)
Definition local_midnight (tza : TimeZone) (d : Z) : Z :=
  UTC tza (MakeDate d (MakeTime 0 0 0 0)).

Definition local_day_end (tza : TimeZone) (d : Z) : Z :=
  UTC tza (MakeDate d (MakeTime 23 59 59 999)).

(** What the facts below ask of a zone.  Offsets stay within a day of
    UTC. *)
Definition offsets_bounded (tza : TimeZone) : Prop :=
  forall t isUTC, Z.abs (tza t isUTC) <= msPerDay.

(** Reading back the instant of a local time gives the same calendar
    date: no change of offset carries a local time over midnight. *)
Definition keeps_date (tza : TimeZone) : Prop :=
  forall x, Day (LocalTime tza (UTC tza x)) = Day x.

(** No change of offset falls on a local midnight: 23:59:59.999 and the
    00:00:00.000 after it are read with the same offset. *)
Definition steady_at_midnight (tza : TimeZone) : Prop :=
  forall d, tza (d * msPerDay - 1) false = tza (d * msPerDay) false.

(** The local days follow each other: the instants from the local
    midnight of day [d] on are those whose local date is [d] or
    later. *)
Definition days_in_order (tza : TimeZone) : Prop :=
  forall d t, local_midnight tza d <= t <-> d <= Day (LocalTime tza t).

Section ZoneFacts.

Variable tza : TimeZone.
Hypothesis Hb : offsets_bounded tza.

Lemma UTC_near (x : Z) : Z.abs (UTC tza x - x) <= msPerDay.
Proof. unfold UTC. pose proof (Hb x false). lia. Qed.

Lemma LocalTime_near (t : Z) : Z.abs (LocalTime tza t - t) <= msPerDay.
Proof. unfold LocalTime. pose proof (Hb t true). lia. Qed.

Lemma Day_near (tv : Z) :
  Z.abs (Day (LocalTime tza tv) * msPerDay - tv) <= 2 * msPerDay.
Proof.
  destruct (Day_decomp (LocalTime tza tv)) as [H1 H2].
  pose proof (LocalTime_near tv). lia.
Qed.

Lemma local_midnight_near (d : Z) :
  Z.abs (local_midnight tza d - d * msPerDay) <= msPerDay.
Proof.
  unfold local_midnight, MakeDate. change (MakeTime 0 0 0 0) with 0.
  rewrite Z.add_0_r. apply UTC_near.
Qed.

Lemma local_day_end_near (d : Z) :
  Z.abs (local_day_end tza d - d * msPerDay) <= 2 * msPerDay.
Proof.
  unfold local_day_end, MakeDate.
  change (MakeTime 23 59 59 999) with 86399999.
  pose proof (UTC_near (d * msPerDay + 86399999)).
  unfold msPerDay in *. lia.
Qed.

Lemma setHours_start (tv : Z) :
  Z.abs tv + 3 * msPerDay <= maxTime ->
  setHours tza (Some tv) 0 0 0 0
  = Some (local_midnight tza (Day (LocalTime tza tv))).
Proof.
  intros H. unfold setHours. apply TimeClip_some.
  fold (local_midnight tza (Day (LocalTime tza tv))).
  pose proof (local_midnight_near (Day (LocalTime tza tv))).
  pose proof (Day_near tv). lia.
Qed.

Lemma setHours_end (tv : Z) :
  Z.abs tv + 4 * msPerDay <= maxTime ->
  setHours tza (Some tv) 23 59 59 999
  = Some (local_day_end tza (Day (LocalTime tza tv))).
Proof.
  intros H. unfold setHours. apply TimeClip_some.
  fold (local_day_end tza (Day (LocalTime tza tv))).
  pose proof (local_day_end_near (Day (LocalTime tza tv))).
  pose proof (Day_near tv). lia.
Qed.

(** Moving a date by [k] days with [setDate(getDate() + k)]: the same
    local time of day, [k] days on. *)
Lemma setDate_shift (tv k : Z) :
  Z.abs tv + (Z.abs k + 2) * msPerDay <= maxTime ->
  setDate tza (Some tv) (Some (DateFromTime (LocalTime tza tv) + k))
  = Some (UTC tza (LocalTime tza tv + k * msPerDay)).
Proof.
  intros H. unfold setDate. rewrite MakeDay_same_month.
  destruct (Day_decomp (LocalTime tza tv)) as [H1 _].
  replace (MakeDate (Day (LocalTime tza tv) + k)
                    (TimeWithinDay (LocalTime tza tv)))
    with (LocalTime tza tv + k * msPerDay) by (unfold MakeDate; lia).
  apply TimeClip_some.
  pose proof (UTC_near (LocalTime tza tv + k * msPerDay)).
  pose proof (LocalTime_near tv). unfold msPerDay in *. lia.
Qed.

Lemma setDate_near (tv k : Z) :
  Z.abs (UTC tza (LocalTime tza tv + k * msPerDay) - tv)
  <= (Z.abs k + 2) * msPerDay.
Proof.
  pose proof (UTC_near (LocalTime tza tv + k * msPerDay)).
  pose proof (LocalTime_near tv). unfold msPerDay in *. lia.
Qed.

(** [new Date(year, month, date)] from the year 100 on. *)
Lemma newDate_value (y m dt : Z) :
  100 <= y ->
  Z.abs (MakeDay y m dt * msPerDay) + msPerDay <= maxTime ->
  newDate tza (Some y) (Some m) (Some dt)
  = Some (local_midnight tza (MakeDay y m dt)).
Proof.
  intros Hy H. unfold newDate.
  replace ((0 <=? y) && (y <=? 99)) with false
    by (symmetry; apply andb_false_iff; right; apply Z.leb_gt; lia).
  apply TimeClip_some.
  fold (local_midnight tza (MakeDay y m dt)).
  pose proof (local_midnight_near (MakeDay y m dt)). lia.
Qed.

Hypothesis Hd : keeps_date tza.

Lemma Day_local_midnight (d : Z) :
  Day (LocalTime tza (local_midnight tza d)) = d.
Proof.
  unfold local_midnight. rewrite Hd.
  apply MakeDate_Day. change (MakeTime 0 0 0 0) with 0. unfold msPerDay. lia.
Qed.

Lemma Day_local_day_end (d : Z) :
  Day (LocalTime tza (local_day_end tza d)) = d.
Proof.
  unfold local_day_end. rewrite Hd.
  apply MakeDate_Day. change (MakeTime 23 59 59 999) with 86399999.
  unfold msPerDay. lia.
Qed.

Lemma Day_shifted (tv k : Z) :
  Day (LocalTime tza (UTC tza (LocalTime tza tv + k * msPerDay)))
  = Day (LocalTime tza tv) + k.
Proof. rewrite Hd. apply Day_shift. Qed.

(** The start and the end of the day that lies [k] days from [tv]. *)
Lemma shifted_day_start (tv k : Z) :
  Z.abs tv + (Z.abs k + 5) * msPerDay <= maxTime ->
  setHours tza
    (setDate tza (Some tv) (Some (DateFromTime (LocalTime tza tv) + k)))
    0 0 0 0
  = Some (local_midnight tza (Day (LocalTime tza tv) + k)).
Proof.
  intros H. pose proof (setDate_near tv k).
  rewrite setDate_shift by (unfold msPerDay in *; lia).
  rewrite setHours_start by (unfold msPerDay in *; lia).
  now rewrite Day_shifted.
Qed.

Lemma shifted_day_end (tv k : Z) :
  Z.abs tv + (Z.abs k + 6) * msPerDay <= maxTime ->
  setHours tza
    (setDate tza (Some tv) (Some (DateFromTime (LocalTime tza tv) + k)))
    23 59 59 999
  = Some (local_day_end tza (Day (LocalTime tza tv) + k)).
Proof.
  intros H. pose proof (setDate_near tv k).
  rewrite setDate_shift by (unfold msPerDay in *; lia).
  rewrite setHours_end by (unfold msPerDay in *; lia).
  now rewrite Day_shifted.
Qed.

Hypothesis Hm : steady_at_midnight tza.

Lemma day_end_next_midnight (d : Z) :
  local_day_end tza d = local_midnight tza (d + 1) - 1.
Proof.
  unfold local_day_end, local_midnight, UTC, MakeDate.
  change (MakeTime 23 59 59 999) with (msPerDay - 1).
  change (MakeTime 0 0 0 0) with 0. rewrite Z.add_0_r.
  replace (d * msPerDay + (msPerDay - 1)) with ((d + 1) * msPerDay - 1)
    by lia.
  rewrite (Hm (d + 1)). lia.
Qed.

End ZoneFacts.

(** The zones used in the examples have these properties. *)
Lemma fixed_offset_bounded (offset : Z) :
  Z.abs offset <= msPerDay -> offsets_bounded (fixed_offset offset).
Proof. intros H t isUTC. exact H. Qed.

Lemma fixed_offset_keeps_date (offset : Z) : keeps_date (fixed_offset offset).
Proof.
  intros x. unfold LocalTime, UTC, fixed_offset. f_equal. lia.
Qed.

Lemma fixed_offset_steady (offset : Z) :
  steady_at_midnight (fixed_offset offset).
Proof. intros d. reflexivity. Qed.

Lemma fixed_offset_days_in_order (offset : Z) :
  days_in_order (fixed_offset offset).
Proof.
  intros d t. unfold local_midnight, UTC, LocalTime, MakeDate, fixed_offset.
  change (MakeTime 0 0 0 0) with 0. unfold Day, msPerDay.
  split; intros H; Z.div_mod_to_equations; lia.
Qed.

Ltac offset_cases zone :=
  unfold zone, msPerHour;
  repeat match goal with
         | |- context [?a <=? ?b] => destruct (Z.leb_spec a b)
         | |- context [?a <? ?b] => destruct (Z.ltb_spec a b)
         end;
  cbn [andb].

Lemma berlin_2025_local (x : Z) :
  (berlin_2025 x false = 3600000 /\
   (x < 1743303600000 \/ 1761447600000 <= x)) \/
  (berlin_2025 x false = 7200000 /\ 1743303600000 <= x < 1761447600000).
Proof. offset_cases berlin_2025; lia. Qed.

Lemma berlin_2025_utc (t : Z) :
  (berlin_2025 t true = 3600000 /\
   (t < 1743296400000 \/ 1761440400000 <= t)) \/
  (berlin_2025 t true = 7200000 /\ 1743296400000 <= t < 1761440400000).
Proof. offset_cases berlin_2025; lia. Qed.

Lemma berlin_2025_bounded : offsets_bounded berlin_2025.
Proof.
  intros t isUTC. unfold msPerDay. destruct isUTC.
  - destruct (berlin_2025_utc t) as [[-> _] | [-> _]]; lia.
  - destruct (berlin_2025_local t) as [[-> _] | [-> _]]; lia.
Qed.

Lemma berlin_2025_keeps_date : keeps_date berlin_2025.
Proof.
  intros x. unfold LocalTime, UTC, Day, msPerDay.
  destruct (berlin_2025_local x) as [[-> Hx] | [-> Hx]].
  - destruct (berlin_2025_utc (x - 3600000)) as [[-> Hu] | [-> Hu]];
      Z.div_mod_to_equations; lia.
  - destruct (berlin_2025_utc (x - 7200000)) as [[-> Hu] | [-> Hu]];
      Z.div_mod_to_equations; lia.
Qed.

Lemma berlin_2025_steady : steady_at_midnight berlin_2025.
Proof.
  intros d. unfold msPerDay.
  destruct (berlin_2025_local (d * 86400000 - 1)) as [[-> H1] | [-> H1]];
    destruct (berlin_2025_local (d * 86400000)) as [[-> H2] | [-> H2]];
    lia.
Qed.

Lemma berlin_2025_days_in_order : days_in_order berlin_2025.
Proof.
  intros d t. unfold local_midnight, UTC, LocalTime, MakeDate.
  change (MakeTime 0 0 0 0) with 0. rewrite Z.add_0_r.
  unfold Day, msPerDay.
  destruct (berlin_2025_local (d * 86400000)) as [[-> H1] | [-> H1]];
    destruct (berlin_2025_utc t) as [[-> H2] | [-> H2]];
    split; intros H'; Z.div_mod_to_equations; lia.
Qed.

Lemma santiago_2025_local (x : Z) :
  (santiago_2025 x false = -10800000 /\
   (x < 1743897600000 \/ 1757206800000 <= x)) \/
  (santiago_2025 x false = -14400000 /\ 1743897600000 <= x < 1757206800000).
Proof. offset_cases santiago_2025; lia. Qed.

Lemma santiago_2025_utc (t : Z) :
  (santiago_2025 t true = -10800000 /\
   (t < 1743908400000 \/ 1757217600000 <= t)) \/
  (santiago_2025 t true = -14400000 /\ 1743908400000 <= t < 1757217600000).
Proof. offset_cases santiago_2025; lia. Qed.

Lemma santiago_2025_bounded : offsets_bounded santiago_2025.
Proof.
  intros t isUTC. unfold msPerDay. destruct isUTC.
  - destruct (santiago_2025_utc t) as [[-> _] | [-> _]]; lia.
  - destruct (santiago_2025_local t) as [[-> _] | [-> _]]; lia.
Qed.

Lemma santiago_2025_keeps_date : keeps_date santiago_2025.
Proof.
  intros x. unfold LocalTime, UTC, Day, msPerDay.
  destruct (santiago_2025_local x) as [[-> Hx] | [-> Hx]].
  - destruct (santiago_2025_utc (x - -10800000)) as [[-> Hu] | [-> Hu]];
      Z.div_mod_to_equations; lia.
  - destruct (santiago_2025_utc (x - -14400000)) as [[-> Hu] | [-> Hu]];
      Z.div_mod_to_equations; lia.
Qed.

(** The midnight that begins 6 April 2025 has another offset than the
    millisecond before it. *)
Lemma santiago_2025_not_steady : ~ steady_at_midnight santiago_2025.
Proof.
  intros H. specialize (H 20184). vm_compute in H. discriminate.
Qed.

End JsDate.

(** * The wire format shared by the client, the routes and the backend *)

Module Wire.

(** [TimeEntry] of [types/time-entries]: a JSON object; [None] is the
    JSON [null].  Timestamps travel as strings. *)
Record TimeEntry := mkTimeEntry {
  id : string;
  user_id : string;
  description : option string;
  project_id : option string;
  task_id : option string;
  start_time : string;
  end_time : option string;
  duration : option Z;
  is_running : bool;
  created_at : string;
  updated_at : string
}.

Record TimeEntriesListResponse := mkList {
  entries : list TimeEntry;
  total_count : Z;
  total_duration : Z;
  page : Z;
  per_page : Z
}.

Inductive sort_key := by_start_time | by_duration.

(** [TimeEntryFilters]; [None] is an absent field.  [start_date] and
    [end_date] carry the instant their ISO string denotes, in
    milliseconds ([toISOString] is exact on a valid date). *)
Record TimeEntryFilters := mkFilters {
  start_date : option Z;
  end_date : option Z;
  f_project_id : option string;
  f_task_id : option string;
  f_is_running : option bool;
  f_page : option Z;
  limit : option Z;
  sort_by : option sort_key
}.

(** The JSON body of a create, update or start request: every field may
    be absent. *)
Record EntryBody := mkBody {
  b_description : option string;
  b_project_id : option string;
  b_task_id : option string;
  b_start_time : option string;
  b_end_time : option string
}.

(** [StartTimerRequest] *)
Record StartTimerRequest := mkStart {
  s_description : option string;
  s_project_id : option string;
  s_task_id : option string
}.

Record TimeStats := mkStats {
  today : Z;
  this_week : Z;
  this_month : Z;
  total_entries_today : Z;
  total_entries_week : Z;
  total_entries_month : Z
}.

(** The body of an HTTP answer when it is read with [response.json()]:
    the payload the endpoint promises, an object with (or without) an
    [error] field, or something that is not JSON. *)
Inductive Body (T : Type) :=
  | json_data (data : T)
  | json_error (error : option string)
  | not_json.

Arguments json_data {T}.
Arguments json_error {T}.
Arguments not_json {T}.

Record Response (T : Type) := mkResponse {
  status : Z;
  body : Body T
}.

Arguments mkResponse {T}.
Arguments status {T}.
Arguments body {T}.

(** [response.ok] *)
Definition ok {T : Type} (r : Response T) : bool :=
  (200 <=? status r) && (status r <=? 299).

(** A thrown value: an [Error] object with its message, or anything
    else. *)
Inductive exn :=
  | Error (message : string)
  | Thrown.

(** JavaScript's truthiness of an optional string. *)
Definition truthy (s : option string) : bool :=
  match s with
  | Some v => negb (String.eqb v "")
  | None => false
  end.

End Wire.

(** * Asynchronous JavaScript as state-passing programs *)

Module Js.

Import Wire.

(** Programs that read and write a world and may throw

    An [async] function is run to completion; a value of [M W A] takes
    the world before the call to the outcome (a thrown value or a
    result) and the world after it. *)
Definition M (W A : Type) : Type := W -> (exn + A) * W.

Definition ret {W A : Type} (a : A) : M W A := fun w => (inr a, w).

Definition throw {W A : Type} (e : exn) : M W A := fun w => (inl e, w).

Definition bind {W A B : Type} (m : M W A) (k : A -> M W B) : M W B :=
  fun w =>
    match m w with
    | (inl e, w') => (inl e, w')
    | (inr a, w') => k a w'
    end.

(** [try { m } catch (e) { h e }] *)
Definition try_catch {W A : Type} (m : M W A) (h : exn -> M W A) : M W A :=
  fun w =>
    match m w with
    | (inl e, w') => h e w'
    | (inr a, w') => (inr a, w')
    end.

(** Calling an [async] function without awaiting it gives a promise: the
    call runs, its outcome is kept as a value. [await] takes it back. *)
Definition promise {W A : Type} (m : M W A) : M W (exn + A) :=
  fun w => let (r, w') := m w in (inr r, w').

Definition await {W A : Type} (p : exn + A) : M W A := fun w => (p, w).

Definition modify {W : Type} (f : W -> W) : M W unit :=
  fun w => (inr tt, f w).

Definition gets {W A : Type} (f : W -> A) : M W A := fun w => (inr (f w), w).

Declare Scope js_scope.
Delimit Scope js_scope with js.
Notation "x <- m ;; k" := (bind m (fun x => k))
  (at level 61, m at next level, right associativity) : js_scope.
Notation "m ;; k" := (bind m (fun _ => k))
  (at level 61, right associativity) : js_scope.
Local Open Scope js_scope.

(** [error instanceof Error ? error.message : fallback] *)
Definition message_or (e : exn) (fallback : string) : string :=
  match e with
  | Error m => m
  | Thrown => fallback
  end.

End Js.

(** * The client: API object and React hooks *)

Module Client.

Import Wire JsDate Js.
Local Open Scope js_scope.

(** ** [lib/api/time-entries.ts] *)

(** The arguments of the three list queries of [getTimeStats]. *)
Definition todayStart (tza : TimeZone) (now : Z) : Date :=
  setHours tza (Some now) 0 0 0 0.

Definition todayEnd (tza : TimeZone) (now : Z) : Date :=
  setHours tza (Some now) 23 59 59 999.

Definition weekStart (tza : TimeZone) (now : Z) : Date :=
  let weekStart := Some now in
  let day := getDay tza weekStart in
  let diff := num_add (num_sub (getDate tza weekStart) day)
                      (if num_is day 0 then Some (-6) else Some 1) in
  setHours tza (setDate tza weekStart diff) 0 0 0 0.

Definition weekEnd (tza : TimeZone) (now : Z) : Date :=
  let weekEnd := weekStart tza now in
  setHours tza (setDate tza weekEnd (num_add (getDate tza weekEnd) (Some 6)))
           23 59 59 999.

Definition monthStart (tza : TimeZone) (now : Z) : Date :=
  newDate tza (getFullYear tza (Some now)) (getMonth tza (Some now)) (Some 1).

Definition monthEnd (tza : TimeZone) (now : Z) : Date :=
  setHours tza
    (newDate tza (getFullYear tza (Some now))
             (num_add (getMonth tza (Some now)) (Some 1)) (Some 0))
    23 59 59 999.

(** [d.toISOString()] throws a RangeError on an invalid date. *)
Definition toISOString {W : Type} (d : Date) : M W Z :=
  match d with
  | Some t => ret t
  | None => throw (Error "Invalid time value")
  end.

Definition stats_filters {W : Type} (from to : Date) : M W TimeEntryFilters :=
  s <- toISOString from ;;
  e <- toISOString to ;;
  ret (mkFilters (Some s) (Some e) None None None None (Some 100) None).

Definition zero_stats : TimeStats := mkStats 0 0 0 0 0 0.

Definition entries_length (r : TimeEntriesListResponse) : Z :=
  Z.of_nat (List.length (entries r)).

Section Fetch.

Variable S : Type.

(** [`HTTP ${response.status}: ${response.statusText}`] *)
Variable status_line : Z -> string.

(** [localStorage.getItem("access_token")] *)
Variable token : option string.

(** [fetch("/api/time-entries?...")] with the headers of
    [getAuthHeaders]. *)
Variable fetch_list :
  option string -> TimeEntryFilters -> M S (Response TimeEntriesListResponse).

(** The object [{}] read as a list response. *)
Variable empty_list : TimeEntriesListResponse.

Definition handleResponse {T : Type} (empty : T) (response : Response T)
  : M S T :=
  if negb (ok response) then
    throw (Error
             match body response with
             | json_error (Some e) =>
                 if String.eqb e "" then status_line (status response) else e
             | json_error None | json_data _ => status_line (status response)
             | not_json => "Request failed"
             end)
  else if status response =? 204 then ret empty
  else
    match body response with
    | json_data v => ret v
    | json_error _ => ret empty
    | not_json => throw Thrown
    end.

Definition getAuthHeaders : option string :=
  match token with
  | Some t => if truthy token then Some ("Bearer " ++ t)%string else None
  | None => None
  end.

(** Only the filters that are neither absent nor [""] become query
    parameters. *)
Definition params (f : TimeEntryFilters) : TimeEntryFilters :=
  let keep (o : option string) := if truthy o then o else None in
  mkFilters (start_date f) (end_date f) (keep (f_project_id f))
            (keep (f_task_id f)) (f_is_running f) (f_page f) (limit f)
            (sort_by f).

(** [timeEntriesAPI.getTimeEntries] *)
Definition fetch_getTimeEntries (f : TimeEntryFilters)
  : M S TimeEntriesListResponse :=
  response <- fetch_list getAuthHeaders (params f) ;;
  handleResponse empty_list response.

End Fetch.

Section Api.

(** Everything beyond the browser tab: the network and the server. *)
Variable S : Type.

(** The local time zone of the browser. *)
Variable tza : TimeZone.

(** [timeEntriesAPI.getTimeEntries]: a GET that resolves to the list, or
    rejects when the request fails or the answer is not 2xx. *)
Variable getTimeEntries : TimeEntryFilters -> M S TimeEntriesListResponse.

Definition getTimeStats (now : Z) : M S TimeStats :=
  try_catch
    (f1 <- stats_filters (todayStart tza now) (todayEnd tza now) ;;
     p1 <- promise (getTimeEntries f1) ;;
     f2 <- stats_filters (weekStart tza now) (weekEnd tza now) ;;
     p2 <- promise (getTimeEntries f2) ;;
     f3 <- stats_filters (monthStart tza now) (monthEnd tza now) ;;
     p3 <- promise (getTimeEntries f3) ;;
     todayData <- await p1 ;;
     weekData <- await p2 ;;
     monthData <- await p3 ;;
     ret (mkStats (total_duration todayData)
                  (total_duration weekData)
                  (total_duration monthData)
                  (entries_length todayData)
                  (entries_length weekData)
                  (entries_length monthData)))
    (fun _ => ret zero_stats).

(** The other methods of [timeEntriesAPI]: each is a [fetch] followed by
    [handleResponse], which throws an [Error] on a non-2xx answer (409
    for a start while a timer is running, 400, 404, ...). *)
Variable api_startTimer : StartTimerRequest -> M S TimeEntry.
Variable api_stopTimer : string -> M S TimeEntry.
Variable api_getCurrentTimer : M S (option TimeEntry).
Variable api_updateTimeEntry : string -> EntryBody -> M S TimeEntry.
Variable api_deleteTimeEntry : string -> M S unit.

(** [new Date(s).getTime()]: the time value of the string, [None] (NaN)
    when it is not a date. *)
Variable Date_parse : string -> option Z.

(** The requests a hook has sent, oldest first. *)
Inductive ApiCall :=
  | call_getTimeEntries (filters : TimeEntryFilters)
  | call_getTimeStats
  | call_startTimer (data : StartTimerRequest)
  | call_stopTimer (id : string)
  | call_getCurrentTimer
  | call_updateTimeEntry (id : string) (data : EntryBody)
  | call_deleteTimeEntry (id : string).

(** ** [hooks/use-timer.ts] *)

Record TimerState := mkTimerState {
  isRunning : bool;
  currentEntry : option TimeEntry;
  elapsedTime : Z;
  loading : bool;
  error : option string
}.

(** The hook instance: the network, the requests sent so far, the React
    state, and [intervalRef] with the entry its callback closes over
    ([None]: no interval is installed). *)
Record Timer := mkTimer {
  t_net : S;
  t_calls : list ApiCall;
  state : TimerState;
  intervalRef : option TimeEntry
}.

Definition setState (f : TimerState -> TimerState) : M Timer unit :=
  modify (fun w => mkTimer (t_net w) (t_calls w) (f (state w)) (intervalRef w)).

Definition set_intervalRef (i : option TimeEntry) : M Timer unit :=
  modify (fun w => mkTimer (t_net w) (t_calls w) (state w) i).

Definition t_call {A : Type} (c : ApiCall) (m : M S A) : M Timer A :=
  fun w =>
    let (r, net') := m (t_net w) in
    (r, mkTimer net' (t_calls w ++ [c]) (state w) (intervalRef w)).

Definition calculateElapsedTime (startTime : string) (now : Z) : Z :=
  if negb (truthy (Some startTime)) then 0
  else
    match Date_parse startTime with
    | None => 0
    | Some start =>
        let elapsed := (now - start) / 1000 in
        Z.max 0 elapsed
    end.

(** [setInterval(..., 1000)] after clearing the previous interval. *)
Definition startTimerUpdate (entry : TimeEntry) : M Timer unit :=
  set_intervalRef (Some entry).

Definition stopTimerUpdate : M Timer unit := set_intervalRef None.

(** One firing of the interval callback, the clock reading [now]. *)
Definition interval_tick (now : Z) : M Timer unit :=
  w <- gets intervalRef ;;
  match w with
  | Some entry =>
      setState (fun prev =>
        mkTimerState (isRunning prev) (currentEntry prev)
                     (calculateElapsedTime (start_time entry) now)
                     (loading prev) (error prev))
  | None => ret tt
  end.

Definition loadCurrentTimer (now : Z) : M Timer unit :=
  try_catch
    (setState (fun prev =>
       mkTimerState (isRunning prev) (currentEntry prev) (elapsedTime prev)
                    true None) ;;
     current <- t_call call_getCurrentTimer api_getCurrentTimer ;;
     match current with
     | Some entry =>
         if is_none (end_time entry) then
           let elapsed := calculateElapsedTime (start_time entry) now in
           setState (fun prev =>
             mkTimerState true (Some entry) elapsed false (error prev)) ;;
           startTimerUpdate entry
         else
           setState (fun prev => mkTimerState false None 0 false (error prev))
     | None =>
         setState (fun prev => mkTimerState false None 0 false (error prev))
     end)
    (fun err =>
       setState (fun prev =>
         mkTimerState false None 0 false
                      (Some (message_or err "Failed to load timer")))).

Definition startTimer (data : StartTimerRequest) : M Timer TimeEntry :=
  try_catch
    (setState (fun prev =>
       mkTimerState (isRunning prev) (currentEntry prev) (elapsedTime prev)
                    true None) ;;
     newEntry <- t_call (call_startTimer data) (api_startTimer data) ;;
     setState (fun prev =>
       mkTimerState true (Some newEntry) 0 false (error prev)) ;;
     startTimerUpdate newEntry ;;
     ret newEntry)
    (fun err =>
       setState (fun prev =>
         mkTimerState (isRunning prev) (currentEntry prev) (elapsedTime prev)
                      false (Some (message_or err "Failed to start timer"))) ;;
       throw err).

Definition stopTimer : M Timer TimeEntry :=
  cur <- gets (fun w => currentEntry (state w)) ;;
  match cur with
  | None => throw (Error "No timer is currently running")
  | Some entry =>
      try_catch
        (setState (fun prev =>
           mkTimerState (isRunning prev) (currentEntry prev)
                        (elapsedTime prev) true None) ;;
         stoppedEntry <- t_call (call_stopTimer (id entry))
                                (api_stopTimer (id entry)) ;;
         stopTimerUpdate ;;
         setState (fun prev => mkTimerState false None 0 false (error prev)) ;;
         ret stoppedEntry)
        (fun err =>
           setState (fun prev =>
             mkTimerState (isRunning prev) (currentEntry prev)
                          (elapsedTime prev) false
                          (Some (message_or err "Failed to stop timer"))) ;;
           throw err)
  end.

(** The [visibilitychange] listener; [hidden] is [document.hidden]. *)
Definition handleVisibilityChange (hidden : bool) (now : Z) : M Timer unit :=
  st <- gets state ;;
  match isRunning st, currentEntry st with
  | true, Some entry =>
      if hidden then stopTimerUpdate
      else
        let elapsed := calculateElapsedTime (start_time entry) now in
        setState (fun prev =>
          mkTimerState (isRunning prev) (currentEntry prev) elapsed
                       (loading prev) (error prev)) ;;
        startTimerUpdate entry
  | _, _ => ret tt
  end.

(** ** [hooks/use-time-entries.ts] *)

Record TimeEntriesState := mkEntriesState {
  e_entries : list TimeEntry;
  totalCount : Z;
  totalDuration : Z;
  e_page : Z;
  perPage : Z;
  e_loading : bool;
  e_error : option string;
  stats : TimeStats;
  statsLoading : bool
}.

(** The hook instance: the network, the requests sent so far, the React
    state and the current [filters]. *)
Record Entries := mkEntries {
  e_net : S;
  e_calls : list ApiCall;
  e_state : TimeEntriesState;
  filters : TimeEntryFilters
}.

Definition setEntriesState (f : TimeEntriesState -> TimeEntriesState)
  : M Entries unit :=
  modify (fun w => mkEntries (e_net w) (e_calls w) (f (e_state w)) (filters w)).

Definition e_call {A : Type} (c : ApiCall) (m : M S A) : M Entries A :=
  fun w =>
    let (r, net') := m (e_net w) in
    (r, mkEntries net' (e_calls w ++ [c]) (e_state w) (filters w)).

Definition loadTimeEntries : M Entries unit :=
  try_catch
    (setEntriesState (fun prev =>
       mkEntriesState (e_entries prev) (totalCount prev) (totalDuration prev)
                      (e_page prev) (perPage prev) true None
                      (stats prev) (statsLoading prev)) ;;
     f <- gets filters ;;
     response <- e_call (call_getTimeEntries f) (getTimeEntries f) ;;
     setEntriesState (fun prev =>
       mkEntriesState (entries response) (total_count response)
                      (total_duration response) (page response)
                      (per_page response) false (e_error prev)
                      (stats prev) (statsLoading prev)))
    (fun err =>
       setEntriesState (fun prev =>
         mkEntriesState (e_entries prev) (totalCount prev)
                        (totalDuration prev) (e_page prev) (perPage prev)
                        false
                        (Some (message_or err "Failed to load time entries"))
                        (stats prev) (statsLoading prev))).

Definition loadStats (now : Z) : M Entries unit :=
  try_catch
    (setEntriesState (fun prev =>
       mkEntriesState (e_entries prev) (totalCount prev) (totalDuration prev)
                      (e_page prev) (perPage prev) (e_loading prev)
                      (e_error prev) (stats prev) true) ;;
     st <- e_call call_getTimeStats (getTimeStats now) ;;
     setEntriesState (fun prev =>
       mkEntriesState (e_entries prev) (totalCount prev) (totalDuration prev)
                      (e_page prev) (perPage prev) (e_loading prev)
                      (e_error prev) st false))
    (fun _ =>
       setEntriesState (fun prev =>
         mkEntriesState (e_entries prev) (totalCount prev)
                        (totalDuration prev) (e_page prev) (perPage prev)
                        (e_loading prev) (e_error prev) (stats prev) false)).

(** [prev.entries.map(entry => entry.id === id ? updatedEntry : entry)] *)
Definition replace_entry (i : string) (updated : TimeEntry)
                         (l : list TimeEntry) : list TimeEntry :=
  map (fun entry => if String.eqb (id entry) i then updated else entry) l.

(** [prev.entries.filter(entry => entry.id !== id)] *)
Definition remove_entry (i : string) (l : list TimeEntry) : list TimeEntry :=
  filter (fun entry => negb (String.eqb (id entry) i)) l.

Definition updateEntry (now : Z) (i : string) (data : EntryBody)
  : M Entries TimeEntry :=
  try_catch
    (updatedEntry <- e_call (call_updateTimeEntry i data)
                            (api_updateTimeEntry i data) ;;
     setEntriesState (fun prev =>
       mkEntriesState (replace_entry i updatedEntry (e_entries prev))
                      (totalCount prev) (totalDuration prev) (e_page prev)
                      (perPage prev) (e_loading prev) (e_error prev)
                      (stats prev) (statsLoading prev)) ;;
     loadStats now ;;
     ret updatedEntry)
    (fun err => loadTimeEntries ;; throw err).

Definition deleteEntry (now : Z) (i : string) : M Entries unit :=
  try_catch
    (setEntriesState (fun prev =>
       mkEntriesState (remove_entry i (e_entries prev))
                      (Z.max 0 (totalCount prev - 1)) (totalDuration prev)
                      (e_page prev) (perPage prev) (e_loading prev)
                      (e_error prev) (stats prev) (statsLoading prev)) ;;
     e_call (call_deleteTimeEntry i) (api_deleteTimeEntry i) ;;
     p1 <- promise loadTimeEntries ;;
     p2 <- promise (loadStats now) ;;
     await p1 ;;
     await p2)
    (fun err => loadTimeEntries ;; throw err).


(** ** Vocabulary for the facts below *)

(** One underlying list query of [getTimeStats]: its window turned into
    filters, then the GET. *)
Definition stats_query (from to : Date) : M S TimeEntriesListResponse :=
  f <- stats_filters from to ;; getTimeEntries f.

Definition failed {A : Type} (r : exn + A) : Prop :=
  match r with inl _ => True | inr _ => False end.

(** The events that touch the displayed time of a running timer. *)
Inductive TimerEvent :=
  | ev_tick (now : Z)
  | ev_visibility (hidden : bool) (now : Z).

Definition event_time (ev : TimerEvent) : Z :=
  match ev with
  | ev_tick now => now
  | ev_visibility _ now => now
  end.

Definition fire (ev : TimerEvent) (w : Timer) : Timer :=
  match ev with
  | ev_tick now => snd (interval_tick now w)
  | ev_visibility hidden now => snd (handleVisibilityChange hidden now w)
  end.

Definition fire_all (evs : list TimerEvent) (w : Timer) : Timer :=
  fold_left (fun w ev => fire ev w) evs w.

(** A hook showing the running timer [entry]: if an interval is
    installed, its callback closes over that entry. *)
Definition shows (entry : TimeEntry) (w : Timer) : Prop :=
  isRunning (state w) = true /\ currentEntry (state w) = Some entry /\
  (forall e, intervalRef w = Some e -> e = entry).

(** What [loadTimeEntries] leaves in the list part of the state when its
    GET answers [response]. *)
Definition list_state_is (response : TimeEntriesListResponse)
                         (st : TimeEntriesState) : Prop :=
  e_entries st = entries response /\
  totalCount st = total_count response /\
  totalDuration st = total_duration response /\
  e_page st = page response /\
  perPage st = per_page response.

(** ** Facts about the hooks *)

Lemma calculateElapsedTime_parsed (startTime : string) (start now : Z) :
  startTime <> ""%string -> Date_parse startTime = Some start ->
  calculateElapsedTime startTime now = Z.max 0 ((now - start) / 1000).
Proof.
  intros Hne Hp. unfold calculateElapsedTime, truthy.
  destruct (String.eqb_spec startTime "") as [He | _]; [contradiction|].
  cbn [negb]. now rewrite Hp.
Qed.

(** C10. [calculateElapsedTime] is a total function whose value is never
    negative; it is 0 for the empty string, for a string that is not a
    date, and for a start in the future of [now]. *)
Theorem elapsed_time_never_negative (startTime : string) (now : Z) :
  0 <= calculateElapsedTime startTime now /\
  (startTime = ""%string -> calculateElapsedTime startTime now = 0) /\
  (Date_parse startTime = None -> calculateElapsedTime startTime now = 0) /\
  (forall start, Date_parse startTime = Some start -> now < start ->
                 calculateElapsedTime startTime now = 0).
Proof.
  unfold calculateElapsedTime, truthy.
  destruct (String.eqb_spec startTime "") as [He | Hne]; cbn [negb].
  - repeat split; try reflexivity; lia.
  - destruct (Date_parse startTime) as [start|].
    + split; [lia|]. split; [contradiction|]. split; [discriminate|].
      intros start' [= <-] Hlt.
      assert ((now - start) / 1000 < 0)
        by (Z.div_mod_to_equations; lia).
      lia.
    + repeat split; try reflexivity; lia.
Qed.

(** C8. When the start request fails (a 409 conflict or anything else
    [api_startTimer] throws), [startTimer] throws that same value to its
    caller; it has sent the start request and nothing else, and the
    running flag, the current entry, the displayed time and the interval
    are exactly what they were: only [loading] and [error] change. *)
Theorem start_failure_is_surfaced (data : StartTimerRequest) (w : Timer)
        (err : exn) (net' : S) :
  api_startTimer data (t_net w) = (inl err, net') ->
  startTimer data w
  = (inl err,
     mkTimer net' (t_calls w ++ [call_startTimer data])
             (mkTimerState (isRunning (state w)) (currentEntry (state w))
                           (elapsedTime (state w)) false
                           (Some (message_or err "Failed to start timer")))
             (intervalRef w)).
Proof.
  intros Hapi.
  unfold startTimer, try_catch, bind, setState, modify, t_call, throw.
  cbn [t_net t_calls state intervalRef]. rewrite Hapi.
  cbn [t_net t_calls state intervalRef isRunning currentEntry elapsedTime].
  reflexivity.
Qed.

Lemma stats_filters_world {W : Type} (from to : Date) (w : W) :
  snd (stats_filters from to w) = w.
Proof.
  unfold stats_filters, toISOString, bind, ret, throw.
  destruct from, to; reflexivity.
Qed.

(** C5. [getTimeStats] never throws, and when any of its three list
    queries fails it returns the six statistics as zero. *)
Theorem stats_degrade_to_zero (now : Z) (s : S) :
  (exists st s', getTimeStats now s = (inr st, s')) /\
  (forall r1 r2 r3 s1 s2 s3,
     stats_query (todayStart tza now) (todayEnd tza now) s = (r1, s1) ->
     stats_query (weekStart tza now) (weekEnd tza now) s1 = (r2, s2) ->
     stats_query (monthStart tza now) (monthEnd tza now) s2 = (r3, s3) ->
     failed r1 \/ failed r2 \/ failed r3 ->
     fst (getTimeStats now s) = inr zero_stats).
Proof.
  unfold getTimeStats, stats_query, try_catch, bind, promise, await, ret.
  destruct (stats_filters (todayStart tza now) (todayEnd tza now) s)
    as [[e1|f1] s0] eqn:H1; [split; [eauto| reflexivity]|].
  pose proof (stats_filters_world (todayStart tza now) (todayEnd tza now) s)
    as Hw1. rewrite H1 in Hw1. cbn [snd] in Hw1. subst s0.
  destruct (getTimeEntries f1 s) as [r1 s1] eqn:Hq1.
  destruct (stats_filters (weekStart tza now) (weekEnd tza now) s1)
    as [[e2|f2] s0] eqn:H2; [split; [eauto| reflexivity]|].
  pose proof (stats_filters_world (weekStart tza now) (weekEnd tza now) s1)
    as Hw2. rewrite H2 in Hw2. cbn [snd] in Hw2. subst s0.
  destruct (getTimeEntries f2 s1) as [r2 s2] eqn:Hq2.
  destruct (stats_filters (monthStart tza now) (monthEnd tza now) s2)
    as [[e3|f3] s0] eqn:H3; [split; [eauto| reflexivity]|].
  pose proof (stats_filters_world (monthStart tza now) (monthEnd tza now) s2)
    as Hw3. rewrite H3 in Hw3. cbn [snd] in Hw3. subst s0.
  destruct (getTimeEntries f3 s2) as [r3 s3] eqn:Hq3.
  split.
  - destruct r1, r2, r3; eauto.
  - intros r1' r2' r3' s1' s2' s3' [= <- <-] E2 E3 Hf.
    rewrite H2, Hq2 in E2. injection E2 as <- <-.
    rewrite H3, Hq3 in E3. injection E3 as <- <-.
    destruct r1, r2, r3; try reflexivity.
    cbn in Hf. tauto.
Qed.

Lemma fire_shows (entry : TimeEntry) (ev : TimerEvent) (w : Timer) :
  shows entry w ->
  shows entry (fire ev w) /\
  (elapsedTime (state (fire ev w)) = elapsedTime (state w) \/
   elapsedTime (state (fire ev w))
   = calculateElapsedTime (start_time entry) (event_time ev)).
Proof.
  intros (Hr & Hc & Hi). destruct ev as [now | hidden now]; cbn [fire].
  - unfold interval_tick, bind, gets, setState, modify, ret.
    destruct (intervalRef w) as [e|] eqn:Hint; cbn.
    + rewrite (Hi e eq_refl). unfold shows. cbn. rewrite Hint.
      repeat split; auto.
    + unfold shows. rewrite Hint. repeat split; auto; discriminate.
  - unfold handleVisibilityChange, bind, gets, setState, modify, ret,
      stopTimerUpdate, startTimerUpdate, set_intervalRef.
    rewrite Hr, Hc. destruct hidden; cbn; unfold shows; cbn.
    + repeat split; auto; discriminate.
    + repeat split; auto. now intros e [= <-].
Qed.

Lemma fire_all_shows (entry : TimeEntry) (evs : list TimerEvent) (w : Timer) :
  shows entry w -> shows entry (fire_all evs w).
Proof.
  unfold fire_all. revert w.
  induction evs as [|ev evs IH]; intros w Hs; [exact Hs|].
  cbn [fold_left]. apply IH. now apply fire_shows.
Qed.

Lemma hidden_ticks_do_nothing (ticks : list Z) (w : Timer) :
  intervalRef w = None -> fire_all (map ev_tick ticks) w = w.
Proof.
  intros Hn. unfold fire_all.
  induction ticks as [|now ticks IH]; [reflexivity|].
  cbn [map fold_left fire].
  unfold interval_tick, bind, gets, ret. rewrite Hn. cbn [snd]. exact IH.
Qed.

(** C7. For a running timer every event either leaves the displayed
    time alone or sets it to the whole seconds between the entry's
    [start_time] and the clock reading of that event (never below 0): it
    is never built from its previous value.  Hiding the page removes the
    interval, so ticks do nothing; the resume then shows
    [(now - start) / 1000] whatever happened before and however long
    the page was hidden, and so does every later tick. *)
Theorem elapsed_is_recomputed (w : Timer) (entry : TimeEntry) (start : Z) :
  shows entry w ->
  start_time entry <> ""%string ->
  Date_parse (start_time entry) = Some start ->
  forall (evs : list TimerEvent),
    let w1 := fire_all evs w in
    (forall ev,
        elapsedTime (state (fire ev w1)) = elapsedTime (state w1) \/
        elapsedTime (state (fire ev w1))
        = Z.max 0 ((event_time ev - start) / 1000)) /\
    (forall t_hide ticks now,
        let hidden := fire (ev_visibility true t_hide) w1 in
        let resumed := fire (ev_visibility false now)
                            (fire_all (map ev_tick ticks) hidden) in
        intervalRef hidden = None /\
        fire_all (map ev_tick ticks) hidden = hidden /\
        (start <= now ->
         elapsedTime (state resumed) = (now - start) / 1000) /\
        (forall now', start <= now' ->
           elapsedTime (state (fire (ev_tick now') resumed))
           = (now' - start) / 1000)).
Proof.
  intros Hs Hne Hp evs w1.
  assert (Hs1 : shows entry w1) by now apply fire_all_shows.
  assert (Hcalc : forall now, start <= now ->
            calculateElapsedTime (start_time entry) now = (now - start) / 1000).
  { intros now Hle. rewrite (calculateElapsedTime_parsed _ start) by assumption.
    assert (0 <= (now - start) / 1000) by (Z.div_mod_to_equations; lia).
    lia. }
  split.
  - intros ev. destruct (fire_shows entry ev w1 Hs1) as [_ H].
    rewrite (calculateElapsedTime_parsed _ start) in H by assumption.
    exact H.
  - intros t_hide ticks now hidden resumed.
    assert (Hh : intervalRef hidden = None).
    { subst hidden. destruct Hs1 as (Hr & Hc & _). cbn [fire].
      unfold handleVisibilityChange, bind, gets, stopTimerUpdate,
        set_intervalRef, modify.
      rewrite Hr, Hc. reflexivity. }
    assert (Hsh : shows entry hidden) by (apply fire_shows; exact Hs1).
    assert (Hticks : fire_all (map ev_tick ticks) hidden = hidden)
      by now apply hidden_ticks_do_nothing.
    assert (Hres : elapsedTime (state resumed)
                   = calculateElapsedTime (start_time entry) now
                   /\ intervalRef resumed = Some entry).
    { subst resumed. rewrite Hticks. destruct Hsh as (Hr & Hc & _).
      cbn [fire]. unfold handleVisibilityChange, bind, gets, setState,
        startTimerUpdate, set_intervalRef, modify.
      rewrite Hr, Hc. cbn. split; reflexivity. }
    destruct Hres as [Hel Hint].
    repeat split; try assumption.
    + intros Hle. rewrite Hel. now apply Hcalc.
    + intros now' Hle. cbn [fire].
      unfold interval_tick, bind, gets, setState, modify.
      rewrite Hint. cbn. now apply Hcalc.
Qed.

Lemma loadTimeEntries_run (w : Entries) :
  exists w',
    loadTimeEntries w = (inr tt, w') /\
    e_calls w' = e_calls w ++ [call_getTimeEntries (filters w)] /\
    filters w' = filters w /\
    e_net w' = snd (getTimeEntries (filters w) (e_net w)) /\
    (forall response,
        fst (getTimeEntries (filters w) (e_net w)) = inr response ->
        list_state_is response (e_state w')) /\
    (forall err,
        fst (getTimeEntries (filters w) (e_net w)) = inl err ->
        e_entries (e_state w') = e_entries (e_state w) /\
        totalCount (e_state w') = totalCount (e_state w) /\
        e_error (e_state w')
        = Some (message_or err "Failed to load time entries")).
Proof.
  unfold loadTimeEntries, try_catch, bind, gets, setEntriesState, modify,
    e_call.
  cbn [e_net e_calls e_state filters].
  destruct (getTimeEntries (filters w) (e_net w)) as [[err|response] net'];
    cbn; eexists; (split; [reflexivity|]); cbn;
    (split; [reflexivity|]); (split; [reflexivity|]);
    (split; [reflexivity|]); split.
  - intros ? [=].
  - intros ? [= <-]. repeat split.
  - intros ? [= <-]. unfold list_state_is. cbn. repeat split.
  - intros ? [=].
Qed.

(** C9. When the delete or the update request fails, the hook sends one
    more request, the GET of the list under the current filters, and
    throws the original failure.  When that GET answers, the list state
    is its answer; when it fails too, the entries stay as they were
    (for a delete: with the optimistic removal).  In neither case is the
    optimistic write undone locally. *)
Theorem failed_write_refetches (now : Z) (i : string) (w : Entries) :
  (forall err net1,
      api_deleteTimeEntry i (e_net w) = (inl err, net1) ->
      exists w',
        deleteEntry now i w = (inl err, w') /\
        e_calls w'
        = e_calls w ++ [call_deleteTimeEntry i;
                        call_getTimeEntries (filters w)] /\
        e_net w' = snd (getTimeEntries (filters w) net1) /\
        (forall response,
            fst (getTimeEntries (filters w) net1) = inr response ->
            list_state_is response (e_state w')) /\
        (forall err2,
            fst (getTimeEntries (filters w) net1) = inl err2 ->
            e_entries (e_state w') = remove_entry i (e_entries (e_state w))))
  /\
  (forall data err net1,
      api_updateTimeEntry i data (e_net w) = (inl err, net1) ->
      exists w',
        updateEntry now i data w = (inl err, w') /\
        e_calls w'
        = e_calls w ++ [call_updateTimeEntry i data;
                        call_getTimeEntries (filters w)] /\
        e_net w' = snd (getTimeEntries (filters w) net1) /\
        (forall response,
            fst (getTimeEntries (filters w) net1) = inr response ->
            list_state_is response (e_state w')) /\
        (forall err2,
            fst (getTimeEntries (filters w) net1) = inl err2 ->
            e_entries (e_state w') = e_entries (e_state w))).
Proof.
  split.
  - intros err net1 Hapi.
    unfold deleteEntry, try_catch, bind, setEntriesState, modify, e_call,
      throw.
    cbn [e_net e_calls e_state filters]. rewrite Hapi.
    match goal with
    | |- context [loadTimeEntries ?w0] =>
        destruct (loadTimeEntries_run w0)
          as (w' & Hrun & Hcalls & Hf & Hnet & Hok & Herr)
    end.
    cbn [e_net e_calls e_state filters] in *.
    rewrite Hrun. exists w'. split; [reflexivity|].
    split; [rewrite Hcalls, <- app_assoc; reflexivity|].
    split; [exact Hnet|]. split; [exact Hok|].
    intros err2 H2. destruct (Herr err2 H2) as (He & _). exact He.
  - intros data err net1 Hapi.
    unfold updateEntry, try_catch, bind, e_call, throw.
    rewrite Hapi.
    match goal with
    | |- context [loadTimeEntries ?w0] =>
        destruct (loadTimeEntries_run w0)
          as (w' & Hrun & Hcalls & Hf & Hnet & Hok & Herr)
    end.
    cbn [e_net e_calls e_state filters] in *.
    rewrite Hrun. exists w'. split; [reflexivity|].
    split; [rewrite Hcalls, <- app_assoc; reflexivity|].
    split; [exact Hnet|]. split; [exact Hok|].
    intros err2 H2. destruct (Herr err2 H2) as (He & _). exact He.
Qed.

(** ** More about [useTimer]: stopping, refreshing, what always holds *)

(** The hook as it is after the first render, before its effects run. *)
Definition initial_timer (net : S) : Timer :=
  mkTimer net [] (mkTimerState false None 0 true None) None.

(** Everything that can happen to a mounted [useTimer]: the mount effect
    or [refreshTimer] ([loadCurrentTimer]), the two actions it returns,
    a tick of the interval and a visibility change. *)
Inductive TimerAction :=
  | act_load (now : Z)
  | act_start (data : StartTimerRequest)
  | act_stop
  | act_event (ev : TimerEvent).

Definition act (a : TimerAction) (w : Timer) : Timer :=
  match a with
  | act_load now => snd (loadCurrentTimer now w)
  | act_start data => snd (startTimer data w)
  | act_stop => snd (stopTimer w)
  | act_event ev => fire ev w
  end.

Definition act_all (acts : list TimerAction) (w : Timer) : Timer :=
  fold_left (fun w a => act a w) acts w.

(** [isRunning] says whether there is a current entry, and an installed
    interval of a running hook counts for the current entry. *)
Definition timer_consistent (w : Timer) : Prop :=
  isRunning (state w) = is_some (currentEntry (state w)) /\
  (isRunning (state w) = true ->
   forall e, intervalRef w = Some e -> currentEntry (state w) = Some e).

(** [canStart] and [canStop] of the returned object. *)
Definition canStart (st : TimerState) : bool :=
  negb (isRunning st) && negb (loading st).

Definition canStop (st : TimerState) : bool :=
  isRunning st && negb (loading st).

Lemma act_consistent (a : TimerAction) (w : Timer) :
  timer_consistent w -> timer_consistent (act a w).
Proof.
  intros [Hr Hi]. destruct a as [now | data | | [now | hidden now]];
    cbn [act fire].
  - unfold loadCurrentTimer, try_catch, bind, setState, modify, t_call,
      startTimerUpdate, set_intervalRef.
    cbn [t_net t_calls state intervalRef].
    destruct (api_getCurrentTimer (t_net w)) as [[err | [entry|]] net'];
      cbn; [split; [reflexivity | discriminate] | |
            split; [reflexivity | discriminate]].
    destruct (is_none (end_time entry)); cbn.
    + split; [reflexivity|]. now intros _ e [= <-].
    + split; [reflexivity | discriminate].
  - unfold startTimer, try_catch, bind, setState, modify, t_call,
      startTimerUpdate, set_intervalRef, ret, throw.
    cbn [t_net t_calls state intervalRef].
    destruct (api_startTimer data (t_net w)) as [[err | entry] net']; cbn.
    + split; assumption.
    + split; [reflexivity|]. now intros _ e [= <-].
  - unfold stopTimer, try_catch, bind, gets, setState, modify, t_call,
      stopTimerUpdate, set_intervalRef, ret, throw.
    destruct (currentEntry (state w)) as [entry|] eqn:Hc; cbn.
    + cbn [t_net t_calls state intervalRef].
      destruct (api_stopTimer (id entry) (t_net w)) as [[err | e'] net'];
        cbn.
      * rewrite Hc. split; assumption.
      * split; [reflexivity | discriminate].
    + unfold timer_consistent. rewrite Hc. split; assumption.
  - unfold interval_tick, bind, gets, setState, modify, ret.
    destruct (intervalRef w) as [e|] eqn:Hint; cbn.
    + rewrite Hint. split; assumption.
    + unfold timer_consistent. rewrite Hint. split; assumption.
  - unfold handleVisibilityChange, bind, gets, setState, modify, ret,
      stopTimerUpdate, startTimerUpdate, set_intervalRef.
    unfold timer_consistent in *.
    destruct (isRunning (state w)) eqn:Hrun;
      destruct (currentEntry (state w)) as [entry|] eqn:Hc;
      try destruct hidden; cbn; rewrite ?Hrun, ?Hc;
      (split; [assumption|]); try assumption.
    + intros _ e [=].
    + now intros _ e [= <-].
Qed.

Lemma act_all_consistent (acts : list TimerAction) (w : Timer) :
  timer_consistent w -> timer_consistent (act_all acts w).
Proof.
  unfold act_all. revert w.
  induction acts as [|a acts IH]; intros w Hw; [exact Hw|].
  cbn [fold_left]. apply IH. now apply act_consistent.
Qed.

(** X3.
    From the first render on, in whatever order the loads, the starts,
    the stops, the ticks and the visibility changes come, and whether
    the requests succeed or fail (a start that succeeds answers with an
    entry, as the type of [timeEntriesAPI.startTimer] says): [isRunning]
    is true exactly when there is a current entry, and an interval
    installed while the hook is running belongs to the current entry.
    So when [canStop] is true there is an entry, and [stopTimer] sends
    the stop request for it; when [canStart] is true there is none. *)
Theorem timer_stays_consistent (net : S) (acts : list TimerAction) :
  let w := act_all acts (initial_timer net) in
  (isRunning (state w) = true <-> currentEntry (state w) <> None) /\
  (isRunning (state w) = true ->
   forall e, intervalRef w = Some e -> currentEntry (state w) = Some e) /\
  (canStop (state w) = true ->
   exists e, currentEntry (state w) = Some e /\
             t_calls (snd (stopTimer w))
             = t_calls w ++ [call_stopTimer (id e)]) /\
  (canStart (state w) = true ->
   currentEntry (state w) = None /\
   stopTimer w = (inl (Error "No timer is currently running"), w)).
Proof.
  intros w.
  assert (H : timer_consistent w).
  { apply act_all_consistent. split; [reflexivity | discriminate]. }
  destruct H as [Hr Hi]. split; [|split; [exact Hi|split]].
  - rewrite Hr. unfold is_some. destruct (currentEntry (state w)); cbn.
    + split; [discriminate | reflexivity].
    + split; [discriminate | intros H; now elim H].
  - unfold canStop. intros Hc. apply andb_true_iff in Hc as [Hrun _].
    rewrite Hr in Hrun. unfold is_some in Hrun.
    destruct (currentEntry (state w)) as [e|] eqn:Hcur; [|discriminate].
    exists e. split; [reflexivity|].
    unfold stopTimer, try_catch, bind, gets, setState, modify, t_call,
      stopTimerUpdate, set_intervalRef, ret, throw.
    rewrite Hcur. cbn [t_net t_calls state intervalRef].
    destruct (api_stopTimer (id e) (t_net w)) as [[err | e'] net'];
      reflexivity.
  - unfold canStart. intros Hc. apply andb_true_iff in Hc as [Hrun _].
    apply negb_true_iff in Hrun. rewrite Hr in Hrun. unfold is_some in Hrun.
    destruct (currentEntry (state w)) as [e|] eqn:Hcur; [discriminate|].
    split; [reflexivity|].
    unfold stopTimer, try_catch, bind, gets, setState, modify, t_call,
      stopTimerUpdate, set_intervalRef, ret, throw.
    rewrite Hcur. reflexivity.
Qed.

(** X4.
    [stopTimer]: without a current entry it throws "No timer is
    currently running" and sends nothing.  With one it sends the stop
    request for that entry; on success the hook is idle (no entry, 0
    elapsed, no interval, no error), on failure the same value is
    thrown again and the timer goes on as before, entry, displayed time
    and interval untouched, with [loading] off and the message in
    [error]. *)
Theorem stop_timer_outcomes (w : Timer) :
  (currentEntry (state w) = None ->
   stopTimer w = (inl (Error "No timer is currently running"), w)) /\
  (forall entry, currentEntry (state w) = Some entry ->
     (forall stopped net',
         api_stopTimer (id entry) (t_net w) = (inr stopped, net') ->
         stopTimer w
         = (inr stopped,
            mkTimer net' (t_calls w ++ [call_stopTimer (id entry)])
                    (mkTimerState false None 0 false None) None)) /\
     (forall err net',
         api_stopTimer (id entry) (t_net w) = (inl err, net') ->
         stopTimer w
         = (inl err,
            mkTimer net' (t_calls w ++ [call_stopTimer (id entry)])
                    (mkTimerState (isRunning (state w)) (Some entry)
                                  (elapsedTime (state w)) false
                                  (Some (message_or err "Failed to stop timer")))
                    (intervalRef w)))).
Proof.
  split.
  - intros Hc. unfold stopTimer, bind, gets, throw. now rewrite Hc.
  - intros entry Hc. split.
    + intros stopped net' Hapi.
      unfold stopTimer, try_catch, bind, gets, setState, modify, t_call,
        stopTimerUpdate, set_intervalRef, ret.
      rewrite Hc. cbn [t_net t_calls state intervalRef]. rewrite Hapi.
      reflexivity.
    + intros err net' Hapi.
      unfold stopTimer, try_catch, bind, gets, setState, modify, t_call,
        throw.
      rewrite Hc. cbn [t_net t_calls state intervalRef]. rewrite Hapi.
      cbn [t_net t_calls state intervalRef isRunning currentEntry
           elapsedTime]. rewrite Hc. reflexivity.
Qed.

(** X5.
    [loadCurrentTimer] (the mount effect and [refreshTimer]) never
    throws, sends one request and ends with [loading] off.  It shows a
    running timer exactly when the answer is an entry without
    [end_time].  Otherwise (no entry, a finished entry, a failed
    request) the hook is set to idle with 0 elapsed, but an interval
    installed earlier is left in place: its next tick writes the old
    entry's elapsed time into the idle hook. *)
Theorem refresh_leaves_interval (now : Z) (w : Timer) :
  exists w',
    loadCurrentTimer now w = (inr tt, w') /\
    t_calls w' = t_calls w ++ [call_getCurrentTimer] /\
    loading (state w') = false /\
    (forall entry,
        fst (api_getCurrentTimer (t_net w)) = inr (Some entry) ->
        end_time entry = None ->
        isRunning (state w') = true /\
        currentEntry (state w') = Some entry /\
        elapsedTime (state w') = calculateElapsedTime (start_time entry) now /\
        intervalRef w' = Some entry) /\
    ((forall entry,
         fst (api_getCurrentTimer (t_net w)) = inr (Some entry) ->
         end_time entry <> None) ->
     isRunning (state w') = false /\
     currentEntry (state w') = None /\
     elapsedTime (state w') = 0 /\
     intervalRef w' = intervalRef w /\
     forall old now',
       intervalRef w = Some old ->
       isRunning (state (fire (ev_tick now') w')) = false /\
       elapsedTime (state (fire (ev_tick now') w'))
       = calculateElapsedTime (start_time old) now').
Proof.
  unfold loadCurrentTimer, try_catch, bind, setState, modify, t_call,
    startTimerUpdate, set_intervalRef.
  cbn [t_net t_calls state intervalRef].
  destruct (api_getCurrentTimer (t_net w)) as [[err | [entry|]] net'];
    cbn [fst].
  - eexists. split; [reflexivity|]. cbn.
    split; [reflexivity|]. split; [reflexivity|]. split; [discriminate|].
    intros _. repeat (split; [reflexivity|]).
    intros old now' Hold. unfold interval_tick, bind, gets, setState, modify.
    cbn. rewrite Hold. cbn. split; reflexivity.
  - destruct (end_time entry) as [et|] eqn:He; cbn [is_none].
    + eexists. split; [reflexivity|]. cbn.
      split; [reflexivity|]. split; [reflexivity|].
      split; [intros e [= <-]; congruence|].
      intros _. repeat (split; [reflexivity|]).
      intros old now' Hold.
      unfold interval_tick, bind, gets, setState, modify.
      cbn. rewrite Hold. cbn. split; reflexivity.
    + eexists. split; [reflexivity|]. cbn.
      split; [reflexivity|]. split; [reflexivity|].
      split; [intros e [= <-] _; repeat split|].
      intros H. elim (H entry eq_refl He).
  - eexists. split; [reflexivity|]. cbn.
    split; [reflexivity|]. split; [reflexivity|]. split; [discriminate|].
    intros _. repeat (split; [reflexivity|]).
    intros old now' Hold. unfold interval_tick, bind, gets, setState, modify.
    cbn. rewrite Hold. cbn. split; reflexivity.
Qed.

(** ** More about [useTimeEntries]: refreshing the statistics, writes
       that succeed, the filters and the paging flags *)

Lemma getTimeStats_value (now : Z) (s : S) :
  exists st s',
    getTimeStats now s = (inr st, s') /\
    forall r1 r2 r3 s1 s2 s3,
      stats_query (todayStart tza now) (todayEnd tza now) s = (r1, s1) ->
      stats_query (weekStart tza now) (weekEnd tza now) s1 = (r2, s2) ->
      stats_query (monthStart tza now) (monthEnd tza now) s2 = (r3, s3) ->
      st = match r1, r2, r3 with
           | inr todayData, inr weekData, inr monthData =>
               mkStats (total_duration todayData) (total_duration weekData)
                       (total_duration monthData) (entries_length todayData)
                       (entries_length weekData) (entries_length monthData)
           | _, _, _ => zero_stats
           end.
Proof.
  unfold getTimeStats, stats_query, try_catch, bind, promise, await, ret.
  destruct (stats_filters (todayStart tza now) (todayEnd tza now) s)
    as [[e1|f1] s0] eqn:H1.
  { do 2 eexists. split; [reflexivity|]. now intros ? ? ? ? ? ? [= <- <-]. }
  pose proof (stats_filters_world (todayStart tza now) (todayEnd tza now) s)
    as Hw1. rewrite H1 in Hw1. cbn [snd] in Hw1. subst s0.
  destruct (getTimeEntries f1 s) as [r1 s1] eqn:Hq1.
  destruct (stats_filters (weekStart tza now) (weekEnd tza now) s1)
    as [[e2|f2] s0] eqn:H2.
  { do 2 eexists. split; [reflexivity|].
    intros ? ? ? ? ? ? [= <- <-]. rewrite H2. intros [= <- <-].
    now destruct r1. }
  pose proof (stats_filters_world (weekStart tza now) (weekEnd tza now) s1)
    as Hw2. rewrite H2 in Hw2. cbn [snd] in Hw2. subst s0.
  destruct (getTimeEntries f2 s1) as [r2 s2] eqn:Hq2.
  destruct (stats_filters (monthStart tza now) (monthEnd tza now) s2)
    as [[e3|f3] s0] eqn:H3.
  { do 2 eexists. split; [reflexivity|].
    intros ? ? ? ? ? ? [= <- <-]. rewrite H2, Hq2. intros [= <- <-].
    rewrite H3. intros [= <- <-]. now destruct r1, r2. }
  pose proof (stats_filters_world (monthStart tza now) (monthEnd tza now) s2)
    as Hw3. rewrite H3 in Hw3. cbn [snd] in Hw3. subst s0.
  destruct (getTimeEntries f3 s2) as [r3 s3] eqn:Hq3.
  destruct r1 as [e1|d1], r2 as [e2|d2], r3 as [e3|d3];
    do 2 eexists; (split; [reflexivity|]);
    intros ? ? ? ? ? ? [= <- <-]; rewrite H2, Hq2; intros [= <- <-];
    rewrite H3, Hq3; intros [= <- <-]; reflexivity.
Qed.

(** The list part of the state, which a statistics refresh leaves
    alone. *)
Definition with_stats (st : TimeStats) (prev : TimeEntriesState)
  : TimeEntriesState :=
  mkEntriesState (e_entries prev) (totalCount prev) (totalDuration prev)
                 (e_page prev) (perPage prev) (e_loading prev)
                 (e_error prev) st false.

Lemma loadStats_run (now : Z) (w : Entries) :
  exists st net',
    getTimeStats now (e_net w) = (inr st, net') /\
    loadStats now w
    = (inr tt, mkEntries net' (e_calls w ++ [call_getTimeStats])
                         (with_stats st (e_state w)) (filters w)).
Proof.
  destruct (getTimeStats_value now (e_net w)) as (st & net' & Hg & _).
  exists st, net'. split; [exact Hg|].
  unfold loadStats, try_catch, bind, setEntriesState, modify, e_call.
  cbn [e_net e_calls e_state filters]. rewrite Hg. reflexivity.
Qed.

(** X6.
    [loadStats] never throws and always ends with the statistics that
    [getTimeStats] returned: its "keep existing stats on error" branch
    is never taken.  So when one of the three list queries fails, the
    statistics shown before are replaced by six zeros; the entries, the
    totals and the filters are not touched. *)
Theorem stats_replaced_on_refresh (now : Z) (w : Entries) :
  exists st net',
    loadStats now w
    = (inr tt, mkEntries net' (e_calls w ++ [call_getTimeStats])
                         (with_stats st (e_state w)) (filters w)) /\
    fst (getTimeStats now (e_net w)) = inr st /\
    forall r1 r2 r3 s1 s2 s3,
      stats_query (todayStart tza now) (todayEnd tza now) (e_net w)
      = (r1, s1) ->
      stats_query (weekStart tza now) (weekEnd tza now) s1 = (r2, s2) ->
      stats_query (monthStart tza now) (monthEnd tza now) s2 = (r3, s3) ->
      failed r1 \/ failed r2 \/ failed r3 ->
      st = zero_stats.
Proof.
  destruct (getTimeStats_value now (e_net w)) as (st & net' & Hg & Hv).
  exists st, net'. split; [|split].
  - unfold loadStats, try_catch, bind, setEntriesState, modify, e_call.
    cbn [e_net e_calls e_state filters]. rewrite Hg. reflexivity.
  - now rewrite Hg.
  - intros r1 r2 r3 s1 s2 s3 E1 E2 E3 Hf.
    rewrite (Hv r1 r2 r3 s1 s2 s3 E1 E2 E3).
    destruct r1, r2, r3; try reflexivity. cbn in Hf. tauto.
Qed.

Lemma replace_entry_nth (i : string) (updated : TimeEntry)
      (l : list TimeEntry) (k : nat) (entry : TimeEntry) :
  nth_error l k = Some entry ->
  nth_error (replace_entry i updated l) k
  = Some (if String.eqb (id entry) i then updated else entry).
Proof.
  intros H. unfold replace_entry. rewrite nth_error_map, H. reflexivity.
Qed.

Lemma remove_entry_In (i : string) (l : list TimeEntry) (entry : TimeEntry) :
  In entry (remove_entry i l) <-> In entry l /\ id entry <> i.
Proof.
  unfold remove_entry. rewrite filter_In.
  destruct (String.eqb_spec (id entry) i) as [He | Hne]; cbn [negb].
  - split; [intros [_ H]; discriminate | intros [_ H]; now elim H].
  - split; intros [Hin _]; split; trivial.
Qed.

(** X7.
    A successful update: [updateEntry] returns the server's entry,
    whatever happens to the statistics queries.  It has sent the PATCH
    and then the statistics queries, but no GET of the list: the entry
    is swapped in locally, position by position, for every entry with
    that id, and [totalCount], [totalDuration] and the page keep the
    values they had before the update. *)
Theorem update_entry_success (now : Z) (i : string) (data : EntryBody)
        (w : Entries) (updated : TimeEntry) (net1 : S) :
  api_updateTimeEntry i data (e_net w) = (inr updated, net1) ->
  exists st net2,
    getTimeStats now net1 = (inr st, net2) /\
    updateEntry now i data w
    = (inr updated,
       mkEntries net2
         (e_calls w ++ [call_updateTimeEntry i data; call_getTimeStats])
         (mkEntriesState (replace_entry i updated (e_entries (e_state w)))
                         (totalCount (e_state w)) (totalDuration (e_state w))
                         (e_page (e_state w)) (perPage (e_state w))
                         (e_loading (e_state w)) (e_error (e_state w))
                         st false)
         (filters w)) /\
    List.length (replace_entry i updated (e_entries (e_state w)))
    = List.length (e_entries (e_state w)) /\
    (forall k entry,
        nth_error (e_entries (e_state w)) k = Some entry ->
        nth_error (replace_entry i updated (e_entries (e_state w))) k
        = Some (if String.eqb (id entry) i then updated else entry)).
Proof.
  intros Hapi.
  unfold updateEntry, try_catch, bind, setEntriesState, modify, e_call, ret.
  rewrite Hapi.
  match goal with
  | |- context [loadStats now ?w0] =>
      destruct (loadStats_run now w0) as (st & net2 & Hg & Hs)
  end.
  cbn [e_net e_calls e_state filters] in Hg, Hs.
  exists st, net2. split; [exact Hg|]. split; [|split].
  - cbn [e_net e_calls e_state filters]. rewrite Hs.
    rewrite <- app_assoc. reflexivity.
  - unfold replace_entry. apply length_map.
  - intros k entry. apply replace_entry_nth.
Qed.

(** X8.
    A successful delete: the hook has sent the DELETE, then the GET of
    the list under the current filters, then the statistics queries, and
    it resolves whatever the two refreshes do.  When the GET answers,
    the list state is its answer; when it fails, the list stays as the
    optimistic removal left it: without any entry of that id, the other
    entries kept, [totalCount] one less but never below 0, and the
    failure in [error]. *)
Theorem delete_entry_success (now : Z) (i : string) (w : Entries) (net1 : S) :
  api_deleteTimeEntry i (e_net w) = (inr tt, net1) ->
  exists w',
    deleteEntry now i w = (inr tt, w') /\
    e_calls w'
    = e_calls w ++ [call_deleteTimeEntry i;
                    call_getTimeEntries (filters w); call_getTimeStats] /\
    filters w' = filters w /\
    (forall response,
        fst (getTimeEntries (filters w) net1) = inr response ->
        list_state_is response (e_state w')) /\
    (forall err,
        fst (getTimeEntries (filters w) net1) = inl err ->
        e_entries (e_state w') = remove_entry i (e_entries (e_state w)) /\
        totalCount (e_state w') = Z.max 0 (totalCount (e_state w) - 1) /\
        e_error (e_state w')
        = Some (message_or err "Failed to load time entries")) /\
    (forall entry,
        In entry (remove_entry i (e_entries (e_state w)))
        <-> In entry (e_entries (e_state w)) /\ id entry <> i).
Proof.
  intros Hapi.
  unfold deleteEntry, try_catch, bind, setEntriesState, modify, e_call,
    promise, await.
  cbn [e_net e_calls e_state filters]. rewrite Hapi.
  match goal with
  | |- context [loadTimeEntries ?w0] =>
      destruct (loadTimeEntries_run w0)
        as (w1 & Hrun & Hcalls & Hf & Hnet & Hok & Herr)
  end.
  cbn [e_net e_calls e_state filters] in Hrun, Hcalls, Hf, Hnet, Hok, Herr.
  rewrite Hrun.
  destruct (loadStats_run now w1) as (st & net2 & _ & Hstats).
  rewrite Hstats. eexists. split; [reflexivity|].
  cbn [e_net e_calls e_state filters].
  split; [rewrite Hcalls, <- !app_assoc; reflexivity|].
  split; [exact Hf|]. split; [|split].
  - intros response Hr. apply Hok in Hr. exact Hr.
  - intros err He. destruct (Herr err He) as (H1 & H2 & H3).
    unfold with_stats.
    cbn [e_entries totalCount e_error e_state] in H1, H2, H3 |- *.
    split; [exact H1|]. split; [exact H2|exact H3].
  - intros entry. apply remove_entry_In.
Qed.

(** [Partial<TimeEntryFilters>]: a key may be missing ([None]), and a
    key that is there may hold [undefined] ([Some None]). *)
Record FiltersPatch := mkPatch {
  p_start_date : option (option Z);
  p_end_date : option (option Z);
  p_project_id : option (option string);
  p_task_id : option (option string);
  p_is_running : option (option bool);
  p_page : option (option Z);
  p_limit : option (option Z);
  p_sort_by : option (option sort_key)
}.

(** One key of [{ ...prev, ...newFilters }] *)
Definition spread {A : Type} (prev : option A) (new : option (option A))
  : option A :=
  match new with
  | Some v => v
  | None => prev
  end.

Definition DEFAULT_FILTERS : TimeEntryFilters :=
  mkFilters None None None None None (Some 1) (Some 20) (Some by_start_time).

(** [setFilters(prev => ({ ...prev, ...newFilters,
      ...(newFilters.page === undefined && { page: 1 }) }))] *)
Definition updateFilters (newFilters : FiltersPatch) : M Entries unit :=
  modify (fun w =>
    let prev := filters w in
    mkEntries (e_net w) (e_calls w) (e_state w)
      (mkFilters (spread (start_date prev) (p_start_date newFilters))
                 (spread (end_date prev) (p_end_date newFilters))
                 (spread (f_project_id prev) (p_project_id newFilters))
                 (spread (f_task_id prev) (p_task_id newFilters))
                 (spread (f_is_running prev) (p_is_running newFilters))
                 (if is_none (spread None (p_page newFilters)) then Some 1
                  else spread (f_page prev) (p_page newFilters))
                 (spread (limit prev) (p_limit newFilters))
                 (spread (sort_by prev) (p_sort_by newFilters)))).

(** [setPage: (page) => updateFilters({ page })] *)
Definition setPage (page : Z) : M Entries unit :=
  updateFilters (mkPatch None None None None None (Some (Some page)) None None).

Definition clearFilters : M Entries unit :=
  modify (fun w => mkEntries (e_net w) (e_calls w) (e_state w) DEFAULT_FILTERS).

(** A quotient of two integers as JavaScript computes it: dividing by 0
    gives an infinity, or NaN for 0 / 0. *)
Inductive JsNumber :=
  | Finite (n : Z)
  | PosInfinity
  | NegInfinity
  | NaN.

(** [Math.ceil(a / b)] *)
Definition ceil_div (a b : Z) : JsNumber :=
  if b =? 0 then
    if a =? 0 then NaN else if 0 <? a then PosInfinity else NegInfinity
  else Finite (- ((- a) / b)).

(** The paging values the hook computes. *)
Definition hasNextPage (st : TimeEntriesState) : bool :=
  e_page st * perPage st <? totalCount st.

Definition totalPages (st : TimeEntriesState) : JsNumber :=
  ceil_div (totalCount st) (perPage st).

(** X9.
    Changing a filter goes back to the first page, turning the page
    keeps every filter.  [updateFilters] writes exactly the keys of the
    patch: each of the seven filters other than [page] takes the value
    the patch has for it ([undefined] included) and keeps its own when
    the key is missing; [page] takes the page of the patch, and
    becomes 1 when the patch has none (the key missing or undefined).
    Applying a patch twice is applying it once; [setPage] changes
    [page] and nothing else; [clearFilters] gives the default filters.
    [updateFilters] itself writes the filters only: the reload is left
    to the effect that watches them. *)
Theorem filters_and_page (newFilters : FiltersPatch) (page : Z) (w : Entries) :
  let w1 := snd (updateFilters newFilters w) in
  let w2 := snd (setPage page w) in
  let written (A : Type) (key : FiltersPatch -> option (option A))
              (field : TimeEntryFilters -> option A) :=
      (key newFilters = None -> field (filters w1) = field (filters w)) /\
      (forall v, key newFilters = Some v -> field (filters w1) = v) in
  (e_net w1, e_calls w1, e_state w1) = (e_net w, e_calls w, e_state w) /\
  written Z p_start_date start_date /\
  written Z p_end_date end_date /\
  written string p_project_id f_project_id /\
  written string p_task_id f_task_id /\
  written bool p_is_running f_is_running /\
  written Z p_limit limit /\
  written sort_key p_sort_by sort_by /\
  (forall p, p_page newFilters = Some (Some p) ->
             f_page (filters w1) = Some p) /\
  (p_page newFilters = None \/ p_page newFilters = Some None ->
   f_page (filters w1) = Some 1) /\
  snd (updateFilters newFilters w1) = w1 /\
  filters w2
  = mkFilters (start_date (filters w)) (end_date (filters w))
              (f_project_id (filters w)) (f_task_id (filters w))
              (f_is_running (filters w)) (Some page) (limit (filters w))
              (sort_by (filters w)) /\
  filters (snd (clearFilters w1)) = DEFAULT_FILTERS.
Proof.
  intros w1 w2 written. subst w1 w2 written.
  unfold setPage, updateFilters, clearFilters, modify, spread.
  cbn [snd e_net e_calls e_state filters start_date end_date f_project_id
       f_task_id f_is_running f_page limit sort_by p_start_date p_end_date
       p_project_id p_task_id p_is_running p_page p_limit p_sort_by is_none].
  split; [reflexivity|].
  do 7 (split; [split; [intros ->; reflexivity | intros v ->; reflexivity]|]).
  split; [intros p ->; reflexivity|].
  split; [intros [-> | ->]; reflexivity|].
  split; [|split; reflexivity].
  destruct newFilters as [a b c d e f g h].
  cbn [p_start_date p_end_date p_project_id p_task_id p_is_running p_page
       p_limit p_sort_by].
  destruct a, b, c, d, e, f as [[?|]|], g, h; reflexivity.
Qed.

(** X10.
    The paging flags agree with each other: for a positive page size
    [totalPages] is the number [n] with
    [(n - 1) * perPage < totalCount <= n * perPage], and [hasNextPage]
    holds exactly on the pages before the [n]-th.  With a page size of 0
    [totalPages] is not a number of pages at all (an infinity or NaN),
    while [hasNextPage] is true whenever there is an entry. *)
Theorem paging_flags_agree (st : TimeEntriesState) :
  (0 < perPage st ->
   exists n,
     totalPages st = Finite n /\
     (n - 1) * perPage st < totalCount st <= n * perPage st /\
     (hasNextPage st = true <-> e_page st < n)) /\
  (perPage st = 0 ->
   (hasNextPage st = true <-> 0 < totalCount st) /\
   totalPages st = (if totalCount st =? 0 then NaN
                    else if 0 <? totalCount st then PosInfinity
                    else NegInfinity)).
Proof.
  unfold totalPages, hasNextPage, ceil_div. split.
  - intros Hpos.
    destruct (Z.eqb_spec (perPage st) 0) as [H0|_]; [lia|].
    set (T := totalCount st). set (P := perPage st) in *.
    exists (- ((- T) / P)). split; [reflexivity|].
    pose proof (Z.mul_div_le (- T) P Hpos) as Hlo.
    pose proof (Z.mul_succ_div_gt (- T) P Hpos) as Hhi.
    split; [nia|].
    rewrite Z.ltb_lt. split; intros H; nia.
  - intros ->. rewrite Z.mul_0_r, Z.eqb_refl, Z.ltb_lt. split; reflexivity.
Qed.

End Api.

(** "The 1st of month [m] of year [y]", said of a day number. *)
Definition is_first_of_month (y m d : Z) : Prop :=
  YearFromTime (MakeDate d 0) = y /\
  MonthFromTime (MakeDate d 0) = m /\
  DateFromTime (MakeDate d 0) = 1.

Definition next_month (y m : Z) : Z * Z :=
  if m =? 11 then (y + 1, 0) else (y, m + 1).

(** The days since the most recent Monday. *)
Definition since_monday (w : Z) : Z := if w =? 0 then 6 else w - 1.

(** ** Facts: the statistics windows *)

Lemma week_diff_value (d w : Z) :
  num_add (num_sub (Some d) (Some w))
          (if num_is (Some w) 0 then Some (-6) else Some 1)
  = Some (d + - since_monday w).
Proof.
  unfold num_add, num_sub, num_is, since_monday.
  destruct (Z.eqb_spec w 0); f_equal; lia.
Qed.

Lemma since_monday_range (x : Z) : 0 <= since_monday (WeekDay x) <= 6.
Proof.
  unfold since_monday, WeekDay.
  destruct (Z.eqb_spec ((Day x + 4) mod 7) 0); Z.div_mod_to_equations; lia.
Qed.

Lemma first_of_month_value (y m : Z) :
  0 <= m <= 11 -> is_first_of_month y m (MakeDay y m 1).
Proof.
  intros Hm. unfold is_first_of_month.
  apply first_of_month; [exact Hm|].
  destruct (MakeDate_Day (MakeDay y m 1) 0) as [-> _];
    [unfold msPerDay; lia|].
  now apply MakeDay_first.
Qed.

Lemma next_month_value (y m : Z) :
  0 <= m <= 11 ->
  is_first_of_month (fst (next_month y m)) (snd (next_month y m))
                    (MakeDay y (m + 1) 1).
Proof.
  intros Hm.
  destruct (MakeDay_next_month y m Hm) as (y' & m' & Hm' & Hlt & Heq & ->).
  replace (next_month y m) with (y', m').
  - now apply first_of_month_value.
  - unfold next_month. destruct (Z.eqb_spec m 11) as [H11 | H11].
    + destruct (Heq H11) as [-> ->]. reflexivity.
    + destruct (Hlt ltac:(lia)) as [-> ->]. reflexivity.
Qed.

Section Windows.

Variable tza : TimeZone.
Variable now : Z.
Hypothesis Hb : offsets_bounded tza.
Hypothesis Hlo : 0 <= LocalTime tza now.
Hypothesis Hhi : Z.abs now + 40 * msPerDay <= maxTime.

Local Abbreviation t := (LocalTime tza now).
Local Abbreviation D := (Day t).
Local Abbreviation Y := (YearFromTime t).
Local Abbreviation Mo := (MonthFromTime t).

Lemma todayStart_value : todayStart tza now = Some (local_midnight tza D).
Proof.
  unfold todayStart. apply (setHours_start tza Hb).
  unfold msPerDay, maxTime in *. lia.
Qed.

Lemma todayEnd_value : todayEnd tza now = Some (local_day_end tza D).
Proof.
  unfold todayEnd. apply (setHours_end tza Hb).
  unfold msPerDay, maxTime in *. lia.
Qed.

Lemma year_from_100 : 100 <= Y.
Proof. pose proof (YearFromTime_epoch t Hlo). lia. Qed.

Lemma month_near :
  Z.abs (MakeDay Y Mo 1 * msPerDay - now) <= 33 * msPerDay /\
  Z.abs (MakeDay Y (Mo + 1) 1 * msPerDay - now) <= 33 * msPerDay.
Proof.
  destruct (month_span t) as [Hs1 Hs2].
  pose proof (Day_near tza Hb now). unfold msPerDay in *. lia.
Qed.

Lemma monthStart_value :
  monthStart tza now = Some (local_midnight tza (MakeDay Y Mo 1)).
Proof.
  unfold monthStart, getFullYear, getMonth, option_map.
  destruct month_near as [H1 _].
  apply (newDate_value tza Hb); [exact year_from_100|].
  unfold msPerDay, maxTime in *. lia.
Qed.

Lemma monthEnd_start :
  newDate tza (getFullYear tza (Some now))
          (num_add (getMonth tza (Some now)) (Some 1)) (Some 0)
  = Some (local_midnight tza (MakeDay Y (Mo + 1) 1 - 1)).
Proof.
  unfold getFullYear, getMonth, option_map, num_add.
  destruct month_near as [_ H2].
  assert (E : MakeDay Y (Mo + 1) 1 - 1 = MakeDay Y (Mo + 1) 0)
    by (unfold MakeDay; lia).
  rewrite E.
  apply (newDate_value tza Hb); [exact year_from_100|].
  rewrite <- E. unfold msPerDay, maxTime in *. lia.
Qed.

(** The six bounds are valid dates in every zone. *)
Lemma windows_defined :
  exists ts te ws we ms me : Z,
    todayStart tza now = Some ts /\
    todayEnd tza now = Some te /\
    weekStart tza now = Some ws /\
    weekEnd tza now = Some we /\
    monthStart tza now = Some ms /\
    monthEnd tza now = Some me.
Proof.
  pose proof (since_monday_range t) as Hk.
  set (k := since_monday (WeekDay t)) in *.
  assert (Hws : weekStart tza now
                = Some (local_midnight tza
                          (Day (LocalTime tza
                                  (UTC tza (t + - k * msPerDay)))))).
  { unfold weekStart. cbv zeta. unfold getDay, getDate, option_map.
    rewrite week_diff_value. fold k.
    pose proof (setDate_near tza Hb now (- k)).
    rewrite (setDate_shift tza Hb) by (unfold msPerDay, maxTime in *; lia).
    apply (setHours_start tza Hb). unfold msPerDay, maxTime in *. lia. }
  set (ws := local_midnight tza
               (Day (LocalTime tza (UTC tza (t + - k * msPerDay))))) in *.
  assert (Hwsn : Z.abs (ws - now) <= 12 * msPerDay).
  { pose proof (setDate_near tza Hb now (- k)).
    pose proof (Day_near tza Hb (UTC tza (t + - k * msPerDay))).
    pose proof (local_midnight_near tza Hb
                  (Day (LocalTime tza (UTC tza (t + - k * msPerDay))))).
    fold ws in H1. unfold msPerDay in *. lia. }
  exists (local_midnight tza D), (local_day_end tza D), ws,
         (local_day_end tza
            (Day (LocalTime tza (UTC tza (LocalTime tza ws + 6 * msPerDay))))),
         (local_midnight tza (MakeDay Y Mo 1)),
         (local_day_end tza
            (Day (LocalTime tza
                    (local_midnight tza (MakeDay Y (Mo + 1) 1 - 1))))).
  split; [exact todayStart_value|].
  split; [exact todayEnd_value|].
  split; [exact Hws|].
  split.
  { unfold weekEnd. cbv zeta. rewrite Hws.
    unfold getDate, option_map, num_add.
    pose proof (setDate_near tza Hb ws 6).
    rewrite (setDate_shift tza Hb) by (unfold msPerDay, maxTime in *; lia).
    apply (setHours_end tza Hb). unfold msPerDay, maxTime in *. lia. }
  split; [exact monthStart_value|].
  unfold monthEnd. rewrite monthEnd_start.
  apply (setHours_end tza Hb).
  destruct month_near as [_ H2].
  pose proof (local_midnight_near tza Hb (MakeDay Y (Mo + 1) 1 - 1)).
  unfold msPerDay, maxTime in *. lia.
Qed.

Hypothesis Hd : keeps_date tza.

Lemma weekStart_value :
  weekStart tza now
  = Some (local_midnight tza (D - since_monday (WeekDay t))).
Proof.
  unfold weekStart. cbv zeta. unfold getDay, getDate, option_map.
  rewrite week_diff_value.
  pose proof (since_monday_range t) as Hs.
  rewrite (shifted_day_start tza Hb Hd)
    by (unfold msPerDay, maxTime in *; lia).
  do 2 f_equal; lia.
Qed.

Lemma weekEnd_value :
  weekEnd tza now
  = Some (local_day_end tza (D - since_monday (WeekDay t) + 6)).
Proof.
  unfold weekEnd. cbv zeta. rewrite weekStart_value.
  pose proof (since_monday_range t) as Hs.
  set (M := D - since_monday (WeekDay t)) in *.
  unfold getDate, option_map, num_add.
  pose proof (local_midnight_near tza Hb M).
  pose proof (Day_near tza Hb now).
  rewrite (shifted_day_end tza Hb Hd)
    by (unfold M, msPerDay, maxTime in *; lia).
  now rewrite (Day_local_midnight tza Hd).
Qed.

Lemma monthEnd_value :
  monthEnd tza now = Some (local_day_end tza (MakeDay Y (Mo + 1) 1 - 1)).
Proof.
  unfold monthEnd. rewrite monthEnd_start.
  destruct month_near as [_ H2].
  pose proof (local_midnight_near tza Hb (MakeDay Y (Mo + 1) 1 - 1)).
  rewrite (setHours_end tza Hb) by (unfold msPerDay, maxTime in *; lia).
  now rewrite (Day_local_midnight tza Hd).
Qed.


End Windows.

(** Sunday 2025-11-02 12:00 UTC, seen from UTC and from UTC+1. *)
Example sunday_windows :
  getDay (fixed_offset 0) (Some 1762084800000) = Some 0 /\
  todayStart (fixed_offset 0) 1762084800000 = Some 1762041600000 /\
  todayEnd (fixed_offset 0) 1762084800000 = Some 1762127999999 /\
  weekStart (fixed_offset 0) 1762084800000 = Some 1761523200000 /\
  weekEnd (fixed_offset 0) 1762084800000 = Some 1762127999999 /\
  monthStart (fixed_offset 0) 1762084800000 = Some 1761955200000 /\
  monthEnd (fixed_offset 0) 1762084800000 = Some 1764547199999 /\
  weekStart (fixed_offset 3600000) 1762084800000 = Some 1761519600000.
Proof. vm_compute. repeat split. Qed.

(** New Year's Eve 2024 (a Tuesday): the month window ends with the
    year. *)
Example december_windows :
  weekStart (fixed_offset 0) 1735687800000 = Some 1735516800000 /\
  monthStart (fixed_offset 0) 1735687800000 = Some 1733011200000 /\
  monthEnd (fixed_offset 0) 1735687800000 = Some 1735689599999.
Proof. vm_compute. repeat split. Qed.

(** Sunday 2025-10-26 12:00 UTC in Berlin, the day the clocks go back:
    the day lasts 25 hours, from 22:00 UTC of the 25th to 22:59:59.999
    UTC of the 26th, and the week seven days and an hour. *)
Example berlin_windows :
  todayStart berlin_2025 1761480000000 = Some 1761429600000 /\
  todayEnd berlin_2025 1761480000000 = Some 1761519599999 /\
  weekStart berlin_2025 1761480000000 = Some 1760911200000 /\
  weekEnd berlin_2025 1761480000000 = Some 1761519599999 /\
  monthStart berlin_2025 1761480000000 = Some 1759269600000 /\
  monthEnd berlin_2025 1761480000000 = Some 1761951599999.
Proof. vm_compute. repeat split. Qed.

(** Santiago on Saturday 2025-04-05, 16:00 UTC, the day the clocks go
    back at midnight: the day window ends with the first 23:59:59.999,
    an hour and a millisecond before the midnight that begins the
    6th. *)
Example santiago_windows :
  todayStart santiago_2025 1743868800000 = Some 1743822000000 /\
  todayEnd santiago_2025 1743868800000 = Some 1743908399999 /\
  todayStart santiago_2025 (1743868800000 + msPerDay) = Some 1743912000000.
Proof. vm_compute. repeat split. Qed.




Arguments mkTimer {S}.
Arguments t_net {S}.
Arguments t_calls {S}.
Arguments state {S}.
Arguments intervalRef {S}.
Arguments mkEntries {S}.
Arguments e_net {S}.
Arguments e_calls {S}.
Arguments e_state {S}.
Arguments filters {S}.
Arguments shows {S}.
Arguments fire {S}.
Arguments fire_all {S}.

(** ** Worked examples of the hooks *)

Section HookExamples.

Local Open Scope string_scope.

(** A server that only remembers whether a timer is running. *)
Definition demo_start : StartTimerRequest -> M bool TimeEntry :=
  fun _ running =>
    if running then (inl (Error "Timer already running"), running)
    else (inr (mkTimeEntry "e2" "u1" None None None
                           "2025-11-02T00:05:00.000Z" None None true
                           "2025-11-02T00:05:00.000Z"
                           "2025-11-02T00:05:00.000Z"), true).

Definition demo_parse (s : string) : option Z :=
  if String.eqb s "2025-11-02T00:00:00.000Z" then Some 1762041600000
  else if String.eqb s "2099-01-01T00:00:00.000Z" then Some 4070908800000
  else None.

Definition demo_entry : TimeEntry :=
  mkTimeEntry "e1" "u1" (Some "A") None None "2025-11-02T00:00:00.000Z"
              None None true "2025-11-02T00:00:00.000Z"
              "2025-11-02T00:00:00.000Z".

(** The hook while [demo_entry] runs; the display says 42 seconds. *)
Definition demo_timer : Timer bool :=
  mkTimer true [] (mkTimerState true (Some demo_entry) 42 false None)
          (Some demo_entry).

Example elapsed_edge_cases :
  calculateElapsedTime demo_parse "" 1762084800000 = 0 /\
  calculateElapsedTime demo_parse "yesterday" 1762084800000 = 0 /\
  calculateElapsedTime demo_parse "2099-01-01T00:00:00.000Z" 1762084800000
  = 0 /\
  calculateElapsedTime demo_parse "2025-11-02T00:00:00.000Z" 1762041600999
  = 0 /\
  calculateElapsedTime demo_parse "2025-11-02T00:00:00.000Z" 1762045261000
  = 3661.
Proof. vm_compute. repeat split. Qed.

Lemma start_failure_witness :
  startTimer bool demo_start (mkStart (Some "B") None None) demo_timer
  = (inl (Error "Timer already running"),
     mkTimer true [call_startTimer (mkStart (Some "B") None None)]
             (mkTimerState true (Some demo_entry) 42 false
                           (Some "Timer already running"))
             (Some demo_entry)).
Proof.
  apply (start_failure_is_surfaced bool demo_start
           (mkStart (Some "B") None None) demo_timer
           (Error "Timer already running") true).
  reflexivity.
Defined.

Lemma elapsed_is_recomputed_witness :
  elapsedTime
    (state
       (fire demo_parse (ev_visibility false 1762041720500)
          (fire_all demo_parse
             (map ev_tick [1762041650000; 1762041700000])
             (fire demo_parse (ev_visibility true 1762041605000)
                   demo_timer))))
  = 120.
Proof.
  assert (Hs : shows demo_entry demo_timer).
  { repeat split. now intros e [= <-]. }
  assert (Hne : start_time demo_entry <> ""%string) by discriminate.
  destruct (elapsed_is_recomputed bool demo_parse demo_timer demo_entry
              1762041600000 Hs Hne eq_refl []) as [_ H].
  destruct (H 1762041605000 [1762041650000; 1762041700000] 1762041720500)
    as (_ & _ & Hres & _).
  cbn [fire_all fold_left] in Hres.
  rewrite Hres; [reflexivity|]. discriminate.
Defined.
(** A list endpoint that fails on its second request. *)
Definition demo_list : TimeEntryFilters -> M nat TimeEntriesListResponse :=
  fun _ n =>
    if (n =? 1)%nat then (inl (Error "HTTP 500: Internal Server Error"), S n)
    else (inr (mkList [demo_entry] 1 3600 1 100), S n).

Example stats_zero_when_one_query_fails :
  getTimeStats nat (fixed_offset 0) demo_list 1762084800000 0%nat
  = (inr zero_stats, 3%nat) /\
  getTimeStats nat (fixed_offset 0) demo_list 1762084800000 2%nat
  = (inr (mkStats 3600 3600 3600 1 1 1), 5%nat).
Proof. vm_compute. split; reflexivity. Qed.

(** A failing DELETE: the server still has the entry, and so does the
    list after the refetch. *)
Example failed_delete_restores_list :
  let server_list : TimeEntryFilters -> M unit TimeEntriesListResponse :=
      fun _ s => (inr (mkList [demo_entry] 1 0 1 20), s) in
  let failing_delete : string -> M unit unit :=
      fun _ s => (inl (Error "HTTP 500: Internal Server Error"), s) in
  let w :=
      mkEntries tt []
        (mkEntriesState [demo_entry] 1 0 1 20 false None zero_stats false)
        (mkFilters None None None None None (Some 1) (Some 20)
                   (Some by_start_time)) in
  let out := deleteEntry unit (fixed_offset 0) server_list failing_delete
                         1762084800000 "e1" w in
  fst out = inl (Error "HTTP 500: Internal Server Error") /\
  e_entries (e_state (snd out)) = [demo_entry] /\
  totalCount (e_state (snd out)) = 1.
Proof. vm_compute. repeat split. Qed.

(** A server that lists one entry and accepts every write. *)
Definition demo_server_list
  : TimeEntryFilters -> M unit TimeEntriesListResponse :=
  fun _ s => (inr (mkList [demo_entry] 1 0 1 20), s).

Definition demo_entries : Entries unit :=
  mkEntries tt []
    (mkEntriesState [demo_entry] 1 0 1 20 false None zero_stats false)
    DEFAULT_FILTERS.

Definition demo_renamed : TimeEntry :=
  mkTimeEntry "e1" "u1" (Some "B") None None "2025-11-02T00:00:00.000Z"
              None None true "2025-11-02T00:00:00.000Z"
              "2025-11-02T00:10:00.000Z".

Lemma update_entry_success_witness :
  let out := updateEntry unit (fixed_offset 0) demo_server_list
                         (fun _ _ s => (inr demo_renamed, s))
                         1762084800000 "e1"
                         (mkBody (Some "B") None None None None)
                         demo_entries in
  fst out = inr demo_renamed /\
  e_entries (e_state (snd out)) = [demo_renamed].
Proof.
  destruct (update_entry_success unit (fixed_offset 0) demo_server_list
              (fun _ _ s => (inr demo_renamed, s)) 1762084800000 "e1"
              (mkBody (Some "B") None None None None) demo_entries
              demo_renamed tt eq_refl) as (st & net2 & _ & H & _).
  cbv zeta. rewrite H. split; reflexivity.
Defined.

Lemma delete_entry_success_witness :
  fst (deleteEntry unit (fixed_offset 0) demo_server_list
                   (fun _ s => (inr tt, s)) 1762084800000 "e1" demo_entries)
  = inr tt.
Proof.
  destruct (delete_entry_success unit (fixed_offset 0) demo_server_list
              (fun _ s => (inr tt, s)) 1762084800000 "e1" demo_entries tt
              eq_refl) as (w' & H & _).
  rewrite H. reflexivity.
Defined.

End HookExamples.

End Client.

(** * The Next.js route handlers in front of the backend *)

Module Http.

Import Wire Js.
Local Open Scope js_scope.

(** What a handler reads of the incoming request: the [authorization]
    header and the body ([None]: [request.json()] rejects). *)
Record NextRequest := mkRequest {
  authorization : option string;
  request_json : option EntryBody
}.

(** [errorData.error || fallback], where [errorData] is
    [await response.json().catch(() => ({ error: "Request failed" }))]. *)
Definition error_or {T : Type} (b : Body T) (fallback : string) : string :=
  match b with
  | json_error (Some e) => if String.eqb e "" then fallback else e
  | json_error None => fallback
  | json_data _ => fallback
  | not_json => "Request failed"
  end.

Definition NextResponse_error {T : Type} (msg : string) (st : Z) : Response T :=
  mkResponse st (json_error (Some msg)).

Section Routes.

(** The backend service with its database. *)
Variable B : Type.

(** [new Date(s).getTime()], [None] for NaN. *)
Variable Date_parse : string -> option Z.

(** [fetch] of the backend's create, update and list endpoints with the
    caller's [Authorization] header and the JSON body or the query. *)
Variable backend_create : string -> EntryBody -> M B (Response TimeEntry).
Variable backend_update :
  string -> string -> EntryBody -> M B (Response TimeEntry).
Variable backend_list :
  string -> TimeEntryFilters -> M B (Response TimeEntriesListResponse).

(** The "basic validation" of both handlers:
    [body.start_time && body.end_time] and then [endTime <= startTime]
    on the two [Date] objects (false when either is invalid). *)
Definition end_not_after_start (body : EntryBody) : bool :=
  match b_start_time body, b_end_time body with
  | Some st, Some et =>
      if truthy (Some st) && truthy (Some et) then
        match Date_parse st, Date_parse et with
        | Some startTime, Some endTime => endTime <=? startTime
        | _, _ => false
        end
      else false
  | _, _ => false
  end.

(** What both handlers do with the backend's answer; [created] is the
    status of a successful answer. *)
Definition relay {T : Type} (response : Response T) (fallback : string)
                 (created : Z) : M B (Response T) :=
  if negb (ok response) then
    ret (NextResponse_error (error_or (body response) fallback)
                            (status response))
  else
    match body response with
    | not_json => throw Thrown
    | data => ret (mkResponse created data)
    end.

(** [GET /api/time-entries]: the query parameters are forwarded as they
    are. *)
Definition GET (authorization : option string) (query : TimeEntryFilters)
  : M B (Response TimeEntriesListResponse) :=
  try_catch
    (match authorization with
     | Some authHeader =>
         if negb (truthy (Some authHeader))
         then ret (NextResponse_error "Unauthorized" 401)
         else
           response <- backend_list authHeader query ;;
           relay response "Failed to fetch time entries" 200
     | None => ret (NextResponse_error "Unauthorized" 401)
     end)
    (fun _ => ret (NextResponse_error "Internal server error" 500)).

(** [POST /api/time-entries] *)
Definition POST (request : NextRequest) : M B (Response TimeEntry) :=
  try_catch
    (match authorization request with
     | Some authHeader =>
         if negb (truthy (Some authHeader))
         then ret (NextResponse_error "Unauthorized" 401)
         else
           match request_json request with
           | None => throw Thrown
           | Some body =>
               if end_not_after_start body
               then ret (NextResponse_error
                           "End time must be after start time" 400)
               else
                 response <- backend_create authHeader body ;;
                 relay response "Failed to create time entry" 201
           end
     | None => ret (NextResponse_error "Unauthorized" 401)
     end)
    (fun _ => ret (NextResponse_error "Internal server error" 500)).

(** [PATCH /api/time-entries/[id]] *)
Definition PATCH (id : string) (request : NextRequest)
  : M B (Response TimeEntry) :=
  try_catch
    (match authorization request with
     | Some authHeader =>
         if negb (truthy (Some authHeader))
         then ret (NextResponse_error "Unauthorized" 401)
         else
           match request_json request with
           | None => throw Thrown
           | Some body =>
               if end_not_after_start body
               then ret (NextResponse_error
                           "End time must be after start time" 400)
               else
                 response <- backend_update id authHeader body ;;
                 relay response "Failed to update time entry" 200
           end
     | None => ret (NextResponse_error "Unauthorized" 401)
     end)
    (fun _ => ret (NextResponse_error "Internal server error" 500)).

(** *** Facts about the handlers *)

Definition authorized (request : NextRequest) (authHeader : string) : Prop :=
  authorization request = Some authHeader /\ authHeader <> ""%string.

Lemma authorized_truthy (request : NextRequest) (authHeader : string) :
  authorized request authHeader ->
  authorization request = Some authHeader /\
  negb (truthy (Some authHeader)) = false.
Proof.
  intros [Ha Hne]. split; [exact Ha|]. unfold truthy.
  destruct (String.eqb_spec authHeader ""); [contradiction|reflexivity].
Qed.

Lemma relay_400 {T : Type} (response : Response T) (fallback : string)
      (created : Z) (w : B) :
  status response = 400 ->
  exists msg, relay response fallback created w
              = (inr (NextResponse_error msg 400), w).
Proof.
  intros Hs. unfold relay, ok, ret. rewrite Hs. cbn. eexists. reflexivity.
Qed.

(** The handler's own validation answers 400 without calling the
    backend. *)
Lemma POST_basic_validation (request : NextRequest) (authHeader : string)
      (body : EntryBody) (w : B) :
  authorized request authHeader ->
  request_json request = Some body ->
  end_not_after_start body = true ->
  POST request w
  = (inr (NextResponse_error "End time must be after start time" 400), w).
Proof.
  intros Ha Hb Hv. apply authorized_truthy in Ha. destruct Ha as [Ha Ht].
  unfold POST, try_catch. rewrite Ha, Ht, Hb, Hv. reflexivity.
Qed.

Lemma PATCH_basic_validation (id : string) (request : NextRequest)
      (authHeader : string) (body : EntryBody) (w : B) :
  authorized request authHeader ->
  request_json request = Some body ->
  end_not_after_start body = true ->
  PATCH id request w
  = (inr (NextResponse_error "End time must be after start time" 400), w).
Proof.
  intros Ha Hb Hv. apply authorized_truthy in Ha. destruct Ha as [Ha Ht].
  unfold PATCH, try_catch. rewrite Ha, Ht, Hb, Hv. reflexivity.
Qed.

(** A 400 of the backend passes through. *)
Lemma POST_400 (request : NextRequest) (authHeader : string)
      (body : EntryBody) (w : B) (response : Response TimeEntry) :
  authorized request authHeader ->
  request_json request = Some body ->
  backend_create authHeader body w = (inr response, w) ->
  status response = 400 ->
  exists msg, POST request w = (inr (NextResponse_error msg 400), w).
Proof.
  intros Ha Hb Hbk Hs.
  destruct (end_not_after_start body) eqn:Hv.
  - rewrite (POST_basic_validation request authHeader body w Ha Hb Hv). eauto.
  - apply authorized_truthy in Ha. destruct Ha as [Ha Ht].
    destruct (relay_400 response "Failed to create time entry" 201 w Hs)
      as (msg & Hr).
    exists msg. unfold POST, try_catch, bind.
    rewrite Ha, Ht, Hb, Hv, Hbk, Hr. reflexivity.
Qed.

Lemma PATCH_400 (id : string) (request : NextRequest) (authHeader : string)
      (body : EntryBody) (w : B) (response : Response TimeEntry) :
  authorized request authHeader ->
  request_json request = Some body ->
  backend_update id authHeader body w = (inr response, w) ->
  status response = 400 ->
  exists msg, PATCH id request w = (inr (NextResponse_error msg 400), w).
Proof.
  intros Ha Hb Hbk Hs.
  destruct (end_not_after_start body) eqn:Hv.
  - rewrite (PATCH_basic_validation id request authHeader body w Ha Hb Hv).
    eauto.
  - apply authorized_truthy in Ha. destruct Ha as [Ha Ht].
    destruct (relay_400 response "Failed to update time entry" 200 w Hs)
      as (msg & Hr).
    exists msg. unfold PATCH, try_catch, bind.
    rewrite Ha, Ht, Hb, Hv, Hbk, Hr. reflexivity.
Qed.

(** *** The other handlers of the time-entry routes *)

(** [fetch] of the backend's remaining endpoints; the first argument of
    [backend_get], [backend_delete] and [backend_stop] is the entry's
    id, then comes the caller's [Authorization] header. *)
Variable backend_get : string -> string -> M B (Response TimeEntry).
Variable backend_delete : string -> string -> M B (Response unit).
Variable backend_start :
  string -> StartTimerRequest -> M B (Response TimeEntry).
Variable backend_current : string -> M B (Response TimeEntry).
Variable backend_stop : string -> string -> M B (Response TimeEntry).

(** [GET /api/time-entries/[id]] *)
Definition GET_id (id : string) (authorization : option string)
  : M B (Response TimeEntry) :=
  try_catch
    (match authorization with
     | Some authHeader =>
         if negb (truthy (Some authHeader))
         then ret (NextResponse_error "Unauthorized" 401)
         else
           response <- backend_get id authHeader ;;
           relay response "Failed to fetch time entry" 200
     | None => ret (NextResponse_error "Unauthorized" 401)
     end)
    (fun _ => ret (NextResponse_error "Internal server error" 500)).

(** [DELETE /api/time-entries/[id]]: the body of a successful answer is
    not read; the handler answers 204 without a body. *)
Definition DELETE (id : string) (authorization : option string)
  : M B (Response unit) :=
  try_catch
    (match authorization with
     | Some authHeader =>
         if negb (truthy (Some authHeader))
         then ret (NextResponse_error "Unauthorized" 401)
         else
           response <- backend_delete id authHeader ;;
           if negb (ok response) then
             ret (NextResponse_error
                    (error_or (body response) "Failed to delete time entry")
                    (status response))
           else ret (mkResponse 204 not_json)
     | None => ret (NextResponse_error "Unauthorized" 401)
     end)
    (fun _ => ret (NextResponse_error "Internal server error" 500)).

(** [POST /api/time-entries/start]; [json] is [None] when
    [request.json()] rejects. *)
Definition POST_start (authorization : option string)
                      (json : option StartTimerRequest)
  : M B (Response TimeEntry) :=
  try_catch
    (match authorization with
     | Some authHeader =>
         if negb (truthy (Some authHeader))
         then ret (NextResponse_error "Unauthorized" 401)
         else
           match json with
           | None => throw Thrown
           | Some body =>
               response <- backend_start authHeader body ;;
               relay response "Failed to start timer" 201
           end
     | None => ret (NextResponse_error "Unauthorized" 401)
     end)
    (fun _ => ret (NextResponse_error "Internal server error" 500)).

(** [GET /api/time-entries/current]: the answer is the object
    [{ data }]; its payload here is the [data] field, [None] for
    [null].  A 404 of the backend is the answer [{ data: null }]. *)
Definition GET_current (authorization : option string)
  : M B (Response (option TimeEntry)) :=
  try_catch
    (match authorization with
     | Some authHeader =>
         if negb (truthy (Some authHeader))
         then ret (NextResponse_error "Unauthorized" 401)
         else
           response <- backend_current authHeader ;;
           if status response =? 404 then ret (mkResponse 200 (json_data None))
           else if negb (ok response) then
             ret (NextResponse_error
                    (error_or (body response) "Failed to fetch current timer")
                    (status response))
           else
             match body response with
             | not_json => throw Thrown
             | json_data data => ret (mkResponse 200 (json_data (Some data)))
             | json_error e => ret (mkResponse 200 (json_error e))
             end
     | None => ret (NextResponse_error "Unauthorized" 401)
     end)
    (fun _ => ret (NextResponse_error "Internal server error" 500)).

(** [PATCH /api/time-entries/[id]/stop] *)
Definition PATCH_stop (id : string) (authorization : option string)
  : M B (Response TimeEntry) :=
  try_catch
    (match authorization with
     | Some authHeader =>
         if negb (truthy (Some authHeader))
         then ret (NextResponse_error "Unauthorized" 401)
         else
           response <- backend_stop id authHeader ;;
           relay response "Failed to stop timer" 200
     | None => ret (NextResponse_error "Unauthorized" 401)
     end)
    (fun _ => ret (NextResponse_error "Internal server error" 500)).

(** *** What every handler does *)

(** What is said of a handler's run below: it answers, and an answer
    with a 2xx status has exactly the status [success]. *)
Definition answers {T : Type} (success : Z) (out : (exn + Response T) * B)
  : Prop :=
  exists response, fst out = inr response /\
                   (ok response = true -> status response = success).

Lemma answers_error {T : Type} (success : Z) (msg : string) (st : Z) (w : B) :
  (200 <=? st) && (st <=? 299) = false ->
  @answers T success (inr (NextResponse_error msg st), w).
Proof.
  intros H. eexists. split; [reflexivity|].
  unfold ok, NextResponse_error. cbn [status]. rewrite H. discriminate.
Qed.

Lemma relay_answers {T : Type} (response : Response T) (fallback : string)
      (success : Z) (w : B) :
  answers success
    (try_catch (relay response fallback success)
       (fun _ => ret (NextResponse_error "Internal server error" 500)) w).
Proof.
  unfold try_catch, relay, ret, throw.
  destruct (ok response) eqn:Hok; cbn [negb].
  - destruct (body response); cbn.
    + eexists. split; [reflexivity|]. reflexivity.
    + eexists. split; [reflexivity|]. reflexivity.
    + now apply answers_error.
  - apply answers_error. exact Hok.
Qed.

Lemma guarded_relay_answers {T : Type} (call : M B (Response T))
      (fallback : string) (success : Z) (w : B) :
  answers success
    (try_catch (response <- call ;; relay response fallback success)
       (fun _ => ret (NextResponse_error "Internal server error" 500)) w).
Proof.
  unfold try_catch, bind.
  destruct (call w) as [[err | response] w'].
  - now apply answers_error.
  - pose proof (relay_answers response fallback success w') as H.
    unfold try_catch in H. exact H.
Qed.

Ltac handler_answers :=
  match goal with
  | |- answers _ (try_catch
                    match ?a with Some _ => _ | None => _ end _ _) =>
      destruct a as [authHeader|];
      [destruct (negb (truthy (Some authHeader)))|];
      try (now apply answers_error)
  end.

(** X11.
    No handler ever throws: for every request and whatever the backend
    does (answering anything, not answering at all), each of the eight
    handlers produces an answer.  And success has one status per
    handler, whichever 2xx the backend used: 201 from the two POSTs, 204
    from DELETE, 200 from the others. *)
Theorem handlers_always_answer (w : B) (id : string)
        (authorization : option string) (request : NextRequest)
        (query : TimeEntryFilters) (json : option StartTimerRequest) :
  answers 200 (GET authorization query w) /\
  answers 201 (POST request w) /\
  answers 200 (GET_id id authorization w) /\
  answers 200 (PATCH id request w) /\
  answers 204 (DELETE id authorization w) /\
  answers 201 (POST_start authorization json w) /\
  answers 200 (GET_current authorization w) /\
  answers 200 (PATCH_stop id authorization w).
Proof.
  split; [|split; [|split; [|split; [|split; [|split; [|split]]]]]].
  - unfold GET. handler_answers. apply guarded_relay_answers.
  - unfold POST. handler_answers.
    destruct (request_json request) as [body|];
      [|now apply answers_error].
    destruct (end_not_after_start body); [now apply answers_error|].
    apply guarded_relay_answers.
  - unfold GET_id. handler_answers. apply guarded_relay_answers.
  - unfold PATCH. handler_answers.
    destruct (request_json request) as [body|];
      [|now apply answers_error].
    destruct (end_not_after_start body); [now apply answers_error|].
    apply guarded_relay_answers.
  - unfold DELETE. handler_answers. unfold try_catch, bind, ret.
    destruct (backend_delete id authHeader w) as [[err | response] w'].
    + now apply answers_error.
    + destruct (ok response) eqn:Hok; cbn [negb].
      * eexists. split; reflexivity.
      * now apply answers_error.
  - unfold POST_start. handler_answers.
    destruct json as [body|]; [|now apply answers_error].
    apply guarded_relay_answers.
  - unfold GET_current. handler_answers. unfold try_catch, bind, ret, throw.
    destruct (backend_current authHeader w) as [[err | response] w'].
    + now apply answers_error.
    + destruct (status response =? 404);
        [eexists; split; reflexivity|].
      destruct (ok response) eqn:Hok; cbn [negb].
      * destruct (body response); cbn;
          try (eexists; split; reflexivity).
        now apply answers_error.
      * now apply answers_error.
  - unfold PATCH_stop. handler_answers. apply guarded_relay_answers.
Qed.

(** X12.
    A request without a (non-empty) [Authorization] header is answered
    401 "Unauthorized" by every handler, and the backend is not
    contacted: its state is what it was, whatever the backend would
    have done. *)
Theorem unauthorized_is_refused (w : B) (id : string)
        (authorization : option string) (request : NextRequest)
        (query : TimeEntryFilters) (json : option StartTimerRequest) :
  truthy authorization = false ->
  truthy (Http.authorization request) = false ->
  GET authorization query w = (inr (NextResponse_error "Unauthorized" 401), w) /\
  POST request w = (inr (NextResponse_error "Unauthorized" 401), w) /\
  GET_id id authorization w
  = (inr (NextResponse_error "Unauthorized" 401), w) /\
  PATCH id request w = (inr (NextResponse_error "Unauthorized" 401), w) /\
  DELETE id authorization w
  = (inr (NextResponse_error "Unauthorized" 401), w) /\
  POST_start authorization json w
  = (inr (NextResponse_error "Unauthorized" 401), w) /\
  GET_current authorization w
  = (inr (NextResponse_error "Unauthorized" 401), w) /\
  PATCH_stop id authorization w
  = (inr (NextResponse_error "Unauthorized" 401), w).
Proof.
  intros Ha Hr.
  unfold GET, POST, GET_id, PATCH, DELETE, POST_start, GET_current,
    PATCH_stop, try_catch.
  destruct authorization as [a|], (Http.authorization request) as [b|];
    cbn [truthy] in Ha, Hr |- *; rewrite ?Ha, ?Hr; cbn [negb];
    repeat split; reflexivity.
Qed.

End Routes.

Arguments answers {B T}.

(** A backend that cannot be reached: every [fetch] rejects. *)
Definition unreachable {A : Type} : M unit A := throw Thrown.

(** A POST without the header, in front of the unreachable backend. *)
Lemma unauthorized_witness :
  POST unit (fun _ => None) (fun _ _ => unreachable) (mkRequest None None) tt
  = (inr (NextResponse_error "Unauthorized" 401), tt).
Proof.
  destruct (unauthorized_is_refused unit (fun _ => None)
              (fun _ _ => unreachable) (fun _ _ _ => unreachable)
              (fun _ _ => unreachable) (fun _ _ => unreachable)
              (fun _ _ => unreachable) (fun _ _ => unreachable)
              (fun _ => unreachable) (fun _ _ => unreachable)
              tt "e1"%string None (mkRequest None None)
              (mkFilters None None None None None None None None) None
              eq_refl eq_refl) as (_ & H & _).
  exact H.
Defined.

End Http.

(** * The backend service

    The service that answers the routes (models, repositories, services
    and controllers of the Rust application) is not part of the sources.
    Its create, update and list operations are written here from the
    specification; the table they work on is [Store]. *)

Module Backend.

Import Wire.

(** Modelled from the spec: the order of the sort keys of a listing (4.4),
    descending; a NULL duration (a running entry) is greater than any
    number. *)
Definition key_ge (a b : option Z) : bool :=
  match a, b with
  | None, _ => true
  | Some _, None => false
  | Some x, Some y => y <=? x
  end.

(** Modelled from the spec: the listing is sorted (4.4); the sort itself
    is an insertion sort. *)
Fixpoint insert_sorted (before : Store.row -> Store.row -> bool)
                       (x : Store.row) (l : Store.table) : Store.table :=
  match l with
  | [] => [x]
  | y :: t => if before x y then x :: l else y :: insert_sorted before x t
  end.

(** Modelled from the spec: the sorted set of a listing (4.4). *)
Definition sort_rows (before : Store.row -> Store.row -> bool)
                     (l : Store.table) : Store.table :=
  fold_right (insert_sorted before) [] l.

(** Modelled from the spec: out-of-range paging requests clamp rather
    than error (4.4). *)
Definition clamp (lo hi x : Z) : Z := Z.max lo (Z.min hi x).

(** Modelled from the spec: a failure answer, a status with an [error]
    message (6, 7). *)
Definition answer {T : Type} (st : Z) (msg : string) : Response T :=
  mkResponse st (json_error (Some msg)).

Section Service.

(** The collaborators at the boundary of the core: who the bearer of an
    [Authorization] header is, how a wire timestamp and a reference
    decode ([None]: malformed), and how a stored entry is encoded. *)
Variable authenticate : string -> option Z.
Variable parse_timestamp : string -> option Z.
Variable parse_ref : string -> option Z.
Variable render : Store.row -> TimeEntry.

(** Modelled from the spec: an optional field of a request is absent, or
    present and well-formed (6). *)
Definition decode (parse : string -> option Z) (o : option string)
  : option (option Z) :=
  match o with
  | None => Some None
  | Some s => option_map Some (parse s)
  end.

(** Modelled from the spec: a description has at most 1000 characters
    (3). *)
Definition description_ok (d : option string) : bool :=
  match d with
  | Some s => (String.length s <=? 1000)%nat
  | None => true
  end.

(** Modelled from the spec: I2 on a pair of bounds (3). *)
Definition violates_I2 (st et : option Z) : bool :=
  match st, et with
  | Some s, Some e => e <=? s
  | _, _ => false
  end.

(** Modelled from the spec: a second running entry is a ConflictError,
    409 (4.1, 7); other failures of the store are server errors. *)
Definition sql_status {T : Type} (err : Store.sql_error) : Response T :=
  match err with
  | Store.unique_violation Store.idx_time_entries_user_running =>
      answer 409 "A timer is already running"
  | _ => answer 500 "Internal server error"
  end.

(** Modelled from the spec: an entry is looked up by id and owner (I4). *)
Definition owned_by (owner k : Z) (r : Store.row) : bool :=
  (Store.id r =? k) && key_eqb (Store.user_id r) (Some owner).

(** Modelled from the spec: the Entry Store's [create] behind
    [POST /api/time-entries] (4.1, 6, 7): malformed input and an I2
    violation are a ValidationError (400), a second running entry is a
    ConflictError (409); the insert itself is the store's. *)
Definition create (e : Store.env) (fresh : Z) (auth : string) (b : EntryBody)
                  (tbl : Store.table) : Response TimeEntry * Store.table :=
  match authenticate auth with
  | None => (answer 401 "Unauthorized", tbl)
  | Some owner =>
      if negb (description_ok (b_description b))
      then (answer 400 "Description cannot exceed 1000 characters", tbl)
      else
        match decode parse_ref (b_project_id b),
              decode parse_ref (b_task_id b),
              decode parse_timestamp (b_start_time b),
              decode parse_timestamp (b_end_time b) with
        | Some p, Some t, Some (Some st), Some et =>
            if Store.CURRENT_TIMESTAMP e <? st
            then (answer 400 "Start time cannot be in the future", tbl)
            else if violates_I2 (Some st) et
            then (answer 400 "End time must be after start time", tbl)
            else
              let NEW :=
                  Store.mkRow fresh (Some owner) (b_description b) p t
                              (Some st) et None
                              (Some (Store.CURRENT_TIMESTAMP e))
                              (Some (Store.CURRENT_TIMESTAMP e)) in
              match Store.insert e NEW tbl with
              | inl err => (sql_status err, tbl)
              | inr tbl' =>
                  match find (owned_by owner fresh) tbl' with
                  | Some r => (mkResponse 201 (json_data (render r)), tbl')
                  | None => (answer 500 "Internal server error", tbl')
                  end
              end
        | _, _, _, _ => (answer 400 "Malformed request", tbl)
        end
  end.

(** Modelled from the spec: the patch of an update is merged over the
    stored entry (4.1): a field that is present replaces the stored one. *)
Definition pick {A : Type} (new old : option A) : option A :=
  match new with Some _ => new | None => old end.

(** Modelled from the spec: the merged result of an update (4.1). *)
Definition merge (p t st et : option Z) (d : option string) (r : Store.row)
  : Store.row :=
  Store.mkRow (Store.id r) (Store.user_id r)
              (pick d (Store.description r))
              (pick p (Store.project_id r))
              (pick t (Store.task_id r))
              (pick st (Store.start_time r))
              (pick et (Store.end_time r))
              (Store.duration r) (Store.created_at r) (Store.updated_at r).

(** Modelled from the spec: the Entry Store's [update] behind
    [PATCH /api/time-entries/{id}] (4.1, 6): NotFoundError (404) when the
    owner has no entry with that id, I2 re-validated against the merged
    result (400), then the store's update. *)
Definition update (e : Store.env) (id auth : string) (b : EntryBody)
                  (tbl : Store.table) : Response TimeEntry * Store.table :=
  match authenticate auth with
  | None => (answer 401 "Unauthorized", tbl)
  | Some owner =>
      match option_map (fun k => (k, find (owned_by owner k) tbl))
                       (parse_ref id) with
      | Some (k, Some r) =>
          if negb (description_ok (b_description b))
          then (answer 400 "Description cannot exceed 1000 characters", tbl)
          else
            match decode parse_ref (b_project_id b),
                  decode parse_ref (b_task_id b),
                  decode parse_timestamp (b_start_time b),
                  decode parse_timestamp (b_end_time b) with
            | Some p, Some t, Some st, Some et =>
                let merged := merge p t st et (b_description b) in
                if violates_I2 (Store.start_time (merged r))
                               (Store.end_time (merged r))
                then (answer 400 "End time must be after start time", tbl)
                else
                  match Store.update e merged (owned_by owner k) tbl with
                  | inl err => (sql_status err, tbl)
                  | inr tbl' =>
                      match find (owned_by owner k) tbl' with
                      | Some r' =>
                          (mkResponse 200 (json_data (render r')), tbl')
                      | None => (answer 500 "Internal server error", tbl')
                      end
                  end
            | _, _, _, _ => (answer 400 "Malformed request", tbl)
            end
      | _ => (answer 404 "Time entry not found", tbl)
      end
  end.

(** Modelled from the spec: the filter predicate of a listing (4.4): the
    owner, the inclusive range of
    [start_time] (the range is given in milliseconds), the references and
    the running flag. *)
Definition in_filter (owner : Z) (p t : option Z) (f : TimeEntryFilters)
                     (r : Store.row) : bool :=
  key_eqb (Store.user_id r) (Some owner) &&
  match start_date f, Store.start_time r with
  | Some a, Some st => 1000 * a <=? st
  | Some _, None => false
  | None, _ => true
  end &&
  match end_date f, Store.start_time r with
  | Some b, Some st => st <=? 1000 * b
  | Some _, None => false
  | None, _ => true
  end &&
  match p with
  | Some k => key_eqb (Store.project_id r) (Some k)
  | None => true
  end &&
  match t with
  | Some k => key_eqb (Store.task_id r) (Some k)
  | None => true
  end &&
  match f_is_running f with
  | Some b => Bool.eqb (is_none (Store.end_time r)) b
  | None => true
  end.

(** Modelled from the spec: what an entry adds to [total_duration] (4.3,
    8): its duration, or for a
    running entry the whole seconds elapsed so far. *)
Definition seconds_of (now : Z) (r : Store.row) : Z :=
  match Store.duration r, Store.start_time r with
  | Some d, _ => d
  | None, Some st => (now - st) / 1000000
  | None, None => 0
  end.

(** Modelled from the spec: [sort_by] is [start_time] (the default) or
    [duration], descending (4.4). *)
Definition sort_order (k : option sort_key)
  : Store.row -> Store.row -> bool :=
  match k with
  | Some by_duration =>
      fun x y => key_ge (Store.duration x) (Store.duration y)
  | _ =>
      fun x y =>
        match Store.start_time x, Store.start_time y with
        | Some a, Some b => b <=? a
        | _, _ => true
        end
  end.

(** Modelled from the spec: the default of an absent paging field. *)
Definition or_default (o : option Z) (d : Z) : Z :=
  match o with Some x => x | None => d end.

(** Modelled from the spec: the Listing/Filter Engine's [query] behind
    [GET /api/time-entries] (4.4): [total_count] and [total_duration] are
    taken over the full filtered set, the entries are the page
    [offset = (page - 1) * page_size, limit = page_size] of the sorted
    set, with [page_size] clamped to [1, 100] and [page] to [1, 1000]. *)
Definition query (e : Store.env) (auth : string) (f : TimeEntryFilters)
                 (tbl : Store.table)
  : Response TimeEntriesListResponse * Store.table :=
  match authenticate auth with
  | None => (answer 401 "Unauthorized", tbl)
  | Some owner =>
      match decode parse_ref (f_project_id f),
            decode parse_ref (f_task_id f) with
      | Some p, Some t =>
          let filtered := filter (in_filter owner p t f) tbl in
          let sorted := sort_rows (sort_order (sort_by f)) filtered in
          let page_size := clamp 1 100 (or_default (limit f) 20) in
          let page := clamp 1 1000 (or_default (f_page f) 1) in
          let offset := (page - 1) * page_size in
          let slice := firstn (Z.to_nat page_size)
                              (skipn (Z.to_nat offset) sorted) in
          (mkResponse 200
             (json_data
                (mkList (map render slice)
                        (Z.of_nat (List.length filtered))
                        (fold_right
                           (fun r acc =>
                              seconds_of (Store.CURRENT_TIMESTAMP e) r + acc)
                           0 filtered)
                        page page_size)),
           tbl)
      | _, _ => (answer 400 "Malformed request", tbl)
      end
  end.

End Service.

(** *** Facts about create and update *)

Section ServiceFacts.

Variable authenticate : string -> option Z.
Variable parse_timestamp : string -> option Z.
Variable parse_ref : string -> option Z.
Variable render : Store.row -> TimeEntry.

Lemma create_rejects (e : Store.env) (fresh : Z) (auth : string)
      (b : EntryBody) (tbl : Store.table) (owner st et : Z) :
  authenticate auth = Some owner ->
  decode parse_timestamp (b_start_time b) = Some (Some st) ->
  decode parse_timestamp (b_end_time b) = Some (Some et) ->
  et <= st ->
  exists msg,
    create authenticate parse_timestamp parse_ref render e fresh auth b tbl
    = (answer 400 msg, tbl).
Proof.
  intros Ha Hs He Hle. unfold create. rewrite Ha.
  destruct (negb (description_ok (b_description b))); [eauto|].
  destruct (decode parse_ref (b_project_id b)); [|eauto].
  destruct (decode parse_ref (b_task_id b)); [|eauto].
  rewrite Hs, He.
  destruct (Store.CURRENT_TIMESTAMP e <? st); [eauto|].
  unfold violates_I2. apply Z.leb_le in Hle. rewrite Hle. eauto.
Qed.

Lemma update_rejects (e : Store.env) (id auth : string) (b : EntryBody)
      (tbl : Store.table) (owner k : Z) (r : Store.row)
      (pst pet : option Z) (st et : Z) :
  authenticate auth = Some owner ->
  parse_ref id = Some k ->
  find (owned_by owner k) tbl = Some r ->
  decode parse_timestamp (b_start_time b) = Some pst ->
  decode parse_timestamp (b_end_time b) = Some pet ->
  pick pst (Store.start_time r) = Some st ->
  pick pet (Store.end_time r) = Some et ->
  et <= st ->
  exists msg,
    update authenticate parse_timestamp parse_ref render e id auth b tbl
    = (answer 400 msg, tbl).
Proof.
  intros Ha Hk Hf Hs He Hps Hpe Hle. unfold update. rewrite Ha, Hk.
  cbn [option_map]. rewrite Hf.
  destruct (negb (description_ok (b_description b))); [eauto|].
  destruct (decode parse_ref (b_project_id b)); [|eauto].
  destruct (decode parse_ref (b_task_id b)); [|eauto].
  rewrite Hs, He. cbn [merge Store.start_time Store.end_time].
  rewrite Hps, Hpe. unfold violates_I2.
  apply Z.leb_le in Hle. rewrite Hle. eauto.
Qed.

End ServiceFacts.

(** *** Facts about the listing *)

Lemma insert_sorted_length (before : Store.row -> Store.row -> bool)
      (x : Store.row) (l : Store.table) :
  List.length (insert_sorted before x l) = S (List.length l).
Proof.
  induction l as [|y t IH]; [reflexivity|].
  simpl. destruct (before x y); simpl; [reflexivity|now rewrite IH].
Qed.

Lemma sort_rows_length (before : Store.row -> Store.row -> bool)
      (l : Store.table) :
  List.length (sort_rows before l) = List.length l.
Proof.
  induction l as [|x l IH]; [reflexivity|].
  unfold sort_rows in *. simpl. now rewrite insert_sorted_length, IH.
Qed.

End Backend.


(** * The layers put together *)

Module System.

Import Wire Js.
Local Open Scope js_scope.

Section Wiring.

(** The backend's collaborators and the routes' date parser. *)
Variable authenticate : string -> option Z.
Variable parse_timestamp : string -> option Z.
Variable parse_ref : string -> option Z.
Variable render : Store.row -> TimeEntry.
Variable Date_parse : string -> option Z.

(** The browser: its time zone, its token, and the two constants of
    [handleResponse]. *)
Variable tza : JsDate.TimeZone.
Variable token : option string.
Variable status_line : Z -> string.
Variable empty_list : TimeEntriesListResponse.

(** A request reaches the backend at a moment [e] of the database (the
    transaction clock, the referenced tables); a create also draws the
    new key [fresh]. *)
Definition backend_create (e : Store.env) (fresh : Z)
  : string -> EntryBody -> M Store.table (Response TimeEntry) :=
  fun auth b tbl =>
    let (r, tbl') := Backend.create authenticate parse_timestamp parse_ref
                                    render e fresh auth b tbl in
    (inr r, tbl').

Definition backend_update (e : Store.env)
  : string -> string -> EntryBody -> M Store.table (Response TimeEntry) :=
  fun id auth b tbl =>
    let (r, tbl') := Backend.update authenticate parse_timestamp parse_ref
                                    render e id auth b tbl in
    (inr r, tbl').

Definition backend_list (e : Store.env)
  : string -> TimeEntryFilters
    -> M Store.table (Response TimeEntriesListResponse) :=
  fun auth f tbl =>
    let (r, tbl') := Backend.query authenticate parse_ref render e auth f tbl in
    (inr r, tbl').

Definition POST (e : Store.env) (fresh : Z) :=
  Http.POST Store.table Date_parse (backend_create e fresh).

Definition PATCH (e : Store.env) :=
  Http.PATCH Store.table Date_parse (backend_update e).

Definition GET (e : Store.env) := Http.GET Store.table (backend_list e).

Definition getTimeEntries (e : Store.env) :=
  Client.fetch_getTimeEntries Store.table status_line token (GET e)
                              empty_list.

Definition getTimeStats (e : Store.env) (now : Z) :=
  Client.getTimeStats Store.table tza (getTimeEntries e) now.

(** The query of one statistics window, and the entries of [owner] that
    fall into it. *)
Definition window_filters (a b : Z) : TimeEntryFilters :=
  mkFilters (Some a) (Some b) None None None None (Some 100) None.

Definition window_entries (owner a b : Z) (tbl : Store.table) : Store.table :=
  filter (Backend.in_filter owner None None (window_filters a b)) tbl.

(** C2. Every create or update whose merged result has an [end_time] at
    or before its [start_time] (equal timestamps included) is rejected:
    the store refuses the write, the route handlers answer 400 by
    themselves when both bounds are in the request body, and a request
    of an authenticated owner that reaches the backend is answered 400
    with the table unchanged.  Hence every stored entry with an
    [end_time] has it strictly after its [start_time]. *)
Theorem causality_is_enforced :
  (forall (B : Type) (create : string -> EntryBody -> M B (Response TimeEntry))
          (update : string -> string -> EntryBody
                    -> M B (Response TimeEntry))
          id request authHeader body w,
      Http.authorized request authHeader ->
      Http.request_json request = Some body ->
      Http.end_not_after_start Date_parse body = true ->
      Http.POST B Date_parse create request w
      = (inr (Http.NextResponse_error "End time must be after start time"
                                      400), w) /\
      Http.PATCH B Date_parse update id request w
      = (inr (Http.NextResponse_error "End time must be after start time"
                                      400), w)) /\
  (forall (e : Store.env) (tbl : Store.table),
      (forall NEW st et,
          Store.start_time NEW = Some st -> Store.end_time NEW = Some et ->
          et <= st ->
          exists err, Store.insert e NEW tbl = inl err) /\
      (forall set where_ OLD st et,
          In OLD tbl -> where_ OLD = true ->
          Store.start_time (set OLD) = Some st ->
          Store.end_time (set OLD) = Some et ->
          et <= st ->
          exists err, Store.update e set where_ tbl = inl err)) /\
  (forall tbl r et,
      Store.reachable tbl -> In r tbl -> Store.end_time r = Some et ->
      exists st, Store.start_time r = Some st /\ st < et) /\
  (forall e fresh request authHeader owner body st et tbl,
      Http.authorized request authHeader ->
      authenticate authHeader = Some owner ->
      Http.request_json request = Some body ->
      Backend.decode parse_timestamp (b_start_time body) = Some (Some st) ->
      Backend.decode parse_timestamp (b_end_time body) = Some (Some et) ->
      et <= st ->
      exists msg,
        POST e fresh request tbl = (inr (Http.NextResponse_error msg 400), tbl))
  /\
  (forall e id request authHeader owner k r body pst pet st et tbl,
      Http.authorized request authHeader ->
      authenticate authHeader = Some owner ->
      parse_ref id = Some k ->
      find (Backend.owned_by owner k) tbl = Some r ->
      Http.request_json request = Some body ->
      Backend.decode parse_timestamp (b_start_time body) = Some pst ->
      Backend.decode parse_timestamp (b_end_time body) = Some pet ->
      Backend.pick pst (Store.start_time r) = Some st ->
      Backend.pick pet (Store.end_time r) = Some et ->
      et <= st ->
      exists msg,
        PATCH e id request tbl = (inr (Http.NextResponse_error msg 400), tbl)).
Proof.
  split; [|split; [|split; [|split]]].
  - intros B create update id request authHeader body w Ha Hb Hv. split.
    + now apply (Http.POST_basic_validation B Date_parse create request
                   authHeader body w).
    + now apply (Http.PATCH_basic_validation B Date_parse update id request
                   authHeader body w).
  - intros e tbl. split.
    + intros NEW st et. apply Store.insert_rejects.
    + intros set where_ OLD st et Hin Hw Hs He Hle. unfold Store.update.
      eapply Store.update_rows_rejects; eassumption.
  - intros tbl r et Hreach Hin He.
    pose proof (Store.reachable_accepted tbl Hreach) as Hacc.
    rewrite Forall_forall in Hacc.
    destruct (Hacc r Hin) as (_ & _ & Hc & _). now apply Hc.
  - intros e fresh request authHeader owner body st et tbl
           Hauth Ha Hb Hs He Hle.
    destruct (Backend.create_rejects authenticate parse_timestamp parse_ref
                render e fresh authHeader body tbl owner st et Ha Hs He Hle)
      as (msg & Hc).
    unfold POST.
    apply (Http.POST_400 Store.table Date_parse (backend_create e fresh)
             request authHeader body tbl (Backend.answer 400 msg));
      try assumption; [|reflexivity].
    unfold backend_create. now rewrite Hc.
  - intros e id request authHeader owner k r body pst pet st et tbl
           Hauth Ha Hk Hf Hb Hs He Hps Hpe Hle.
    destruct (Backend.update_rejects authenticate parse_timestamp parse_ref
                render e id authHeader body tbl owner k r pst pet st et
                Ha Hk Hf Hs He Hps Hpe Hle) as (msg & Hc).
    unfold PATCH.
    apply (Http.PATCH_400 Store.table Date_parse (backend_update e)
             id request authHeader body tbl (Backend.answer 400 msg));
      try assumption; [|reflexivity].
    unfold backend_update. now rewrite Hc.
Qed.

(** *** What the counts of [getTimeStats] are *)

Lemma getTimeEntries_window (e : Store.env) (a b : Z) (tbl : Store.table)
      (h : string) (owner : Z) :
  Client.getAuthHeaders token = Some h -> h <> ""%string ->
  authenticate h = Some owner ->
  exists l,
    getTimeEntries e (window_filters a b) tbl = (inr l, tbl) /\
    Client.entries_length l
    = Z.min 100 (Z.of_nat (List.length (window_entries owner a b tbl))) /\
    total_count l = Z.of_nat (List.length (window_entries owner a b tbl)).
Proof.
  intros Hh Hne Ha.
  unfold getTimeEntries, Client.fetch_getTimeEntries, bind.
  change (Client.params (window_filters a b)) with (window_filters a b).
  rewrite Hh. unfold GET, Http.GET, try_catch, bind, truthy.
  destruct (String.eqb_spec h "") as [|_]; [contradiction|]. cbn [negb].
  unfold backend_list, Backend.query. rewrite Ha.
  cbn [window_filters f_project_id f_task_id truthy
       Backend.decode start_date end_date f_is_running f_page limit sort_by].
  cbn [Http.relay ok status body negb andb Z.leb Z.compare Pos.compare
       Pos.compare_cont ret Client.handleResponse Z.eqb Pos.eqb].
  eexists. split; [reflexivity|].
  unfold Client.entries_length, window_entries, window_filters.
  cbn [entries total_count]. split; [|reflexivity].
  rewrite length_map.
  change (Z.to_nat (Backend.clamp 1 100 (Backend.or_default (Some 100) 20)))
    with 100%nat.
  change (Z.to_nat ((Backend.clamp 1 1000 (Backend.or_default None 1) - 1)
                    * Backend.clamp 1 100 (Backend.or_default (Some 100) 20)))
    with 0%nat.
  cbn [skipn]. rewrite length_firstn, Backend.sort_rows_length. lia.
Qed.

Lemma stats_counts_are_page_lengths (e : Store.env) (now : Z)
      (tbl : Store.table) (h : string) (owner : Z) :
  Client.getAuthHeaders token = Some h -> h <> ""%string ->
  authenticate h = Some owner ->
  JsDate.offsets_bounded tza ->
  0 <= JsDate.LocalTime tza now ->
  Z.abs now + 40 * JsDate.msPerDay <= JsDate.maxTime ->
  exists (ts te ws we ms me : Z) (st : TimeStats),
    Client.todayStart tza now = Some ts /\
    Client.todayEnd tza now = Some te /\
    Client.weekStart tza now = Some ws /\
    Client.weekEnd tza now = Some we /\
    Client.monthStart tza now = Some ms /\
    Client.monthEnd tza now = Some me /\
    getTimeStats e now tbl = (inr st, tbl) /\
    total_entries_today st
    = Z.min 100 (Z.of_nat (List.length (window_entries owner ts te tbl))) /\
    total_entries_week st
    = Z.min 100 (Z.of_nat (List.length (window_entries owner ws we tbl))) /\
    total_entries_month st
    = Z.min 100 (Z.of_nat (List.length (window_entries owner ms me tbl))).
Proof.
  intros Hh Hne Ha Hb Hlo Hhi.
  destruct (Client.windows_defined tza now Hb Hlo Hhi)
    as (ts & te & ws & we & ms & me & Hts & Hte & Hws & Hwe & Hms & Hme).
  destruct (getTimeEntries_window e ts te tbl h owner Hh Hne Ha)
    as (l1 & Hq1 & Hn1 & _).
  destruct (getTimeEntries_window e ws we tbl h owner Hh Hne Ha)
    as (l2 & Hq2 & Hn2 & _).
  destruct (getTimeEntries_window e ms me tbl h owner Hh Hne Ha)
    as (l3 & Hq3 & Hn3 & _).
  exists ts, te, ws, we, ms, me.
  exists (mkStats (total_duration l1) (total_duration l2) (total_duration l3)
                  (Client.entries_length l1) (Client.entries_length l2)
                  (Client.entries_length l3)).
  repeat (split; [assumption|]).
  split; [|repeat split; assumption].
  unfold getTimeStats, Client.getTimeStats, try_catch, bind, promise, await.
  rewrite Hts, Hte, Hws, Hwe, Hms, Hme.
  cbn [Client.stats_filters Client.toISOString bind ret].
  unfold window_filters in Hq1, Hq2, Hq3.
  unfold bind, ret. rewrite Hq1, Hq2, Hq3. reflexivity.
Qed.

End Wiring.

(** ** Requests that break causality *)

Definition demo_authenticate (h : string) : option Z :=
  if String.eqb h "Bearer secret" then Some 7 else None.

Definition demo_render (r : Store.row) : TimeEntry :=
  mkTimeEntry "" "" (Store.description r) None None "" None
              (Store.duration r) (is_none (Store.end_time r)) "" "".

(** Two wire timestamps, in microseconds for the backend and in
    milliseconds for [Date]. *)
Definition demo_timestamp (s : string) : option Z :=
  if String.eqb s "2025-11-02T00:00:00Z" then Some Store.t0
  else if String.eqb s "2025-11-02T01:00:00Z"
       then Some (Store.t0 + 3600000000)
       else None.

Definition demo_Date_parse (s : string) : option Z :=
  option_map (fun us => us / 1000) (demo_timestamp s).

Definition demo_ref (s : string) : option Z :=
  if String.eqb s "00000000-0000-0000-0000-000000000001" then Some 1
  else None.

(** User 7 has one entry, started at 01:00 and still running. *)
Definition one_running : Store.table :=
  snd (Store.run [(Store.env0,
                   Store.INSERT (Store.start_draft 1 7
                                   (Store.t0 + 3600000000)))] []).

(** A create with equal bounds is answered by the handler itself. *)
Example post_equal_bounds :
  POST demo_authenticate demo_timestamp demo_ref demo_render demo_Date_parse
       Store.env0 2
       (Http.mkRequest (Some "Bearer secret"%string)
          (Some (mkBody None None None
                        (Some "2025-11-02T01:00:00Z"%string)
                        (Some "2025-11-02T01:00:00Z"%string))))
       one_running
  = (inr (Http.NextResponse_error "End time must be after start time" 400),
     one_running).
Proof. vm_compute. reflexivity. Qed.

(** A patch that only carries an [end_time] before the stored
    [start_time] passes the handler and is answered by the backend. *)
Example patch_end_before_stored_start :
  PATCH demo_authenticate demo_timestamp demo_ref demo_render demo_Date_parse
        Store.env0 "00000000-0000-0000-0000-000000000001"
        (Http.mkRequest (Some "Bearer secret"%string)
           (Some (mkBody None None None None
                         (Some "2025-11-02T00:00:00Z"%string))))
        one_running
  = (inr (Http.NextResponse_error "End time must be after start time" 400),
     one_running).
Proof. vm_compute. reflexivity. Qed.

(** The same write sent to the table directly. *)
Example update_end_before_start :
  Store.update Store.env0
    (fun r => Store.mkRow (Store.id r) (Store.user_id r) (Store.description r)
                          (Store.project_id r) (Store.task_id r)
                          (Store.start_time r) (Some Store.t0)
                          (Store.duration r) (Store.created_at r)
                          (Store.updated_at r))
    (fun r => Store.id r =? 1) one_running
  = inl (Store.check_violation Store.chk_end_after_start_name).
Proof. vm_compute. reflexivity. Qed.

(** ** A day with 101 entries *)

(** Entry [i] of user 7 starts [i] seconds after midnight of 2025-11-02
    (UTC) and lasts one minute. *)
Definition busy_statement (i : nat) : Store.env * Store.stmt :=
  (Store.env0,
   Store.INSERT
     (Store.finished_draft (Z.of_nat i) 7
        (Store.t0 + Z.of_nat i * 1000000)
        (Store.t0 + Z.of_nat i * 1000000 + 60000000) 0)).

Definition busy_day : Store.table :=
  snd (Store.run (map busy_statement (seq 1 101)) []).

(** The entries whose [start_time] is in the half-open window
    [[from, to)], both in milliseconds. *)
Definition started_within (from to : Z) (tbl : Store.table) : Store.table :=
  filter (fun r =>
            match Store.start_time r with
            | Some st => (1000 * from <=? st) && (st <? 1000 * to)
            | None => false
            end) tbl.

Definition busy_stats : (exn + TimeStats) * Store.table :=
  getTimeStats demo_authenticate (fun _ => None) demo_render
               (JsDate.fixed_offset 0) (Some "secret"%string)
               (fun _ => "HTTP error"%string)
               (mkList [] 0 0 0 0) Store.env0 1762084800000 busy_day.

Lemma busy_day_reachable : Store.reachable busy_day.
Proof. apply Store.run_reachable. apply Store.reachable_empty. Qed.

(** C4, at a failing input.  On a day on which the owner started 101
    entries, each query of [getTimeStats] gets a page of 100 entries
    ([limit: 100]) next to [total_duration] of all 101: the reported
    counts are 100, not the 101 entries of the window. *)
Theorem stats_count_capped_at_100 :
  Store.reachable busy_day /\
  List.length (started_within 1762041600000 1762128000000 busy_day)
  = 101%nat /\
  busy_stats
  = (inr (mkStats 6060 6060 6060 100 100 100), busy_day).
Proof.
  split; [exact busy_day_reachable|].
  split; vm_compute; reflexivity.
Qed.

End System.

(** * [lib/time-utils.ts] *)

Module TimeUtils.

Import Ascii JsDate Wire Js.
Local Open Scope string_scope.
Local Open Scope Z_scope.

(** ** Numbers as text *)

(** [String(n)] of a whole number (below 10^21, where JavaScript still
    prints every digit): a minus sign for a negative number, then the
    decimal digits. *)
Definition Number_toString (n : Z) : string :=
  DecimalString.NilZero.string_of_int (Z.to_int n).

(** The first [n] characters of [rest] followed by [pad] over and over. *)
Fixpoint filler (n : nat) (pad rest : string) : string :=
  match n with
  | O => ""
  | S n' =>
      match rest with
      | String c rest' => String c (filler n' pad rest')
      | EmptyString =>
          match pad with
          | String c pad' => String c (filler n' pad pad')
          | EmptyString => ""
          end
      end
  end.

(** [s.padStart(targetLength, padString)] *)
Definition padStart (targetLength : nat) (padString s : string) : string :=
  filler (targetLength - String.length s) padString padString ++ s.

(** ** Durations *)

(** [formatDuration]; [None] is NaN, for which every comparison is
    false and the text is ["NaNm"].  [%] is the remainder of the
    truncating division. *)
Definition formatDuration (seconds : Number) : string :=
  match seconds with
  | None => "NaNm"
  | Some s =>
      if s <=? 0 then "0m"
      else
        let hours := s / 3600 in
        let minutes := Z.rem s 3600 / 60 in
        if (0 <? hours) && (0 <? minutes) then
          Number_toString hours ++ "h " ++ Number_toString minutes ++ "m"
        else if 0 <? hours then Number_toString hours ++ "h"
        else Number_toString minutes ++ "m"
  end.

Definition formatTimerDuration (seconds : Number) : string :=
  match seconds with
  | None => "00:00:00"
  | Some s =>
      if s <? 0 then "00:00:00"
      else
        let hours := s / 3600 in
        let minutes := Z.rem s 3600 / 60 in
        let secs := Z.rem s 60 in
        padStart 2 "0" (Number_toString hours) ++ ":" ++
        padStart 2 "0" (Number_toString minutes) ++ ":" ++
        padStart 2 "0" (Number_toString secs)
  end.

(** [calculateDuration(startTime, endTime)] on two [Date] objects *)
Definition calculateDuration (startTime endTime : Date) : Number :=
  option_map (fun ms => ms / 1000) (num_sub endTime startTime).

(** [calculateElapsedTime(startTime)], the clock reading [now] *)
Definition calculateElapsedTime (startTime : Date) (now : Z) : Number :=
  option_map (fun ms => ms / 1000) (num_sub (Some now) startTime).

(** ** Facts about the two formats *)

(** The number a string of digits denotes, leading zeros allowed. *)
Definition digits_value (s : string) : option Z :=
  option_map Z.of_uint (DecimalString.NilEmpty.uint_of_string s).

Lemma Number_toString_nonneg (n : Z) :
  0 <= n ->
  exists d, Number_toString n = DecimalString.NilEmpty.string_of_uint d /\
            Z.of_uint d = n.
Proof.
  intros Hn. unfold Number_toString.
  destruct n as [|p|p]; [| |lia].
  - exists (Decimal.D0 Decimal.Nil). split; reflexivity.
  - cbn [Z.to_int DecimalString.NilZero.string_of_int].
    exists (Pos.to_uint p). split.
    + unfold DecimalString.NilZero.string_of_uint.
      pose proof (DecimalPos.Unsigned.to_uint_nonnil p) as Hnn.
      destruct (Pos.to_uint p); [now elim Hnn | reflexivity ..].
    + pose proof (DecimalZ.of_to (Z.pos p)) as H. exact H.
Qed.

Lemma digits_value_toString (n : Z) :
  0 <= n -> digits_value (Number_toString n) = Some n.
Proof.
  intros Hn. destruct (Number_toString_nonneg n Hn) as (d & -> & Hd).
  unfold digits_value. now rewrite DecimalString.NilEmpty.usu, <- Hd.
Qed.

Lemma Number_toString_inj (a b : Z) :
  0 <= a -> 0 <= b -> Number_toString a = Number_toString b -> a = b.
Proof.
  intros Ha Hb H.
  pose proof (digits_value_toString a Ha) as H1.
  pose proof (digits_value_toString b Hb) as H2.
  rewrite H in H1. congruence.
Qed.

Lemma digits_value_zero (s : string) :
  digits_value (String "0"%char s) = digits_value s.
Proof.
  unfold digits_value. cbn [DecimalString.NilEmpty.uint_of_string].
  destruct (DecimalString.NilEmpty.uint_of_string s); reflexivity.
Qed.

Lemma filler_zeros (n : nat) (rest s : string) :
  rest = "0" \/ rest = "" ->
  digits_value (filler n "0" rest ++ s) = digits_value s.
Proof.
  revert rest. induction n as [|n IH]; intros rest Hr; [reflexivity|].
  destruct Hr as [-> | ->]; cbn [filler append];
    rewrite digits_value_zero; apply IH; auto.
Qed.

Lemma digits_value_padded (n : Z) :
  0 <= n -> digits_value (padStart 2 "0" (Number_toString n)) = Some n.
Proof.
  intros Hn. unfold padStart. rewrite filler_zeros by auto.
  now apply digits_value_toString.
Qed.

(** Two digits for the numbers below 100. *)
Lemma padded_width (n : Z) :
  0 <= n < 100 -> String.length (padStart 2 "0" (Number_toString n)) = 2%nat.
Proof.
  intros Hn.
  assert (Hall : forallb
                   (fun k => Nat.eqb (String.length
                                        (padStart 2 "0"
                                           (Number_toString (Z.of_nat k)))) 2)
                   (seq 0 100) = true) by (vm_compute; reflexivity).
  rewrite forallb_forall in Hall.
  specialize (Hall (Z.to_nat n)). rewrite Z2Nat.id in Hall by lia.
  apply Nat.eqb_eq. apply Hall. apply in_seq. lia.
Qed.

Lemma append_length (a b : string) :
  String.length (a ++ b) = (String.length a + String.length b)%nat.
Proof. induction a as [|c a IH]; cbn; [reflexivity | now rewrite IH]. Qed.

Lemma append_inj (a a' b b' : string) :
  String.length a = String.length a' -> a ++ b = a' ++ b' ->
  a = a' /\ b = b'.
Proof.
  revert a'. induction a as [|c a IH]; intros [|c' a'] Hl H;
    cbn in *; try discriminate.
  - split; [reflexivity | exact H].
  - injection H as -> H. injection Hl as Hl.
    destruct (IH a' Hl H) as [-> ->]. split; reflexivity.
Qed.

Lemma clock_parts (s : Z) :
  0 <= s ->
  0 <= s / 3600 /\ 0 <= Z.rem s 3600 / 60 < 60 /\ 0 <= Z.rem s 60 < 60 /\
  s = 3600 * (s / 3600) + 60 * (Z.rem s 3600 / 60) + Z.rem s 60.
Proof.
  intros Hs. rewrite !Z.rem_mod_nonneg by lia.
  Z.div_mod_to_equations. lia.
Qed.

Lemma clock_text (s : Z) :
  0 <= s ->
  formatTimerDuration (Some s)
  = padStart 2 "0" (Number_toString (s / 3600)) ++
    (":" ++ padStart 2 "0" (Number_toString (Z.rem s 3600 / 60)) ++
     ":" ++ padStart 2 "0" (Number_toString (Z.rem s 60))).
Proof.
  intros Hs. unfold formatTimerDuration.
  replace (s <? 0) with false by (symmetry; apply Z.ltb_ge; lia).
  reflexivity.
Qed.

Lemma clock_tail_length (m s : Z) :
  0 <= m < 60 -> 0 <= s < 60 ->
  String.length (":" ++ padStart 2 "0" (Number_toString m) ++
                 ":" ++ padStart 2 "0" (Number_toString s)) = 6%nat.
Proof.
  intros Hm Hs. rewrite !append_length, !padded_width by lia. reflexivity.
Qed.

(** X13.
    The timer display never shows the same text for two different
    times: on whole seconds from 0 on, [formatTimerDuration] is
    one-to-one (hours are not cut off at two digits), and below 100
    hours the text is exactly eight characters long.  NaN and negative
    numbers are shown as ["00:00:00"], the text of 0. *)
Theorem timer_display_is_faithful :
  (forall a b, 0 <= a -> 0 <= b ->
               formatTimerDuration (Some a) = formatTimerDuration (Some b) ->
               a = b) /\
  (forall s, 0 <= s < 360000 ->
             String.length (formatTimerDuration (Some s)) = 8%nat) /\
  (forall s, s < 0 -> formatTimerDuration (Some s) = "00:00:00") /\
  formatTimerDuration None = "00:00:00" /\
  formatTimerDuration (Some 0) = "00:00:00".
Proof.
  split; [|split; [|split; [|split; reflexivity]]].
  - intros a b Ha Hb H.
    rewrite (clock_text a Ha), (clock_text b Hb) in H.
    destruct (clock_parts a Ha) as (Hah & Ham & Has & Hae).
    destruct (clock_parts b Hb) as (Hbh & Hbm & Hbs & Hbe).
    pose proof (clock_tail_length _ _ Ham Has) as Hta.
    pose proof (clock_tail_length _ _ Hbm Hbs) as Htb.
    pose proof (f_equal String.length H) as Hl.
    rewrite (append_length (padStart 2 "0" (Number_toString (a / 3600)))),
      (append_length (padStart 2 "0" (Number_toString (b / 3600)))),
      Hta, Htb in Hl.
    apply append_inj in H; [|lia]. destruct H as [Hh H].
    apply (append_inj ":" ":") in H; [|reflexivity]. destruct H as [_ H].
    apply append_inj in H; [|now rewrite !padded_width by lia].
    destruct H as [Hm H].
    apply (append_inj ":" ":") in H; [|reflexivity]. destruct H as [_ Hsec].
    apply (f_equal digits_value) in Hh, Hm, Hsec.
    rewrite !digits_value_padded in Hh, Hm, Hsec by lia.
    injection Hh as Hh. injection Hm as Hm. injection Hsec as Hsec. lia.
  - intros s Hs. rewrite clock_text by lia.
    destruct (clock_parts s ltac:(lia)) as (Hh & Hm & Hsec & He).
    rewrite append_length, clock_tail_length by assumption.
    rewrite padded_width; [reflexivity|].
    split; [assumption|]. Z.div_mod_to_equations. lia.
  - intros s Hs. unfold formatTimerDuration.
    now replace (s <? 0) with true by (symmetry; apply Z.ltb_lt; lia).
Qed.

Lemma minutes_of_whole (s : Z) :
  0 < s ->
  (60 * (s / 60)) / 3600 = s / 3600 /\
  Z.rem (60 * (s / 60)) 3600 / 60 = Z.rem s 3600 / 60.
Proof.
  intros Hs. rewrite !Z.rem_mod_nonneg by (Z.div_mod_to_equations; lia).
  Z.div_mod_to_equations. lia.
Qed.

Lemma toString_m_is_0m (n : Z) :
  0 <= n -> Number_toString n ++ "m" = "0m" -> n = 0.
Proof.
  intros Hn H. apply (Number_toString_inj n 0 Hn ltac:(lia)).
  change (Number_toString 0) with "0".
  destruct (Number_toString n) as [|c [|c' r]]; cbn in H.
  - discriminate.
  - now injection H as ->.
  - injection H as _ H. destruct r; discriminate.
Qed.

Lemma toString_nonempty (n : Z) : Number_toString n <> "".
Proof.
  unfold Number_toString. destruct n as [|p|p]; cbn; try discriminate.
  - unfold DecimalString.NilZero.string_of_uint.
    pose proof (DecimalPos.Unsigned.to_uint_nonnil p) as Hnn.
    destruct (Pos.to_uint p); [now elim Hnn | discriminate ..].
Qed.

(** X14.
    [formatDuration] shows whole minutes only: the text of [s] seconds
    is the text of [s] rounded down to a minute, and it is ["0m"]
    exactly for the durations below one minute (an entry of 59 seconds
    reads like an empty one). *)
Theorem durations_show_whole_minutes (s : Z) :
  formatDuration (Some s) = formatDuration (Some (60 * (s / 60))) /\
  (formatDuration (Some s) = "0m" <-> s < 60).
Proof.
  assert (Hsmall : forall x, x < 60 -> formatDuration (Some x) = "0m").
  { intros x Hx. unfold formatDuration.
    destruct (Z.leb_spec x 0) as [_|Hpos]; [reflexivity|].
    replace (x / 3600) with 0 by (Z.div_mod_to_equations; lia).
    rewrite Z.rem_mod_nonneg by lia.
    replace (x mod 3600 / 60) with 0 by (Z.div_mod_to_equations; lia).
    reflexivity. }
  split.
  - destruct (Z.lt_ge_cases s 60) as [Hlt | Hge].
    + rewrite (Hsmall s Hlt). symmetry. apply Hsmall.
      Z.div_mod_to_equations. lia.
    + destruct (minutes_of_whole s ltac:(lia)) as [Hh Hm].
      unfold formatDuration.
      replace (s <=? 0) with false by (symmetry; apply Z.leb_gt; lia).
      replace (60 * (s / 60) <=? 0) with false
        by (symmetry; apply Z.leb_gt; Z.div_mod_to_equations; lia).
      cbv zeta. now rewrite Hh, Hm.
  - split; [|apply Hsmall].
    intros H. destruct (Z.lt_ge_cases s 60) as [Hlt | Hge]; [exact Hlt|].
    exfalso. unfold formatDuration in H.
    replace (s <=? 0) with false in H by (symmetry; apply Z.leb_gt; lia).
    cbv zeta in H.
    assert (Hh : 0 <= s / 3600) by (Z.div_mod_to_equations; lia).
    assert (Hm : 0 <= Z.rem s 3600 / 60)
      by (rewrite Z.rem_mod_nonneg by lia; Z.div_mod_to_equations; lia).
    destruct (Z.ltb_spec 0 (s / 3600)) as [Hhp | Hh0];
      destruct (Z.ltb_spec 0 (Z.rem s 3600 / 60)) as [Hmp | Hm0];
      cbn [andb] in H.
    + pose proof (toString_nonempty (s / 3600)) as Hne.
      destruct (Number_toString (s / 3600)) as [|c [|c' r]]; cbn in H;
        [now elim Hne | discriminate | ].
      injection H as _ _ H. destruct r; discriminate.
    + pose proof (toString_nonempty (s / 3600)) as Hne.
      destruct (Number_toString (s / 3600)) as [|c [|c' r]]; cbn in H;
        [now elim Hne | discriminate | ].
      injection H as _ _ H. destruct r; discriminate.
    + apply toString_m_is_0m in H; lia.
    + rewrite Z.rem_mod_nonneg in Hm0 by lia.
      Z.div_mod_to_equations. lia.
Qed.

(** X15.
    The client's [calculateDuration] of a stored entry whose bounds are
    whole milliseconds (what a JavaScript [Date] holds) is the stored
    [duration] or one second less: the client rounds down, the trigger
    rounds to the nearest second, so the two agree exactly when the
    part beyond the last whole second is under half a second. *)
Theorem stored_and_client_duration (tbl : Store.table) (r : Store.row)
        (a b : Z) :
  Store.reachable tbl -> In r tbl ->
  Store.start_time r = Some (1000 * a) ->
  Store.end_time r = Some (1000 * b) ->
  exists d,
    Store.duration r = Some d /\
    (calculateDuration (Some a) (Some b) = Some d \/
     calculateDuration (Some a) (Some b) = Some (d - 1)) /\
    (calculateDuration (Some a) (Some b) = Some d <-> (b - a) mod 1000 < 500).
Proof.
  intros Hreach Hin Hs He.
  pose proof (Store.reachable_accepted tbl Hreach) as Hacc.
  rewrite Forall_forall in Hacc. specialize (Hacc r Hin).
  destruct Hacc as (_ & _ & Hc & Hd & Hsome).
  destruct (Hc _ He) as (st & Hst & Hlt).
  assert (Heq : st = 1000 * a) by congruence. subst st. clear Hst.
  unfold Store.duration_derived, Store.derived_duration in Hd.
  rewrite He, Hs in Hd.
  assert (His : is_some (Store.duration r) = true)
    by (apply Hsome; now rewrite He).
  destruct (Store.duration r) as [d|] eqn:Hdur; [|discriminate].
  exists d. split; [reflexivity|].
  symmetry in Hd. unfold Store.extract_epoch_integer in Hd.
  set (q := Store.round_half_away (1000 * b - 1000 * a) 1000000) in Hd.
  destruct (_ && _); [|discriminate].
  assert (Hq : q = d) by congruence. clear Hd. rename Hq into Hd.
  subst q. unfold Store.round_half_away in Hd.
  rewrite Z.sgn_pos, Z.abs_eq, Z.mul_1_l in Hd by lia.
  unfold calculateDuration, num_sub, option_map.
  assert (Hdv : d = (b - a + 500) / 1000).
  { rewrite <- Hd. Z.div_mod_to_equations. lia. }
  split.
  - assert (Hcases : (b - a) / 1000 = d \/ (b - a) / 1000 = d - 1)
      by (rewrite Hdv; Z.div_mod_to_equations; lia).
    destruct Hcases as [-> | ->]; auto.
  - split.
    + intros [= H]. rewrite Hdv in H. Z.div_mod_to_equations. lia.
    + intros H. f_equal. rewrite Hdv. Z.div_mod_to_equations. lia.
Qed.

(** ** Dates *)

Section LocalZone.

(** The local time zone and [new Date(s).getTime()] ([None]: NaN), as
    in [Client]. *)
Variable tza : TimeZone.
Variable Date_parse : string -> option Z.

(** The helpers return [toISOString()] of a date: the instant it
    denotes, or a RangeError when the date is invalid. *)
Definition getStartOfDay {W : Type} (date : Date) : M W Z :=
  let start := date in
  Client.toISOString (setHours tza start 0 0 0 0).

Definition getEndOfDay {W : Type} (date : Date) : M W Z :=
  let end_ := date in
  Client.toISOString (setHours tza end_ 23 59 59 999).

Definition getStartOfWeek {W : Type} (date : Date) : M W Z :=
  let start := date in
  let day := getDay tza start in
  let diff := num_add (num_sub (getDate tza start) day)
                      (if num_is day 0 then Some (-6) else Some 1) in
  Client.toISOString (setHours tza (setDate tza start diff) 0 0 0 0).

Definition getEndOfWeek {W : Type} (date : Date) : M W Z :=
  let end_ := date in
  let day := getDay tza end_ in
  let diff := num_add (num_sub (getDate tza end_) day)
                      (if num_is day 0 then Some 0 else Some 7) in
  Client.toISOString (setHours tza (setDate tza end_ diff) 23 59 59 999).

Definition getStartOfMonth {W : Type} (date : Date) : M W Z :=
  let start := newDate tza (getFullYear tza date) (getMonth tza date)
                       (Some 1) in
  Client.toISOString (setHours tza start 0 0 0 0).

Definition getEndOfMonth {W : Type} (date : Date) : M W Z :=
  let end_ := newDate tza (getFullYear tza date)
                      (num_add (getMonth tza date) (Some 1)) (Some 0) in
  Client.toISOString (setHours tza end_ 23 59 59 999).

(** [a === b] on numbers: NaN equals nothing. *)
Definition num_eq (a b : Number) : bool :=
  match a, b with
  | Some x, Some y => x =? y
  | _, _ => false
  end.

(** [isToday(dateString)], the clock reading [now] *)
Definition isToday (dateString : string) (now : Z) : bool :=
  let date := Date_parse dateString in
  let today := Some now in
  num_eq (getDate tza date) (getDate tza today) &&
  num_eq (getMonth tza date) (getMonth tza today) &&
  num_eq (getFullYear tza date) (getFullYear tza today).

(** [parseDate]: [None] is [null]. *)
Definition parseDate (dateString : string) : option Z :=
  if negb (truthy (Some dateString)) then None else Date_parse dateString.

End LocalZone.

(** *** Facts about the date helpers *)

Lemma same_calendar_day (x y : Z) :
  DateFromTime x = DateFromTime y /\ MonthFromTime x = MonthFromTime y /\
  YearFromTime x = YearFromTime y <-> Day x = Day y.
Proof.
  split.
  - intros (Hd & Hm & Hy).
    unfold DateFromTime, DayWithinYear, InLeapYear in Hd.
    rewrite Hm, Hy in Hd. lia.
  - intros H.
    assert (Hy : YearFromTime x = YearFromTime y)
      by (unfold YearFromTime; now rewrite H).
    assert (Hw : DayWithinYear x = DayWithinYear y)
      by (unfold DayWithinYear; now rewrite H, Hy).
    assert (Hl : InLeapYear x = InLeapYear y)
      by (unfold InLeapYear; now rewrite Hy).
    assert (Hm : MonthFromTime x = MonthFromTime y)
      by (unfold MonthFromTime; now rewrite Hw, Hl).
    split; [|split; assumption].
    unfold DateFromTime. now rewrite Hw, Hm, Hl.
Qed.

Lemma week_end_diff_value (d w : Z) :
  num_add (num_sub (Some d) (Some w))
          (if num_is (Some w) 0 then Some 0 else Some 7)
  = Some (d - w + (if w =? 0 then 0 else 7)).
Proof.
  unfold num_add, num_sub, num_is. now destruct (w =? 0).
Qed.

Section HelperWindows.

Variable tza : TimeZone.
Variable now : Z.
Hypothesis Hb : offsets_bounded tza.
Hypothesis Hd : keeps_date tza.
Hypothesis Hlo : 0 <= LocalTime tza now.
Hypothesis Hhi : Z.abs now + 40 * msPerDay <= maxTime.

Lemma getEndOfWeek_value :
  setHours tza
    (setDate tza (Some now)
       (num_add (num_sub (getDate tza (Some now)) (getDay tza (Some now)))
                (if num_is (getDay tza (Some now)) 0 then Some 0
                 else Some 7)))
    23 59 59 999
  = Client.weekEnd tza now.
Proof.
  rewrite (Client.weekEnd_value tza now Hb Hhi Hd).
  unfold getDay, getDate, option_map. rewrite week_end_diff_value.
  pose proof (Client.since_monday_range (LocalTime tza now)) as Hs.
  set (k := 6 - Client.since_monday (WeekDay (LocalTime tza now))).
  assert (Hk : - WeekDay (LocalTime tza now)
               + (if WeekDay (LocalTime tza now) =? 0 then 0 else 7) = k).
  { subst k. unfold Client.since_monday.
    destruct (Z.eqb_spec (WeekDay (LocalTime tza now)) 0) as [-> | Hn]; lia. }
  replace (DateFromTime (LocalTime tza now) - WeekDay (LocalTime tza now)
           + (if WeekDay (LocalTime tza now) =? 0 then 0 else 7))
    with (DateFromTime (LocalTime tza now) + k) by lia.
  rewrite (shifted_day_end tza Hb Hd)
    by (unfold k, msPerDay, maxTime in *; lia).
  do 2 f_equal; lia.
Qed.

Lemma getStartOfMonth_value :
  setHours tza (Client.monthStart tza now) 0 0 0 0 = Client.monthStart tza now.
Proof.
  rewrite (Client.monthStart_value tza now Hb Hlo Hhi).
  destruct (Client.month_near tza now Hb) as [H1 _].
  set (F := MakeDay (YearFromTime (LocalTime tza now))
                    (MonthFromTime (LocalTime tza now)) 1) in *.
  pose proof (local_midnight_near tza Hb F).
  rewrite (setHours_start tza Hb) by (unfold msPerDay, maxTime in *; lia).
  now rewrite (Day_local_midnight tza Hd).
Qed.

Lemma week_bounds_local :
  exists ws we,
    Client.weekStart tza now = Some ws /\
    Client.weekEnd tza now = Some we /\
    WeekDay (LocalTime tza ws) = 1 /\
    WeekDay (LocalTime tza we) = 0.
Proof.
  do 2 eexists.
  split; [exact (Client.weekStart_value tza now Hb Hhi Hd)|].
  split; [exact (Client.weekEnd_value tza now Hb Hhi Hd)|].
  unfold WeekDay.
  rewrite (Day_local_midnight tza Hd), (Day_local_day_end tza Hd).
  unfold Client.since_monday, WeekDay.
  destruct (Z.eqb_spec ((Day (LocalTime tza now) + 4) mod 7) 0);
    split; Z.div_mod_to_equations; lia.
Qed.

End HelperWindows.

(** The bounds of [getTimeStats], written out. *)
Lemma todayStart_eq (tza : TimeZone) (now : Z) :
  Client.todayStart tza now = setHours tza (Some now) 0 0 0 0.
Proof. unfold Client.todayStart. reflexivity. Qed.

Lemma todayEnd_eq (tza : TimeZone) (now : Z) :
  Client.todayEnd tza now = setHours tza (Some now) 23 59 59 999.
Proof. unfold Client.todayEnd. reflexivity. Qed.

Lemma weekStart_eq (tza : TimeZone) (now : Z) :
  Client.weekStart tza now
  = setHours tza
      (setDate tza (Some now)
         (num_add (num_sub (getDate tza (Some now)) (getDay tza (Some now)))
                  (if num_is (getDay tza (Some now)) 0 then Some (-6)
                   else Some 1)))
      0 0 0 0.
Proof. unfold Client.weekStart. reflexivity. Qed.

Lemma monthStart_eq (tza : TimeZone) (now : Z) :
  Client.monthStart tza now
  = newDate tza (getFullYear tza (Some now)) (getMonth tza (Some now))
            (Some 1).
Proof. unfold Client.monthStart. reflexivity. Qed.

Lemma monthEnd_eq (tza : TimeZone) (now : Z) :
  Client.monthEnd tza now
  = setHours tza
      (newDate tza (getFullYear tza (Some now))
               (num_add (getMonth tza (Some now)) (Some 1)) (Some 0))
      23 59 59 999.
Proof. unfold Client.monthEnd. reflexivity. Qed.

(** X16.
    In a time zone with offsets within a day of UTC whose changes of
    offset carry no local time to another date, the six window helpers
    return, for a date in range, the very bounds that [getTimeStats]
    computes for itself ([getEndOfWeek] gets there by another route,
    [getStartOfMonth] with one more [setHours]); the week they give
    starts on a Monday and ends on a Sunday of local time.  On an
    invalid date each of them throws the RangeError of [toISOString]. *)
Theorem helpers_give_the_stats_windows (tza : TimeZone) (now : Z)
        (W : Type) (w : W) :
  offsets_bounded tza -> keeps_date tza ->
  0 <= LocalTime tza now -> Z.abs now + 40 * msPerDay <= maxTime ->
  (exists dayStart dayEnd weekStart weekEnd monthStart monthEnd : Z,
      Client.todayStart tza now = Some dayStart /\
      Client.todayEnd tza now = Some dayEnd /\
      Client.weekStart tza now = Some weekStart /\
      Client.weekEnd tza now = Some weekEnd /\
      Client.monthStart tza now = Some monthStart /\
      Client.monthEnd tza now = Some monthEnd /\
      getStartOfDay tza (Some now) w = (inr dayStart, w) /\
      getEndOfDay tza (Some now) w = (inr dayEnd, w) /\
      getStartOfWeek tza (Some now) w = (inr weekStart, w) /\
      getEndOfWeek tza (Some now) w = (inr weekEnd, w) /\
      getStartOfMonth tza (Some now) w = (inr monthStart, w) /\
      getEndOfMonth tza (Some now) w = (inr monthEnd, w) /\
      WeekDay (LocalTime tza weekStart) = 1 /\
      WeekDay (LocalTime tza weekEnd) = 0) /\
  getStartOfDay tza None w = (inl (Error "Invalid time value"), w) /\
  getEndOfDay tza None w = (inl (Error "Invalid time value"), w) /\
  getStartOfWeek tza None w = (inl (Error "Invalid time value"), w) /\
  getEndOfWeek tza None w = (inl (Error "Invalid time value"), w) /\
  getStartOfMonth tza None w = (inl (Error "Invalid time value"), w) /\
  getEndOfMonth tza None w = (inl (Error "Invalid time value"), w).
Proof.
  intros Hb Hd Hlo Hhi. split; [|repeat split].
  destruct (Client.windows_defined tza now Hb Hlo Hhi)
    as (ts & te & ws0 & we0 & ms & me & H1 & H2 & _ & _ & H5 & H6).
  destruct (week_bounds_local tza now Hb Hd Hhi)
    as (ws & we & H3 & H4 & Hmon & Hsun).
  pose proof (getEndOfWeek_value tza now Hb Hd Hhi) as H7.
  pose proof (getStartOfMonth_value tza now Hb Hd Hlo Hhi) as H8.
  exists ts, te, ws, we, ms, me.
  split; [exact H1|]. split; [exact H2|]. split; [exact H3|].
  split; [exact H4|]. split; [exact H5|]. split; [exact H6|].
  unfold getStartOfDay, getEndOfDay, getStartOfWeek, getEndOfWeek,
    getStartOfMonth, getEndOfMonth.
  cbv zeta.
  rewrite <- todayStart_eq, <- todayEnd_eq, <- weekStart_eq, H7,
    <- monthStart_eq, H8, <- monthEnd_eq.
  rewrite H1, H2, H3, H4, H5, H6.
  unfold Client.toISOString, ret. repeat split; assumption.
Qed.

(** Berlin on Sunday 2025-10-26, 12:00 UTC, the day the clocks go back:
    the week ends at 23:59:59.999 of winter time. *)
Lemma helpers_windows_witness :
  getEndOfWeek berlin_2025 (Some 1761480000000) tt
  = (inr 1761519599999, tt) /\
  getStartOfWeek berlin_2025 (Some 1761480000000) tt
  = (inr 1760911200000, tt).
Proof.
  destruct (helpers_give_the_stats_windows berlin_2025 1761480000000 unit tt
              berlin_2025_bounded berlin_2025_keeps_date
              ltac:(vm_compute; discriminate) ltac:(vm_compute; discriminate))
    as [(ts & te & ws & we & ms & me & _ & _ & H3 & H4 & _ & _ &
         _ & _ & H9 & H10 & _) _].
  assert (Hs : ws = 1760911200000) by (vm_compute in H3; congruence).
  assert (He : we = 1761519599999) by (vm_compute in H4; congruence).
  subst ws we. split; [exact H10 | exact H9].
Defined.

(** X17.
    In a time zone with offsets within a day of UTC, no change of
    offset at a local midnight and local days that follow each other,
    [isToday] holds exactly for the strings that parse to an instant of
    the "today" window of the statistics, bounds included; a string that
    is not a date is never today. *)
Theorem isToday_is_the_today_window (tza : TimeZone) (now : Z)
        (Date_parse : string -> option Z) (dateString : string) :
  offsets_bounded tza -> steady_at_midnight tza -> days_in_order tza ->
  Z.abs now + 40 * msPerDay <= maxTime ->
  exists dayStart dayEnd,
    Client.todayStart tza now = Some dayStart /\
    Client.todayEnd tza now = Some dayEnd /\
    (isToday tza Date_parse dateString now = true <->
     exists t, Date_parse dateString = Some t /\ dayStart <= t <= dayEnd).
Proof.
  intros Hb Hm Ho Hhi.
  exists (local_midnight tza (Day (LocalTime tza now))),
         (local_midnight tza (Day (LocalTime tza now) + 1) - 1).
  split; [exact (Client.todayStart_value tza now Hb Hhi)|].
  split.
  { rewrite (Client.todayEnd_value tza now Hb Hhi). f_equal.
    apply (day_end_next_midnight tza Hm). }
  unfold isToday. cbv zeta.
  destruct (Date_parse dateString) as [t|]; cbn [getDate getMonth getFullYear
    option_map num_eq andb].
  - rewrite !andb_true_iff, !Z.eqb_eq.
    pose proof (Ho (Day (LocalTime tza now)) t) as Hlow.
    pose proof (Ho (Day (LocalTime tza now) + 1) t) as Hup.
    pose proof (same_calendar_day (LocalTime tza t) (LocalTime tza now))
      as Hsame.
    split.
    + intros [[Hdt Hmt] Hyt]. exists t. split; [reflexivity|].
      assert (Heq : Day (LocalTime tza t) = Day (LocalTime tza now))
        by (apply Hsame; auto).
      split; [apply Hlow; lia|].
      destruct (Z_le_gt_dec
                  (local_midnight tza (Day (LocalTime tza now) + 1)) t)
        as [Hge | Hlt]; [apply Hup in Hge|]; lia.
    + intros (t' & [= <-] & Hr1 & Hr2).
      assert (Heq : Day (LocalTime tza t) = Day (LocalTime tza now)).
      { apply Hlow in Hr1.
        destruct (Z_le_gt_dec (Day (LocalTime tza now) + 1)
                              (Day (LocalTime tza t))) as [Hge | Hlt];
          [apply Hup in Hge|]; lia. }
      apply Hsame in Heq. tauto.
  - split; [discriminate|]. intros (t' & Hn & _). discriminate.
Qed.

(** Berlin on Sunday 2025-10-26, the day of 25 hours: 22:30 UTC, half
    an hour before the local midnight, is still today. *)
Lemma isToday_witness :
  isToday berlin_2025 (fun _ => Some 1761517800000)
          "2025-10-26T22:30:00.000Z" 1761480000000
  = true.
Proof.
  destruct (isToday_is_the_today_window berlin_2025 1761480000000
              (fun _ => Some 1761517800000) "2025-10-26T22:30:00.000Z"
              berlin_2025_bounded berlin_2025_steady
              berlin_2025_days_in_order
              ltac:(vm_compute; discriminate))
    as (dayStart & dayEnd & H1 & H2 & H).
  apply H. exists 1761517800000. split; [reflexivity|].
  assert (Hs : dayStart = 1761429600000) by (vm_compute in H1; congruence).
  assert (He : dayEnd = 1761519599999) by (vm_compute in H2; congruence).
  subst dayStart dayEnd. vm_compute. split; discriminate.
Defined.

(** An entry of 3661.5 seconds: the table says 3662, the client 3661. *)
Lemma stored_and_client_duration_witness :
  let r := Store.mkRow 1 (Some 7) None None None (Some Store.t0)
                       (Some (Store.t0 + 3661500000)) (Some 3662) None
                       (Some (Store.CURRENT_TIMESTAMP Store.env0)) in
  exists d,
    Store.duration r = Some d /\
    (calculateDuration (Some 1762041600000) (Some 1762045261500) = Some d \/
     calculateDuration (Some 1762041600000) (Some 1762045261500)
     = Some (d - 1)) /\
    (calculateDuration (Some 1762041600000) (Some 1762045261500) = Some d
     <-> (1762045261500 - 1762041600000) mod 1000 < 500).
Proof.
  intros r.
  assert (Hreach : Store.reachable [r]).
  { apply (Store.reachable_step Store.env0
             (Store.INSERT (Store.finished_draft 1 7 Store.t0
                              (Store.t0 + 3661500000) 0)) [] [r]).
    - apply Store.reachable_empty.
    - reflexivity. }
  exact (stored_and_client_duration [r] r 1762041600000 1762045261500
           Hreach (or_introl eq_refl) eq_refl eq_refl).
Defined.

End TimeUtils.

(** * [lib/api/time-entries.ts]: the other methods, and what reaches the
      hooks through the routes *)

Module TimeEntriesAPI.

Import Wire Js.
Local Open Scope string_scope.
Local Open Scope Z_scope.
Local Open Scope js_scope.

(** [s.includes(sub)] *)
Fixpoint includes (s sub : string) : bool :=
  String.prefix sub s ||
  match s with
  | EmptyString => false
  | String _ rest => includes rest sub
  end.



Section Methods.

(** Everything beyond the browser tab. *)
Variable S : Type.

(** [response.statusText], by status, and the stored access token. *)
Variable statusText : Z -> string.
Variable token : option string.

(** The objects [{}] read as an entry. *)
Variable empty_entry : TimeEntry.

(** [`HTTP ${response.status}: ${response.statusText}`] *)
Definition status_line (status : Z) : string :=
  "HTTP " ++ TimeUtils.Number_toString status ++ ": " ++ statusText status.

(** [fetch] of the routes, given the headers of [getAuthHeaders]; the
    payload of [/current] is the [data] field of the answer, [None]
    standing for [null], for a missing field and for anything that is
    not an entry. *)
Variable fetch_current : option string -> M S (Response (option TimeEntry)).
Variable fetch_start :
  option string -> StartTimerRequest -> M S (Response TimeEntry).

Definition handleResponse {T : Type} (empty : T) (response : Response T)
  : M S T :=
  Client.handleResponse S status_line empty response.

Definition startTimer (data : StartTimerRequest) : M S TimeEntry :=
  response <- fetch_start (Client.getAuthHeaders token) data ;;
  handleResponse empty_entry response.

Definition getCurrentTimer : M S (option TimeEntry) :=
  try_catch
    (response <- fetch_current (Client.getAuthHeaders token) ;;
     handleResponse None response)
    (fun error =>
       match error with
       | Error message =>
           if includes message "404" then ret None else throw error
       | Thrown => throw error
       end).





End Methods.

(** ** Through the routes: backend, route handler, API method, hook *)

Section EndToEnd.

(** The backend service with its database, and its two endpoints for
    the running timer. *)
Variable B : Type.
Variable backend_current : string -> M B (Response TimeEntry).
Variable backend_start :
  string -> StartTimerRequest -> M B (Response TimeEntry).

(** The browser. *)
Variable statusText : Z -> string.
Variable token : option string.
Variable empty_entry : TimeEntry.

(** [fetch] of a route runs its handler; the body sent with
    [JSON.stringify] is what [request.json()] reads. *)
Definition fetch_current (headers : option string) :=
  Http.GET_current B backend_current headers.

Definition fetch_start (headers : option string) (data : StartTimerRequest) :=
  Http.POST_start B backend_start headers (Some data).

Definition api_getCurrentTimer : M B (option TimeEntry) :=
  getCurrentTimer B statusText token fetch_current.

Definition api_startTimer (data : StartTimerRequest) : M B TimeEntry :=
  startTimer B statusText token empty_entry fetch_start data.

(** A browser that is logged in sends ["Bearer " ++ t]. *)
Lemma logged_in_header (t : string) :
  token = Some t -> t <> "" ->
  Client.getAuthHeaders token = Some ("Bearer " ++ t) /\
  negb (truthy (Some ("Bearer " ++ t))) = false.
Proof.
  intros -> Hne. unfold Client.getAuthHeaders, truthy.
  destruct (String.eqb_spec t ""); [contradiction|]. split; reflexivity.
Qed.

(** X19.
    When the backend answers 404 to [/current] (no timer is running),
    [getCurrentTimer] resolves to [null], whatever the body of that
    answer: the route has already turned it into [{ data: null }], so
    the client's own look for "404" in an error message is not
    reached.  When the backend answers 2xx with an entry, that entry is
    the result. *)
Theorem backend_404_is_no_timer (t : string) (w w' : B)
        (answer : Response TimeEntry) :
  token = Some t -> t <> "" ->
  backend_current ("Bearer " ++ t) w = (inr answer, w') ->
  (status answer = 404 -> api_getCurrentTimer w = (inr None, w')) /\
  (forall entry, ok answer = true -> status answer <> 204 ->
                 body answer = json_data entry ->
                 api_getCurrentTimer w = (inr (Some entry), w')).
Proof.
  intros Ht Hne Hb. destruct (logged_in_header t Ht Hne) as [Hh Htr].
  unfold api_getCurrentTimer, getCurrentTimer, fetch_current,
    Http.GET_current, try_catch, bind.
  rewrite Hh, Htr, Hb. split.
  - intros ->. reflexivity.
  - intros entry Hok H204 Hbody.
    assert (H404 : (status answer =? 404) = false).
    { apply Z.eqb_neq. intros H. unfold ok in Hok. rewrite H in Hok.
      discriminate. }
    rewrite H404, Hok, Hbody. reflexivity.
Qed.


End EndToEnd.

(** *** Worked examples *)

(** A route that answers 404 with an error text, and a backend that
    answers 404 and 409. *)
Definition demo_statusText (status : Z) : string :=
  if status =? 404 then "Not Found" else "Conflict".



Definition demo_backend_404 : string -> M unit (Response TimeEntry) :=
  fun _ s => (inr (mkResponse 404 (json_error (Some "No running timer"))), s).

Lemma backend_404_witness :
  api_getCurrentTimer unit demo_backend_404 demo_statusText (Some "tok") tt
  = (inr None, tt).
Proof.
  destruct (backend_404_is_no_timer unit demo_backend_404 demo_statusText
              (Some "tok") "tok" tt tt
              (mkResponse 404 (json_error (Some "No running timer")))
              eq_refl ltac:(discriminate) eq_refl) as [H _].
  exact (H eq_refl).
Defined.




End TimeEntriesAPI.

(** * The components around the hooks: paging the table, the date
      presets of the filters, the edit dialog *)

Module Components.

Import JsDate Wire Js.

(** ** [components/time-entries-table.tsx]: paging *)

Definition perPage : Z := 10.

(** [Math.ceil(data.total_count / perPage)] *)
Definition totalPages (total_count : Z) : Z := - ((- total_count) / perPage).

(** The number on the [i]-th page button. *)
Definition pageNum (totalPages page i : Z) : Z :=
  if totalPages <=? 5 then i + 1
  else if page <=? 3 then i + 1
  else if totalPages - 2 <=? page then totalPages - 4 + i
  else page - 2 + i.

(** [Array.from({ length: Math.min(5, totalPages) }, (_, i) => ...)] *)
Definition page_buttons (totalPages page : Z) : list Z :=
  map (fun i => pageNum totalPages page (Z.of_nat i))
      (seq 0 (Z.to_nat (Z.min 5 totalPages))).

(** "Showing [first_shown] to [last_shown] of [total_count] entries" *)
Definition first_shown (page : Z) : Z := (page - 1) * perPage + 1.

Definition last_shown (page total_count : Z) : Z :=
  Z.min (page * perPage) total_count.

(** [disabled] of the Previous and Next buttons, loading apart. *)
Definition previous_disabled (page : Z) : bool := page <=? 1.

Definition next_disabled (page total_count : Z) : bool :=
  totalPages total_count <=? page.

Lemma totalPages_spec (total_count : Z) :
  (totalPages total_count - 1) * perPage < total_count
  <= totalPages total_count * perPage.
Proof.
  unfold totalPages, perPage.
  pose proof (Z.mul_div_le (- total_count) 10 ltac:(lia)).
  pose proof (Z.mul_succ_div_gt (- total_count) 10 ltac:(lia)).
  lia.
Qed.

(** X21.
    The page buttons of the table: for a current page between 1 and
    the last, there are [min(5, totalPages)] buttons with consecutive
    numbers, all of them pages that exist, and the current page is one
    of them.  The line above them counts entries that exist: at most
    ten, exactly ten on every page but the last, and [Next] is disabled
    exactly on the last page. *)
Theorem page_buttons_frame_the_page (total_count page : Z) :
  1 <= page <= totalPages total_count ->
  let n := totalPages total_count in
  let first := pageNum n page 0 in
  page_buttons n page
  = map (fun k => first + Z.of_nat k) (seq 0 (Z.to_nat (Z.min 5 n))) /\
  1 <= first /\ first + Z.min 5 n - 1 <= n /\
  first <= page <= first + Z.min 5 n - 1 /\
  In page (page_buttons n page) /\
  1 <= first_shown page <= last_shown page total_count /\
  last_shown page total_count <= total_count /\
  last_shown page total_count - first_shown page + 1 <= perPage /\
  (page < n -> last_shown page total_count - first_shown page + 1 = perPage) /\
  (next_disabled page total_count = true <-> page = n).
Proof.
  intros Hp n first.
  pose proof (totalPages_spec total_count) as Ht. fold n in Ht, Hp.
  assert (Hfirst : forall i, pageNum n page i = first + i).
  { intros i. subst first. unfold pageNum.
    destruct (n <=? 5), (page <=? 3), (n - 2 <=? page); lia. }
  assert (Hrange : 1 <= first /\ first + Z.min 5 n - 1 <= n /\
                   first <= page <= first + Z.min 5 n - 1).
  { subst first. unfold pageNum.
    destruct (Z.leb_spec n 5), (Z.leb_spec page 3),
      (Z.leb_spec (n - 2) page); lia. }
  split.
  { unfold page_buttons. apply map_ext. intros k. apply Hfirst. }
  destruct Hrange as (H1 & H2 & H3).
  split; [exact H1|]. split; [exact H2|]. split; [exact H3|].
  split.
  { unfold page_buttons. apply in_map_iff.
    exists (Z.to_nat (page - first)). split.
    - rewrite Hfirst. lia.
    - apply in_seq. lia. }
  unfold first_shown, last_shown, next_disabled, perPage in *.
  fold n. rewrite Z.leb_le.
  repeat split; try lia.
Qed.

(** 45 entries, page 5 of 5. *)
Lemma page_buttons_witness :
  page_buttons (totalPages 45) 5 = [1; 2; 3; 4; 5] /\
  last_shown 5 45 = 45.
Proof.
  destruct (page_buttons_frame_the_page 45 5
              ltac:(vm_compute; split; discriminate)) as (H & _).
  split; [rewrite H; reflexivity | reflexivity].
Defined.

(** ** The date presets of [TimeEntryFiltersComponent] *)

(** [{ start_date: a.toISOString(), end_date: b.toISOString() }] *)
Definition iso_range {W : Type} (a b : Date) : M W (Z * Z) :=
  bind (Client.toISOString a) (fun start_date =>
  bind (Client.toISOString b) (fun end_date =>
  ret (start_date, end_date))).

Section Presets.

(** The local time zone; [now] is the reading of the clock at every
    [new Date()] of a preset. *)
Variable tza : TimeZone.

Definition preset_today {W : Type} (now : Z) : M W (Z * Z) :=
  let today := setHours tza (Some now) 0 0 0 0 in
  let endOfDay := setHours tza (Some now) 23 59 59 999 in
  iso_range today endOfDay.

Definition preset_yesterday {W : Type} (now : Z) : M W (Z * Z) :=
  let yesterday := Some now in
  let yesterday :=
      setDate tza yesterday (num_sub (getDate tza yesterday) (Some 1)) in
  let yesterday := setHours tza yesterday 0 0 0 0 in
  let endOfYesterday := setHours tza yesterday 23 59 59 999 in
  iso_range yesterday endOfYesterday.

(** [new Date(today.setDate(today.getDate() - today.getDay()))]:
    [setDate] returns the new time value. *)
Definition preset_this_week {W : Type} (now : Z) : M W (Z * Z) :=
  let today := Some now in
  let firstDay :=
      setDate tza today (num_sub (getDate tza today) (getDay tza today)) in
  let firstDay := setHours tza firstDay 0 0 0 0 in
  let endOfWeek := setHours tza (Some now) 23 59 59 999 in
  iso_range firstDay endOfWeek.

Definition preset_last_week {W : Type} (now : Z) : M W (Z * Z) :=
  let today := Some now in
  let lastWeekStart :=
      setDate tza today
              (num_sub (num_sub (getDate tza today) (getDay tza today))
                       (Some 7)) in
  let lastWeekStart := setHours tza lastWeekStart 0 0 0 0 in
  let lastWeekEnd :=
      setDate tza lastWeekStart
              (num_add (getDate tza lastWeekStart) (Some 6)) in
  let lastWeekEnd := setHours tza lastWeekEnd 23 59 59 999 in
  iso_range lastWeekStart lastWeekEnd.

Definition preset_this_month {W : Type} (now : Z) : M W (Z * Z) :=
  let today := Some now in
  let firstDay :=
      newDate tza (getFullYear tza today) (getMonth tza today) (Some 1) in
  let endOfMonth :=
      newDate tza (getFullYear tza today)
              (num_add (getMonth tza today) (Some 1)) (Some 0) in
  let endOfMonth := setHours tza endOfMonth 23 59 59 999 in
  iso_range firstDay endOfMonth.

Definition preset_last_month {W : Type} (now : Z) : M W (Z * Z) :=
  let today := Some now in
  let firstDay :=
      newDate tza (getFullYear tza today)
              (num_sub (getMonth tza today) (Some 1)) (Some 1) in
  let lastDay :=
      newDate tza (getFullYear tza today) (getMonth tza today) (Some 0) in
  let lastDay := setHours tza lastDay 23 59 59 999 in
  iso_range firstDay lastDay.

End Presets.

(** *** Facts about the presets *)

Definition previous_month (y m : Z) : Z * Z :=
  if m =? 0 then (y - 1, 11) else (y, m - 1).

Lemma MakeDay_previous_month (y m : Z) :
  0 <= m <= 11 ->
  MakeDay y (m - 1) 1
  = MakeDay (fst (previous_month y m)) (snd (previous_month y m)) 1 /\
  0 <= snd (previous_month y m) <= 11 /\
  MakeDay y m 1 - 31 <= MakeDay y (m - 1) 1 < MakeDay y m 1.
Proof.
  intros Hm. unfold previous_month.
  destruct (Z.eqb_spec m 0) as [-> | Hne]; cbn [fst snd].
  - assert (Heq : MakeDay y (0 - 1) 1 = MakeDay (y - 1) 11 1).
    { unfold MakeDay. cbv zeta.
      change ((0 - 1) / 12) with (-1). change ((0 - 1) mod 12) with 11.
      change (11 / 12) with 0. change (11 mod 12) with 11.
      rewrite Z.add_0_r. reflexivity. }
    split; [exact Heq|]. split; [lia|]. rewrite Heq.
    rewrite (MakeDay_first (y - 1) 11) by lia.
    rewrite (MakeDay_first y 0) by lia.
    pose proof (DayFromYear_succ (y - 1)) as Hs.
    replace (y - 1 + 1) with y in Hs by lia.
    destruct (DaysInYear_cases (y - 1)) as [Hd | Hd]; rewrite Hd in *;
      cbn [DaysBeforeMonth Z.eqb Pos.eqb]; lia.
  - split; [reflexivity|]. split; [lia|].
    rewrite (MakeDay_first y (m - 1)) by lia.
    rewrite (MakeDay_first y m) by lia.
    set (l := if DaysInYear y =? 366 then 1 else 0).
    assert (Hl : l = 0 \/ l = 1) by (subst l; destruct (_ =? _); lia).
    clearbody l.
    assert (m = 1 \/ m = 2 \/ m = 3 \/ m = 4 \/ m = 5 \/ m = 6 \/
            m = 7 \/ m = 8 \/ m = 9 \/ m = 10 \/ m = 11) as Hc by lia.
    repeat (destruct Hc as [-> | Hc]); try subst m;
      repeat match goal with
             | |- context [Z.pos ?p - 1] =>
                 let v := eval vm_compute in (Z.pos p - 1) in
                 change (Z.pos p - 1) with v
             end;
      cbn [DaysBeforeMonth Z.eqb Pos.eqb]; lia.
Qed.

Lemma iso_range_value {W : Type} (a b : Z) (w : W) :
  iso_range (Some a) (Some b) w = (inr (a, b), w).
Proof. reflexivity. Qed.

Section PresetFacts.

Variable tza : TimeZone.
Variable now : Z.
Hypothesis Hb : offsets_bounded tza.
Hypothesis Hd : keeps_date tza.
Hypothesis Hm : steady_at_midnight tza.
Hypothesis Hlo : 0 <= LocalTime tza now.
Hypothesis Hhi : Z.abs now + 70 * msPerDay <= maxTime.

Local Abbreviation t := (LocalTime tza now).
Local Abbreviation D := (Day t).
Local Abbreviation midnight := (local_midnight tza).

Lemma WeekDay_range : 0 <= WeekDay t <= 6.
Proof. unfold WeekDay. Z.div_mod_to_equations. lia. Qed.

Lemma Hhi40 : Z.abs now + 40 * msPerDay <= maxTime.
Proof. unfold msPerDay, maxTime in *. lia. Qed.

Lemma day_start_end (tv : Z) :
  Z.abs tv + 4 * msPerDay <= maxTime ->
  setHours tza (Some tv) 0 0 0 0
  = Some (midnight (Day (LocalTime tza tv))) /\
  setHours tza (Some tv) 23 59 59 999
  = Some (midnight (Day (LocalTime tza tv) + 1) - 1).
Proof.
  intros H. split.
  - apply (setHours_start tza Hb). unfold msPerDay, maxTime in *. lia.
  - rewrite (setHours_end tza Hb) by exact H.
    f_equal. apply (day_end_next_midnight tza Hm).
Qed.

(** The day [k] days from today, and its end. *)
Lemma shifted_day (k : Z) :
  -20 <= k <= 20 ->
  setHours tza
    (setDate tza (Some now) (Some (DateFromTime t + k))) 0 0 0 0
  = Some (midnight (D + k)) /\
  setHours tza (Some (midnight (D + k))) 23 59 59 999
  = Some (midnight (D + k + 1) - 1).
Proof.
  intros Hk. split.
  - apply (shifted_day_start tza Hb Hd).
    unfold msPerDay, maxTime in *. lia.
  - pose proof (local_midnight_near tza Hb (D + k)).
    pose proof (Day_near tza Hb now).
    destruct (day_start_end (midnight (D + k))) as [_ ->];
      [unfold msPerDay, maxTime in *; lia|].
    now rewrite (Day_local_midnight tza Hd).
Qed.

Lemma preset_today_value {W : Type} (w : W) :
  preset_today tza now w = (inr (midnight D, midnight (D + 1) - 1), w).
Proof.
  unfold preset_today. cbv zeta.
  destruct (day_start_end now) as [-> ->];
    [unfold msPerDay, maxTime in *; lia|].
  apply iso_range_value.
Qed.

Lemma preset_yesterday_value {W : Type} (w : W) :
  preset_yesterday tza now w
  = (inr (midnight (D - 1), midnight D - 1), w).
Proof.
  unfold preset_yesterday. cbv zeta.
  unfold getDate, option_map, num_sub.
  replace (DateFromTime t - 1) with (DateFromTime t + -1) by lia.
  destruct (shifted_day (-1) ltac:(lia)) as (-> & ->).
  rewrite iso_range_value.
  replace (D + -1) with (D - 1) by lia.
  replace (D - 1 + 1) with D by lia. reflexivity.
Qed.

Lemma preset_this_week_value {W : Type} (w : W) :
  preset_this_week tza now w
  = (inr (midnight (D - WeekDay t), midnight (D + 1) - 1), w).
Proof.
  unfold preset_this_week. cbv zeta.
  unfold getDate, getDay, option_map, num_sub.
  pose proof WeekDay_range as Hw.
  replace (DateFromTime t - WeekDay t) with (DateFromTime t + - WeekDay t)
    by lia.
  destruct (shifted_day (- WeekDay t) ltac:(lia)) as (-> & _).
  destruct (day_start_end now) as [_ ->];
    [unfold msPerDay, maxTime in *; lia|].
  rewrite iso_range_value.
  replace (D + - WeekDay t) with (D - WeekDay t) by lia. reflexivity.
Qed.

Lemma preset_last_week_value {W : Type} (w : W) :
  preset_last_week tza now w
  = (inr (midnight (D - WeekDay t - 7), midnight (D - WeekDay t) - 1), w).
Proof.
  unfold preset_last_week. cbv zeta.
  unfold getDate, getDay, option_map, num_sub, num_add.
  pose proof WeekDay_range as Hw.
  replace (DateFromTime t - WeekDay t - 7)
    with (DateFromTime t + (- WeekDay t - 7)) by lia.
  destruct (shifted_day (- WeekDay t - 7) ltac:(lia)) as (-> & _).
  cbv beta iota.
  replace (D + (- WeekDay t - 7)) with (D - WeekDay t - 7) by lia.
  set (d := D - WeekDay t - 7).
  pose proof (local_midnight_near tza Hb d).
  pose proof (Day_near tza Hb now).
  rewrite (shifted_day_end tza Hb Hd)
    by (unfold d, msPerDay, maxTime in *; lia).
  rewrite (Day_local_midnight tza Hd), (day_end_next_midnight tza Hm).
  rewrite iso_range_value.
  replace (d + 6 + 1) with (D - WeekDay t) by (unfold d; lia).
  reflexivity.
Qed.

Local Abbreviation Y := (YearFromTime t).
Local Abbreviation Mo := (MonthFromTime t).

Lemma preset_this_month_value {W : Type} (w : W) :
  preset_this_month tza now w
  = (inr (midnight (MakeDay Y Mo 1), midnight (MakeDay Y (Mo + 1) 1) - 1), w).
Proof.
  unfold preset_this_month. cbv zeta.
  rewrite <- TimeUtils.monthStart_eq, <- TimeUtils.monthEnd_eq.
  rewrite (Client.monthStart_value tza now Hb Hlo Hhi40),
    (Client.monthEnd_value tza now Hb Hlo Hhi40 Hd).
  rewrite (day_end_next_midnight tza Hm), iso_range_value.
  replace (MakeDay Y (Mo + 1) 1 - 1 + 1) with (MakeDay Y (Mo + 1) 1) by lia.
  reflexivity.
Qed.

Lemma preset_last_month_value {W : Type} (w : W) :
  preset_last_month tza now w
  = (inr (midnight (MakeDay Y (Mo - 1) 1), midnight (MakeDay Y Mo 1) - 1), w).
Proof.
  unfold preset_last_month. cbv zeta.
  unfold getFullYear, getMonth, option_map, num_sub.
  pose proof (Client.year_from_100 tza now Hlo) as Hy.
  destruct (Client.month_near tza now Hb) as [Hn1 _].
  destruct (MonthFromTime_bounds t) as (Hmo & _ & _).
  destruct (MakeDay_previous_month Y Mo Hmo) as (_ & _ & Hp).
  assert (E : MakeDay Y Mo 0 = MakeDay Y Mo 1 - 1) by (unfold MakeDay; lia).
  set (P := MakeDay Y (Mo - 1) 1) in *. set (F := MakeDay Y Mo 1) in *.
  rewrite (newDate_value tza Hb Y (Mo - 1) 1 Hy)
    by (fold P; unfold msPerDay, maxTime in *; lia).
  rewrite (newDate_value tza Hb Y Mo 0 Hy)
    by (rewrite E; unfold msPerDay, maxTime in *; lia).
  rewrite E. fold P.
  pose proof (local_midnight_near tza Hb (F - 1)).
  destruct (day_start_end (midnight (F - 1))) as [_ ->];
    [unfold msPerDay, maxTime in *; lia|].
  rewrite (Day_local_midnight tza Hd), iso_range_value.
  replace (F - 1 + 1) with F by lia. reflexivity.
Qed.

Lemma stats_week_starts_monday :
  Client.weekStart tza now
  = Some (midnight (if WeekDay t =? 0 then D - WeekDay t - 6
                    else D - WeekDay t + 1)).
Proof.
  rewrite (Client.weekStart_value tza now Hb Hhi40 Hd). do 2 f_equal.
  unfold Client.since_monday.
  destruct (Z.eqb_spec (WeekDay t) 0) as [H0 | Hn]; [rewrite H0|]; lia.
Qed.

End PresetFacts.

(** X22.
    The six date presets of the filter panel, in a time zone whose
    changes of offset stay inside a local day (offsets within a day of
    UTC; no local time carried to another date; no change at a local
    midnight) and for a clock reading in range.  Each preset runs from
    a local midnight to the last millisecond before a local midnight:
    "Yesterday" ends one millisecond before "Today" starts, "Last Week"
    one millisecond before "This Week", "Last Month" one millisecond
    before "This Month".  "This Week" and "Last Week" start on a
    Sunday, and "This Week" ends with today.  The statistics count
    their week from Monday: their week starts a day after the
    preset's, or six days before it when today is a Sunday. *)
Theorem presets_tile_the_calendar (tza : TimeZone) (now : Z)
        (W : Type) (w : W) :
  offsets_bounded tza -> keeps_date tza -> steady_at_midnight tza ->
  0 <= LocalTime tza now ->
  Z.abs now + 70 * msPerDay <= maxTime ->
  exists today sunday first next_first previous_first : Z,
    today = Day (LocalTime tza now) /\
    WeekDay (MakeDate sunday 0) = 0 /\
    sunday <= today < sunday + 7 /\
    Client.is_first_of_month (YearFromTime (LocalTime tza now))
                             (MonthFromTime (LocalTime tza now)) first /\
    first <= today < next_first /\
    Client.is_first_of_month
      (fst (Client.next_month (YearFromTime (LocalTime tza now))
                              (MonthFromTime (LocalTime tza now))))
      (snd (Client.next_month (YearFromTime (LocalTime tza now))
                              (MonthFromTime (LocalTime tza now))))
      next_first /\
    Client.is_first_of_month
      (fst (previous_month (YearFromTime (LocalTime tza now))
                           (MonthFromTime (LocalTime tza now))))
      (snd (previous_month (YearFromTime (LocalTime tza now))
                           (MonthFromTime (LocalTime tza now))))
      previous_first /\
    preset_today tza now w
    = (inr (local_midnight tza today,
            local_midnight tza (today + 1) - 1), w) /\
    preset_yesterday tza now w
    = (inr (local_midnight tza (today - 1),
            local_midnight tza today - 1), w) /\
    preset_this_week tza now w
    = (inr (local_midnight tza sunday,
            local_midnight tza (today + 1) - 1), w) /\
    preset_last_week tza now w
    = (inr (local_midnight tza (sunday - 7),
            local_midnight tza sunday - 1), w) /\
    preset_this_month tza now w
    = (inr (local_midnight tza first,
            local_midnight tza next_first - 1), w) /\
    preset_last_month tza now w
    = (inr (local_midnight tza previous_first,
            local_midnight tza first - 1), w) /\
    Client.weekStart tza now
    = Some (local_midnight tza
              (if WeekDay (LocalTime tza now) =? 0 then sunday - 6
               else sunday + 1)).
Proof.
  intros Hb Hd Hm Hlo Hhi.
  set (t := LocalTime tza now).
  pose proof (WeekDay_range tza now) as Hw. fold t in Hw.
  destruct (MonthFromTime_bounds t) as (Hmo & _ & _).
  destruct (month_span t) as [Hs1 Hs2].
  destruct (MakeDay_previous_month (YearFromTime t) (MonthFromTime t) Hmo)
    as (Hpe & Hpm & Hp).
  exists (Day t), (Day t - WeekDay t),
         (MakeDay (YearFromTime t) (MonthFromTime t) 1),
         (MakeDay (YearFromTime t) (MonthFromTime t + 1) 1),
         (MakeDay (YearFromTime t) (MonthFromTime t - 1) 1).
  split; [reflexivity|].
  split.
  { unfold WeekDay at 1.
    destruct (MakeDate_Day (Day t - WeekDay t) 0) as [-> _];
      [unfold msPerDay; lia|].
    unfold WeekDay. Z.div_mod_to_equations. lia. }
  split; [lia|].
  split; [now apply Client.first_of_month_value|].
  split; [lia|].
  split; [now apply Client.next_month_value|].
  split.
  { rewrite Hpe. now apply Client.first_of_month_value. }
  split; [now apply preset_today_value|].
  split; [now apply preset_yesterday_value|].
  split; [now apply preset_this_week_value|].
  split; [now apply preset_last_week_value|].
  split; [now apply preset_this_month_value|].
  split; [now apply preset_last_month_value|].
  now apply stats_week_starts_monday.
Qed.

(** Berlin on Sunday 2025-10-26, noon UTC, the day the clocks go back:
    "Today" is 25 hours long, "Yesterday" 24; the filter's week starts
    today, the week of the statistics six days ago. *)
Lemma presets_witness :
  preset_today berlin_2025 1761480000000 tt
  = (inr (1761429600000, 1761519599999), tt) /\
  preset_yesterday berlin_2025 1761480000000 tt
  = (inr (1761343200000, 1761429599999), tt) /\
  preset_this_week berlin_2025 1761480000000 tt
  = (inr (1761429600000, 1761519599999), tt) /\
  Client.weekStart berlin_2025 1761480000000 = Some 1760911200000.
Proof.
  destruct (presets_tile_the_calendar berlin_2025 1761480000000 unit tt
              berlin_2025_bounded berlin_2025_keeps_date berlin_2025_steady
              ltac:(vm_compute; discriminate) ltac:(vm_compute; discriminate))
    as (today & sunday & first & next_first & previous_first & Ht & _ & _ &
        _ & _ & _ & _ & H1 & H2 & H3 & _ & _ & _ & H7).
  assert (Hw : Client.weekStart berlin_2025 1761480000000
               = Some 1760911200000) by (vm_compute; reflexivity).
  assert (Hday : today = 20387) by (rewrite Ht; vm_compute; reflexivity).
  clear Ht. subst today.
  change (20387 + 1) with 20388 in *. change (20387 - 1) with 20386 in *.
  assert (E0 : local_midnight berlin_2025 20386 = 1761343200000)
    by (vm_compute; reflexivity).
  assert (E1 : local_midnight berlin_2025 20387 = 1761429600000)
    by (vm_compute; reflexivity).
  assert (E2 : local_midnight berlin_2025 20388 = 1761519600000)
    by (vm_compute; reflexivity).
  assert (Hsun : local_midnight berlin_2025 sunday = 1761429600000).
  { rewrite E2 in H3.
    assert (H4 : preset_this_week berlin_2025 1761480000000 tt
                 = (inr (1761429600000, 1761519599999), tt))
      by (vm_compute; reflexivity).
    rewrite H4 in H3. now injection H3 as <-. }
  rewrite H1, H2, H3, Hsun, E0, E1, E2. repeat split; reflexivity.
Defined.

(** ** The edit dialog ([EditTimeEntryModal]) *)

Definition HourFromTime (t : Z) : Z := (t / msPerHour) mod 24.
Definition MinFromTime (t : Z) : Z := (t / msPerMinute) mod 60.

(** The text of a [datetime-local] input, "YYYY-MM-DDTHH:mm", as the
    five numbers it spells ([month] from 1 to 12). *)
Record local_minute := mkMinute {
  year : Z;
  month : Z;
  day : Z;
  hour : Z;
  minute : Z
}.

(** [date.toISOString().slice(0, 16)] of a valid date with time value
    [t]: for a year from 0 to 9999 the first sixteen characters of the
    ISO text spell the year, month, day, hour and minute of [t] in UTC.
    For other years the ISO text begins with a sign and six digits of
    year, and its first sixteen characters are not such a text
    ([None]). *)
Definition input_text (t : Z) : option local_minute :=
  let y := YearFromTime t in
  if (0 <=? y) && (y <=? 9999) then
    Some (mkMinute y (MonthFromTime t + 1) (DateFromTime t)
                   (HourFromTime t) (MinFromTime t))
  else None.

(** [new Date(text)]: a date-time without an offset is read as local
    time; [tza] is the offset the zone has for that local time. *)
Definition Date_of_input (tza : Z) (m : local_minute) : Date :=
  TimeClip (UTC (fixed_offset tza)
                (MakeDate (MakeDay (year m) (month m - 1) (day m))
                          (MakeTime (hour m) (minute m) 0 0))).

(** What [handleSubmit] sends as [start_time] (and as [end_time]) when
    the field still holds the text the dialog was opened with. *)
Definition resubmitted (tza t : Z) : option Date :=
  option_map (Date_of_input tza) (input_text t).

(** X23.
    Opening the edit dialog and saving it untouched does not send the
    entry's own bounds back: a bound [t] comes back as the start of its
    minute, moved by the local offset from UTC (the field is filled with
    the UTC reading and read back as local time).  It is sent back
    unchanged only when the shift equals the seconds that were cut off,
    so in a zone that is a whole number of minutes from UTC only for
    UTC itself and a bound on the minute. *)
Theorem edit_dialog_moves_the_bounds (tza t : Z) (m : local_minute) :
  input_text t = Some m ->
  Z.abs (t - tza) + msPerMinute <= maxTime ->
  resubmitted tza t = Some (Some (t - t mod msPerMinute - tza)) /\
  (resubmitted tza t = Some (Some t) <-> tza = - (t mod msPerMinute)) /\
  (tza mod msPerMinute = 0 ->
   (resubmitted tza t = Some (Some t) <-> tza = 0 /\ t mod msPerMinute = 0)).
Proof.
  intros Hm Hr.
  assert (Hv : resubmitted tza t = Some (Some (t - t mod msPerMinute - tza))).
  { unfold resubmitted. rewrite Hm. cbn [option_map]. f_equal.
    unfold input_text in Hm. cbv zeta in Hm.
    destruct (_ && _); [|discriminate].
    assert (Hm' : m = mkMinute (YearFromTime t) (MonthFromTime t + 1)
                               (DateFromTime t) (HourFromTime t)
                               (MinFromTime t)) by congruence.
    subst m.
    unfold Date_of_input. cbn [year month day hour minute].
    replace (MonthFromTime t + 1 - 1) with (MonthFromTime t) by lia.
    pose proof (MakeDay_same_month t 0) as Hd. rewrite !Z.add_0_r in Hd.
    rewrite Hd.
    assert (Ht : UTC (fixed_offset tza)
                     (MakeDate (Day t)
                        (MakeTime (HourFromTime t) (MinFromTime t) 0 0))
                 = t - t mod msPerMinute - tza).
    { unfold UTC, fixed_offset, MakeDate, MakeTime, HourFromTime,
        MinFromTime, Day, msPerDay, msPerHour, msPerMinute, msPerSecond.
      Z.div_mod_to_equations. lia. }
    rewrite Ht. apply TimeClip_some.
    unfold msPerMinute, maxTime in *. Z.div_mod_to_equations. lia. }
  split; [exact Hv|]. rewrite Hv. split.
  - split; [intros [= H]; lia | intros ->; do 2 f_equal; lia].
  - intros Hz. split.
    + intros [= H]. unfold msPerMinute in *. Z.div_mod_to_equations. lia.
    + intros [-> H0]. do 2 f_equal. lia.
Qed.

(** An entry started on 2025-11-02 at 00:00:30.500 UTC, edited in a
    browser one hour east of UTC: the start goes back to 23:00:00 UTC
    of the day before. *)
Lemma edit_dialog_witness :
  resubmitted 3600000 1762041630500 = Some (Some 1762038000000).
Proof.
  destruct (edit_dialog_moves_the_bounds 3600000 1762041630500
              (mkMinute 2025 11 2 0 0) eq_refl
              ltac:(vm_compute; discriminate)) as [H _].
  exact H.
Defined.

(** ** The form schemas: "End time must be after start time" *)

(** The [.refine] that [createTimeEntrySchema], [updateTimeEntrySchema]
    and [timeEntryFormSchema] share.  The dates are valid ([z.date()]
    has accepted them) and given by their time values; [None] is a
    missing bound ([start_time] can only be missing in the update
    schema). *)
Definition end_after_start (start_time end_time : option Z) : bool :=
  match end_time, start_time with
  | Some e, Some s => s <? e
  | _, _ => true
  end.

(** X24.
    "End after start" is the same rule in the form, in the route
    handlers and in the table.  For an entry with both bounds, sent as
    two texts that read back as the time values [a] and [b]: the
    refinement of the schemas accepts it exactly when the basic
    validation of the POST and PATCH handlers lets it through, and
    exactly when the CHECK constraint of the table accepts the tuple;
    equal bounds are refused three times.  An entry without an end
    passes all three. *)
Theorem one_rule_in_three_places (Date_parse : string -> option Z)
        (sa sb : string) (a b : Z) (r : Store.row) :
  Date_parse sa = Some a -> Date_parse sb = Some b ->
  sa <> ""%string -> sb <> ""%string ->
  Store.start_time r = Some (1000 * a) ->
  let sent := mkBody None None None (Some sa) (Some sb) in
  let open_ := mkBody None None None (Some sa) None in
  (Store.end_time r = Some (1000 * b) ->
   end_after_start (Some a) (Some b)
   = negb (Http.end_not_after_start Date_parse sent) /\
   end_after_start (Some a) (Some b)
   = Store.check_passes (Store.chk_end_after_start r) /\
   (a = b -> end_after_start (Some a) (Some b) = false)) /\
  (Store.end_time r = None ->
   end_after_start (Some a) None = true /\
   Http.end_not_after_start Date_parse open_ = false /\
   Store.check_passes (Store.chk_end_after_start r) = true).
Proof.
  intros Ha Hb Hna Hnb Hs sent open_. split.
  - intros He. unfold end_after_start. split; [|split].
    + unfold Http.end_not_after_start, sent, truthy.
      cbn [b_start_time b_end_time].
      destruct (String.eqb_spec sa ""); [contradiction|].
      destruct (String.eqb_spec sb ""); [contradiction|].
      cbn [negb andb]. rewrite Ha, Hb.
      destruct (Z.ltb_spec a b), (Z.leb_spec b a); try reflexivity; lia.
    + unfold Store.chk_end_after_start, Store.sql_is_null, Store.sql_gt,
        Store.sql_or, Store.check_passes.
      rewrite He, Hs. cbn [is_none].
      destruct (Z.ltb_spec a b), (Z.ltb_spec (1000 * a) (1000 * b));
        try reflexivity; lia.
    + intros ->. apply Z.ltb_irrefl.
  - intros He. split; [reflexivity|]. split; [reflexivity|].
    unfold Store.chk_end_after_start, Store.sql_is_null.
    rewrite He. reflexivity.
Qed.

Lemma one_rule_witness :
  end_after_start (Some 1762041600000) (Some 1762041600000) = false.
Proof.
  destruct (one_rule_in_three_places
              (fun _ => Some 1762041600000) "a" "b"
              1762041600000 1762041600000
              (Store.finished_draft 1 7 Store.t0 Store.t0 0)
              eq_refl eq_refl ltac:(discriminate) ltac:(discriminate)
              eq_refl) as [H _].
  destruct (H eq_refl) as (_ & _ & Heq). exact (Heq eq_refl).
Defined.

End Components.
